(** * echo-openapidocs: handlers serving OpenAPI documentation pages

  A shallow embedding of the four provider modules of the package
  [openapidocs] (Stoplight Elements, Scalar, Swagger UI, Redoc) and of the
  pieces of the Go standard library and of echo that their handlers call,
  followed by the properties of the routing, redirect and spec-serving
  contract. *)

From Stdlib Require Import String Ascii List Bool Arith ZArith Lia.
From Stdlib Require Import Numbers.DecimalString.
Import ListNotations.

Local Set Warnings "-register-all".
Local Open Scope list_scope.
Local Open Scope string_scope.

(** ** Go strings

  A Go string is a sequence of bytes; [string] (a list of [ascii]) has the
  same shape.  [len] is [String.length], [s[i:j]] is [substring i (j-i) s]. *)

Module strings.

(** [func HasSuffix(s, suffix string) bool {
       return len(s) >= len(suffix) && s[len(s)-len(suffix):] == suffix }] *)
Definition HasSuffix (s suffix : string) : bool :=
  (String.length suffix <=? String.length s)%nat
  && String.eqb
       (substring (String.length s - String.length suffix)
                  (String.length suffix) s)
       suffix.

(** [func TrimSuffix(s, suffix string) string {
       if HasSuffix(s, suffix) { return s[:len(s)-len(suffix)] }
       return s }] *)
Definition TrimSuffix (s suffix : string) : string :=
  if HasSuffix s suffix
  then substring 0 (String.length s - String.length suffix) s
  else s.

End strings.

(** ** Package path: [Clean] and [Join] *)

Module path.

Definition slash : ascii := "/"%char.
Definition dot : ascii := "."%char.

(** [out.append(c)]: the buffer is kept as the string [buf[:w]], so that
    [out.w] is its length. *)
Definition append (out : string) (c : ascii) : string :=
  out ++ String c EmptyString.

(** [out.index(i)]: the byte at position [i] of the buffer. *)
Definition index (out : string) (i : nat) : ascii :=
  match String.get i out with
  | Some c => c
  | None => zero
  end.

(** [for out.w > dotdot && out.index(out.w) != '/' { out.w-- }] *)
Fixpoint backtrack (out : string) (dotdot w : nat) : nat :=
  match w with
  | O => O
  | S w' =>
      if (dotdot <? w)%nat && negb (Ascii.eqb (index out w) slash)
      then backtrack out dotdot w'
      else w
  end.

(** [for ; r < n && path[r] != '/'; r++ { out.append(path[r]) }]:
    returns the buffer and the unread rest [path[r:]]. *)
Fixpoint copyElement (rest out : string) : string * string :=
  match rest with
  | EmptyString => (rest, out)
  | String c rest' =>
      if Ascii.eqb c slash then (rest, out)
      else copyElement rest' (append out c)
  end.

(** One turn of the [for r < n] loop of [Clean], on the unread rest
    [path[r:]], the buffer and [dotdot]. *)
Definition cleanStep (rooted : bool) (rest out : string) (dotdot : nat)
  : string * string * nat :=
  match rest with
  | EmptyString => (rest, out, dotdot)
  | String c1 t1 =>
      if Ascii.eqb c1 slash then
        (* empty path element *)
        (t1, out, dotdot)
      else if Ascii.eqb c1 dot
              && match t1 with
                 | EmptyString => true
                 | String c2 _ => Ascii.eqb c2 slash
                 end then
        (* . element *)
        (t1, out, dotdot)
      else if Ascii.eqb c1 dot
              && match t1 with
                 | String c2 EmptyString => Ascii.eqb c2 dot
                 | String c2 (String c3 _) =>
                     Ascii.eqb c2 dot && Ascii.eqb c3 slash
                 | EmptyString => false
                 end then
        (* .. element: remove to last / *)
        let t2 := match t1 with String _ t2 => t2 | EmptyString => t1 end in
        let w := String.length out in
        if (dotdot <? w)%nat then
          (* can backtrack *)
          let w' := backtrack out dotdot (w - 1) in
          (t2, substring 0 w' out, dotdot)
        else if negb rooted then
          (* cannot backtrack, but not rooted, so append .. element *)
          let out1 := if (0 <? w)%nat then append out slash else out in
          let out2 := append (append out1 dot) dot in
          (t2, out2, String.length out2)
        else (t2, out, dotdot)
      else
        (* real path element: add slash if needed, copy element *)
        let w := String.length out in
        let out1 :=
          if (rooted && negb (w =? 1)%nat) || (negb rooted && negb (w =? 0)%nat)
          then append out slash else out in
        let '(rest', out2) := copyElement rest out1 in
        (rest', out2, dotdot)
  end.

(** The loop itself; every turn reads at least one byte, so [fuel] equal
    to the number of unread bytes is enough (see [cleanLoop_fuel]). *)
Fixpoint cleanLoop (fuel : nat) (rooted : bool) (rest out : string)
         (dotdot : nat) : string :=
  match fuel with
  | O => out
  | S fuel' =>
      match rest with
      | EmptyString => out
      | _ =>
          let '(rest', out', dotdot') := cleanStep rooted rest out dotdot in
          cleanLoop fuel' rooted rest' out' dotdot'
      end
  end.

(** [func Clean(path string) string] *)
Definition Clean (p : string) : string :=
  match p with
  | EmptyString => "."
  | String c0 t0 =>
      let rooted := Ascii.eqb c0 slash in
      let out :=
        if rooted
        then cleanLoop (String.length t0) rooted t0 (String slash EmptyString) 1
        else cleanLoop (String.length p) rooted p EmptyString 0 in
      (* Turn empty string into "." *)
      if (String.length out =? 0)%nat then "." else out
  end.

(** [func Join(elem ...string) string] *)
Definition Join (elem : list string) : string :=
  let size := fold_left (fun n e => n + String.length e) elem 0 in
  if (size =? 0)%nat then ""
  else
    let buf :=
      fold_left
        (fun buf e =>
           if (0 <? String.length buf)%nat || negb (String.eqb e "")
           then (if (0 <? String.length buf)%nat then append buf slash else buf)
                  ++ e
           else buf)
        elem "" in
    Clean buf.

End path.

(** ** net/http and echo, as far as the handlers use them *)

Module http.
Definition StatusOK : Z := 200.
Definition StatusFound : Z := 302.
End http.

Module echo.

(** What reaches the client: status line, headers, body. *)
Record Response := {
  Status : Z;
  Header : list (string * string);
  Body : string
}.

(** A handler returns after writing a response, returns an error, or
    panics. *)
Inductive Result :=
| Responded (r : Response)
| Failed (err : string)
| Panicked (v : string).

(** The request as the handlers see it through [echo.Context]:
    [c.Request().URL.Path] and the path parameters of the matched route.
    The other fields are there, and no handler reads them. *)
Record Context := {
  Request_Method : string;
  Request_URL_Path : string;
  Request_URL_RawQuery : string;
  Request_Header : list (string * string);
  pnames : list string;
  pvalues : list string
}.

(** [func (c *context) Param(name string) string] *)
Fixpoint lookupParam (name : string) (names values : list string) : string :=
  match names, values with
  | n :: names', v :: values' =>
      if String.eqb n name then v else lookupParam name names' values'
  | _, _ => ""
  end.

Definition Param (c : Context) (name : string) : string :=
  lookupParam name (pnames c) (pvalues c).

Definition HeaderContentType : string := "Content-Type".
Definition HeaderLocation : string := "Location".
Definition MIMETextHTMLCharsetUTF8 : string := "text/html; charset=UTF-8".
Definition ErrInvalidRedirectCode : string := "invalid redirect status code".

(** [func (c *context) Blob(code int, contentType string, b []byte) error] *)
Definition Blob (code : Z) (contentType : string) (b : string) : Result :=
  Responded {| Status := code;
               Header := [(HeaderContentType, contentType)];
               Body := b |}.

(** [func (c *context) HTML(code int, html string) error] *)
Definition HTML (code : Z) (html : string) : Result :=
  Blob code MIMETextHTMLCharsetUTF8 html.

(** [func (c *context) Redirect(code int, url string) error] *)
Definition Redirect (code : Z) (url : string) : Result :=
  if ((code <? 300) || (308 <? code))%Z
  then Failed ErrInvalidRedirectCode
  else Responded {| Status := code;
                    Header := [(HeaderLocation, url)];
                    Body := "" |}.

Definition HandlerFunc : Type := Context -> Result.

Record Route := {
  Method : string;
  Path : string;
  Handler : HandlerFunc
}.

(** The [*echo.Echo] instance, as far as registration changes it: its
    routes, latest first. *)
Definition Echo : Type := list Route.

(** [func (e *Echo) GET(path string, h HandlerFunc, ...)] *)
Definition GET (e : Echo) (path : string) (h : HandlerFunc) : Echo :=
  {| Method := "GET"; Path := path; Handler := h |} :: e.

End echo.

(** Code that runs before the server starts either completes with a value
  or panics, which ends the program. *)
Inductive Startup (A : Type) :=
| Ready (a : A)
| Panic (v : string).
Arguments Ready {A} a.
Arguments Panic {A} v.

Definition bind {A B : Type} (m : Startup A) (k : A -> Startup B) : Startup B :=
  match m with
  | Ready a => k a
  | Panic v => Panic v
  end.

Notation "x <- m ;; k" := (bind m (fun x => k))
  (at level 61, m at next level, right associativity).

(** ** html/template and encoding/json

  Both are libraries outside the repository.  Their behaviour on arbitrary
  template texts and arbitrary strings is taken as a parameter; what the
  repository's own template texts and struct tags say is embedded below. *)

Module template.

(** The data a template is executed on, as reflection shows it: exported
    fields by name, outer fields before the promoted fields of an embedded
    struct, so that the first match is the field Go selects. *)
Inductive Value :=
| VString (s : string)
| VBool (b : bool)
| VInt (n : Z)
| VJS (s : string)
| VStruct (fields : list (string * Value)).

Definition Data : Type := list (string * Value).

Class Library := {
  (** [*template.Template] *)
  Template : Type;
  (** [template.New("T").Parse(text)]: a template or an error. *)
  Parse : string -> Template + string;
  (** [t.Execute(buf, data)]: the text written to the buffer or an error. *)
  Execute : Template -> Data -> string + string;
  (** The escapers that contextual autoescaping inserts: in the body of
      [<title>], in a quoted attribute value, and in a quoted attribute
      value that holds a URL. *)
  escape_rcdata : string -> string;
  escape_attr : string -> string;
  escape_url_attr : string -> string;
  (** encoding/json's encoding of a Go string, quotes included. *)
  json_string : string -> string
}.

(** The parsed page template of a handler: the provider's built-in
    template, or what the library made of another text.  The built-in
    texts are part of the repository: they parse, and what executing them
    writes is embedded with each provider ([defaultElementsPage] and the
    like); every field they name is a field of the parameters, so
    executing them has no error. *)
Inductive Page `{Library} :=
| Builtin
| Parsed (t : Template).

(** [template.New("T").Parse(text)] for a provider whose built-in template
    text is [builtin]. *)
Definition ParsePage `{Library} (builtin text : string) : Page + string :=
  if String.eqb text builtin then inl Builtin
  else match Parse text with
       | inl t => inl (Parsed t)
       | inr err => inr err
       end.

(** [pageTmpl.Execute(buf, params)]: [page] is the embedding of the
    built-in template, [fields] the reflection view of the parameters. *)
Definition ExecutePage `{Library} {P : Type}
           (page : P -> string) (fields : P -> Data)
           (t : Page) (params : P) : string + string :=
  match t with
  | Builtin => inl (page params)
  | Parsed t => Execute t (fields params)
  end.

(** [template.Must] *)
Definition Must {A : Type} (r : A + string) : Startup A :=
  match r with
  | inl t => Ready t
  | inr err => Panic err
  end.

(** The double quote, and template text written with a backquote in
    place of every double quote (a Go raw string holds no backquote). *)
Definition dq : string := String (ascii_of_nat 34) EmptyString.

Fixpoint raw (s : string) : string :=
  match s with
  | EmptyString => EmptyString
  | String c s' =>
      String (if Ascii.eqb c (ascii_of_nat 96) then ascii_of_nat 34 else c)
             (raw s')
  end.

(** An attribute as a built-in template writes it: a line break, the
    indentation, [name="value"]. *)
Record Attr := {
  indent : string;
  name : string;
  value : string
}.

Definition newline : string := String (ascii_of_nat 10) EmptyString.
Definition tab : string := String (ascii_of_nat 9) EmptyString.

Definition renderAttr (a : Attr) : string :=
  newline ++ indent a ++ name a ++ "=" ++ dq ++ value a ++ dq.

Definition renderAttrs (l : list Attr) : string :=
  String.concat "" (map renderAttr l).

(** [fmt.Sprint] of an [int]. *)
Definition Sprint_int (n : Z) : string :=
  NilZero.string_of_int (Z.to_int n).

End template.

Module json.

Import template.

(** The values the repository marshals: structs of booleans, strings and
    structs. *)
Inductive JSON :=
| JBool (b : bool)
| JString (s : string)
| JObject (members : list (string * JSON)).

(** A struct field with tag [json:"key"]. *)
Definition field (key : string) (v : JSON) : list (string * JSON) :=
  [(key, v)].

(** A struct field with tag [json:"key,omitempty"]. *)
Definition omitempty_bool (key : string) (b : bool) : list (string * JSON) :=
  if b then [(key, JBool b)] else [].

Definition omitempty_string (key s : string) : list (string * JSON) :=
  if String.eqb s "" then [] else [(key, JString s)].

Definition keys (v : JSON) : list string :=
  match v with
  | JObject members => map fst members
  | _ => []
  end.

(** [json.Marshal]: members in field order, separated by commas. *)
Fixpoint Marshal `{Library} (v : JSON) : string :=
  match v with
  | JBool true => "true"
  | JBool false => "false"
  | JString s => json_string s
  | JObject members =>
      "{" ++ String.concat ","
               (map (fun kv => dq ++ fst kv ++ dq ++ ":" ++ Marshal (snd kv))
                    members)
          ++ "}"
  end.

End json.

(** ** elements.go: Stoplight Elements *)

Module elements.

Definition ElementsRouter : Type := string.
Definition ElementsRouterHash : ElementsRouter := "hash".
Definition ElementsRouterHistory : ElementsRouter := "history".
Definition ElementsRouterMemory : ElementsRouter := "memory".

Definition ElementsLayout : Type := string.
Definition ElementsLayoutSidebar : ElementsLayout := "sidebar".
Definition ElementsLayoutResponsive : ElementsLayout := "responsive".
Definition ElementsLayoutStacked : ElementsLayout := "stacked".

Definition ElementsTryItCredentialsPolicy : Type := string.
Definition ElementsTryItCredentialsPolicyOmit : ElementsTryItCredentialsPolicy := "omit".
Definition ElementsTryItCredentialsInclude : ElementsTryItCredentialsPolicy := "include".
Definition ElementsTryItCredentialsSameOrigin : ElementsTryItCredentialsPolicy := "same-origin".

Record ElementsConfig := {
  Spec : string;
  SpecUrl : string;
  Title : string;
  Template : string;
  Router : ElementsRouter;
  Layout : ElementsLayout;
  HideInternal : bool;
  HideTryIt : bool;
  HideSchemas : bool;
  HideExport : bool;
  TryItCorsProxy : string;
  TryItCredentialsPolicy : ElementsTryItCredentialsPolicy;
  Logo : string
}.

(** [Embedded] is the embedded [ElementsConfig]. *)
Record elementsTemplateParams := {
  Embedded : ElementsConfig;
  BasePath : string;
  ApiDescriptionUrl : string
}.

Definition defaultElementsTemplate : string := template.raw
"<html lang=`en`>
<head>
  <meta charset=`utf-8`>
  <meta name=`viewport` content=`width=device-width, initial-scale=1`>
  <title>{{ .Title }}</title>
  <script src=`https://unpkg.com/@stoplight/elements/web-components.min.js`></script>
  <link rel=`stylesheet` href=`https://unpkg.com/@stoplight/elements/styles.min.css`>
</head>
<body>
  <elements-api
    apiDescriptionUrl=`{{ .ApiDescriptionUrl }}`
    {{- if ne .BasePath `` }}
    basePath=`{{ .BasePath }}`
    {{- end }}
    {{- if .HideInternal }}
    hideInternal=`true`
    {{- end }}
    {{- if .HideTryIt }}
    hideTryIt=`true`
    {{- end }}
    {{- if .HideSchemas }}
    hideSchemas=`true`
    {{- end }}
    {{- if .HideExport }}
    hideExport=`true`
    {{- end }}
    {{- if ne .TryItCorsProxy `` }}
    tryItCorsProxy=`{{ .TryItCorsProxy }}`
    {{- end }}
    {{- if and (ne .TryItCredentialsPolicy ``) (ne .TryItCredentialsPolicy `omit`) }}
    tryItCredentialsPolicy=`{{ .TryItCredentialsPolicy }}`
    {{- end }}
    layout=`{{ .Layout }}`
    {{- if ne .Logo `` }}
    logo=`{{ .Logo }}`
    {{- end }}
    router=`{{ .Router }}`
  />
</body>
</html>
".

Definition DefaultElementsConfig : ElementsConfig := {|
  Spec := "";
  SpecUrl := "";
  Title := "API documentation with Stoplight Elements";
  Template := defaultElementsTemplate;
  Router := ElementsRouterHistory;
  Layout := ElementsLayoutSidebar;
  HideInternal := false;
  HideTryIt := false;
  HideSchemas := false;
  HideExport := false;
  TryItCorsProxy := "";
  TryItCredentialsPolicy := ElementsTryItCredentialsPolicyOmit;
  Logo := ""
|}.

(** The defaulting at the head of [ElementsDocumentsHandler]: each of the
    five tests reads and writes its own field of the handler's copy of the
    configuration. *)
Definition normalize (config : ElementsConfig) : ElementsConfig := {|
  Spec := Spec config;
  SpecUrl := SpecUrl config;
  Title :=
    if Title config =? "" then Title DefaultElementsConfig else Title config;
  Template :=
    if Template config =? "" then Template DefaultElementsConfig
    else Template config;
  Router :=
    if Router config =? "" then Router DefaultElementsConfig
    else Router config;
  Layout :=
    if Layout config =? "" then Layout DefaultElementsConfig
    else Layout config;
  HideInternal := HideInternal config;
  HideTryIt := HideTryIt config;
  HideSchemas := HideSchemas config;
  HideExport := HideExport config;
  TryItCorsProxy := TryItCorsProxy config;
  TryItCredentialsPolicy :=
    if TryItCredentialsPolicy config =? ""
    then TryItCredentialsPolicy DefaultElementsConfig
    else TryItCredentialsPolicy config;
  Logo := Logo config
|}.

(** The exported fields of the configuration and of the template
    parameters, as a template reaches them by name. *)
Definition ElementsConfig_fields (config : ElementsConfig) : template.Data := [
  ("Spec", template.VString (Spec config));
  ("SpecUrl", template.VString (SpecUrl config));
  ("Title", template.VString (Title config));
  ("Template", template.VString (Template config));
  ("Router", template.VString (Router config));
  ("Layout", template.VString (Layout config));
  ("HideInternal", template.VBool (HideInternal config));
  ("HideTryIt", template.VBool (HideTryIt config));
  ("HideSchemas", template.VBool (HideSchemas config));
  ("HideExport", template.VBool (HideExport config));
  ("TryItCorsProxy", template.VString (TryItCorsProxy config));
  ("TryItCredentialsPolicy", template.VString (TryItCredentialsPolicy config));
  ("Logo", template.VString (Logo config))
].

Definition elementsTemplateParams_fields (params : elementsTemplateParams)
  : template.Data :=
  ([ ("ElementsConfig",
     template.VStruct (ElementsConfig_fields (Embedded params)));
    ("BasePath", template.VString (BasePath params));
    ("ApiDescriptionUrl", template.VString (ApiDescriptionUrl params)) ]
  ++ ElementsConfig_fields (Embedded params))%list.

Definition attr (name value : string) : template.Attr :=
  {| template.indent := "    "; template.name := name; template.value := value |}.

Section Handler.
Context `{template.Library}.

(** The attributes of the [<elements-api>] tag of [defaultElementsTemplate],
    in the order of the template: an [if] action guards an attribute, and
    the trim marker of [{{- if]/[{{- end] removes the line break before
    it. *)
Definition elementsAttrs (params : elementsTemplateParams)
  : list template.Attr :=
  let config := Embedded params in
  ([attr "apiDescriptionUrl"
        (template.escape_url_attr (ApiDescriptionUrl params))]
  ++ (if negb (BasePath params =? "")
      then [attr "basePath" (template.escape_attr (BasePath params))] else [])
  ++ (if HideInternal config then [attr "hideInternal" "true"] else [])
  ++ (if HideTryIt config then [attr "hideTryIt" "true"] else [])
  ++ (if HideSchemas config then [attr "hideSchemas" "true"] else [])
  ++ (if HideExport config then [attr "hideExport" "true"] else [])
  ++ (if negb (TryItCorsProxy config =? "")
      then [attr "tryItCorsProxy"
                 (template.escape_attr (TryItCorsProxy config))] else [])
  ++ (if negb (TryItCredentialsPolicy config =? "")
         && negb (TryItCredentialsPolicy config =? "omit")
      then [attr "tryItCredentialsPolicy"
                 (template.escape_attr (TryItCredentialsPolicy config))]
      else [])
  ++ [attr "layout" (template.escape_attr (Layout config))]
  ++ (if negb (Logo config =? "")
      then [attr "logo" (template.escape_attr (Logo config))] else [])
  ++ [attr "router" (template.escape_attr (Router config))])%list.

(** What executing [defaultElementsTemplate] writes. *)
Definition defaultElementsPage (params : elementsTemplateParams) : string :=
  template.raw
"<html lang=`en`>
<head>
  <meta charset=`utf-8`>
  <meta name=`viewport` content=`width=device-width, initial-scale=1`>
  <title>"
  ++ template.escape_rcdata (Title (Embedded params))
  ++ template.raw
"</title>
  <script src=`https://unpkg.com/@stoplight/elements/web-components.min.js`></script>
  <link rel=`stylesheet` href=`https://unpkg.com/@stoplight/elements/styles.min.css`>
</head>
<body>
  <elements-api"
  ++ template.renderAttrs (elementsAttrs params)
  ++ template.raw
"
  />
</body>
</html>
".

(** The handler that [ElementsDocumentsHandler] returns: the closure over
    the defaulted [config], [useSpecUrl] and [pageTmpl]. *)
Definition handlerFunc (config : ElementsConfig) (useSpecUrl : bool)
           (pageTmpl : template.Page) : echo.HandlerFunc :=
  fun c : echo.Context =>
  let p := echo.Request_URL_Path c in
  (* determine the base path *)
  let relPath := echo.Param c "*" in
  let basePath := strings.TrimSuffix p relPath in
  let page (specUrl : string) : echo.Result :=
    if negb (Router config =? ElementsRouterHistory) && negb (relPath =? "")
    then
      (* If the router is not history mode, the document site only works
         with the base path. *)
      echo.Redirect http.StatusFound basePath
    else
      let params := {| Embedded := config;
                       BasePath := basePath;
                       ApiDescriptionUrl := specUrl |} in
      match template.ExecutePage defaultElementsPage
              elementsTemplateParams_fields pageTmpl params with
      | inr err => echo.Panicked err
      | inl buf => echo.HTML http.StatusOK buf
      end in
  if negb useSpecUrl then
    let specUrl := path.Join [basePath; "openapi-spec"] in
    if strings.HasSuffix p specUrl
    then echo.Blob http.StatusOK "text/plain; charset=utf-8" (Spec config)
    else page specUrl
  else page (SpecUrl config).

(** [func ElementsDocumentsHandler(config ElementsConfig) echo.HandlerFunc] *)
Definition ElementsDocumentsHandler (config : ElementsConfig)
  : Startup echo.HandlerFunc :=
  let config := normalize config in
  useSpecUrl <-
    (if Spec config =? "" then
       if SpecUrl config =? ""
       then Panic "either Spec or SpecUrl must be set"
       else Ready true
     else Ready false) ;;
  pageTmpl <-
    template.Must (template.ParsePage defaultElementsTemplate (Template config)) ;;
  Ready (handlerFunc config useSpecUrl pageTmpl).

(** [func ElementsDocuments(e *echo.Echo, pathPrefix string, config ElementsConfig)] *)
Definition ElementsDocuments (e : echo.Echo) (pathPrefix : string)
           (config : ElementsConfig) : Startup echo.Echo :=
  h <- ElementsDocumentsHandler config ;;
  Ready (echo.GET e (pathPrefix ++ "*") h).

End Handler.

End elements.

(** ** scalar.go: Scalar API Reference *)

Module scalar.

Definition ScalarLayout : Type := string.
Definition ScalarLayoutModern : ScalarLayout := "modern".
Definition ScalarLayoutClassic : ScalarLayout := "classic".

Definition ScalarTheme : Type := string.
Definition ScalarThemeAlternate : ScalarTheme := "alternate".
Definition ScalarThemeDefault : ScalarTheme := "default".
Definition ScalarThemeMoon : ScalarTheme := "moon".
Definition ScalarThemePurple : ScalarTheme := "purple".
Definition ScalarThemeSolarized : ScalarTheme := "solarized".
Definition ScalarThemeBluePlanet : ScalarTheme := "bluePlanet".
Definition ScalarThemeSaturn : ScalarTheme := "saturn".
Definition ScalarThemeMars : ScalarTheme := "mars".
Definition ScalarThemeDeepSpace : ScalarTheme := "deepSpace".
Definition ScalarThemeNone : ScalarTheme := "none".

Record ScalarConfig := {
  Spec : string;
  SpecUrl : string;
  Title : string;
  Template : string;
  IsEditable : bool;
  ProxyUrl : string;
  DarkMode : bool;
  Layout : ScalarLayout;
  Theme : ScalarTheme;
  HideSidebar : bool;
  SearchHotKey : string
}.

(** [Embedded] is the embedded [ScalarConfig]; [ApiReferenceConfiguration]
    has type [htmltemplate.JS]. *)
Record scalarTemplateParams := {
  Embedded : ScalarConfig;
  BasePath : string;
  ApiReferenceConfiguration : string
}.

(** The structs that are marshalled into the page; a module of their own,
    since their field names repeat those of [ScalarConfig]. *)
Module conf.

Record apiReferenceConfigurationSpec := {
  URL : string
}.

Record apiReferenceConfiguration := {
  IsEditable : bool;
  Spec : apiReferenceConfigurationSpec;
  ProxyUrl : string;
  DarkMode : bool;
  Layout : ScalarLayout;
  Theme : ScalarTheme;
  ShowSidebar : bool;
  SearchHotKey : string
}.

(** The struct tags: [url] and [spec] and [showSidebar] are always written,
    the others carry [omitempty]. *)
Definition apiReferenceConfigurationSpec_json
           (v : apiReferenceConfigurationSpec) : json.JSON :=
  json.JObject (json.field "url" (json.JString (URL v))).

Definition apiReferenceConfiguration_json (v : apiReferenceConfiguration)
  : json.JSON :=
  json.JObject
    (json.omitempty_bool "isEditable" (IsEditable v)
     ++ json.field "spec" (apiReferenceConfigurationSpec_json (Spec v))
     ++ json.omitempty_string "proxyUrl" (ProxyUrl v)
     ++ json.omitempty_bool "darkMode" (DarkMode v)
     ++ json.omitempty_string "layout" (Layout v)
     ++ json.omitempty_string "theme" (Theme v)
     ++ json.field "showSidebar" (json.JBool (ShowSidebar v))
     ++ json.omitempty_string "searchHotKey" (SearchHotKey v))%list.

End conf.

Definition defaultScalarTemplate : string := template.raw
"<html lang=`en`>
<head>
  <meta charset=`utf-8`>
  <meta name=`viewport` content=`width=device-width, initial-scale=1`>
  <title>{{ .Title }}</title>
</head>
<body>
  <script id=`api-reference` type=`application/json`></script>
  <script>
    var configuration = {{ .ApiReferenceConfiguration }};
    var apiReference = document.getElementById('api-reference');
    apiReference.dataset.configuration = JSON.stringify(configuration);
  </script>
  <script src=`https://cdn.jsdelivr.net/npm/@scalar/api-reference`></script>
</body>
</html>
".

Definition DefaultScalarConfig : ScalarConfig := {|
  Spec := "";
  SpecUrl := "";
  Title := "API documentation with Scalar";
  Template := defaultScalarTemplate;
  IsEditable := false;
  ProxyUrl := "";
  DarkMode := false;
  Layout := ScalarLayoutModern;
  Theme := ScalarThemeDefault;
  HideSidebar := false;
  SearchHotKey := ""
|}.

(** The defaulting at the head of [ScalarDocumentsHandler]: [Template] and
    [Title], nothing else. *)
Definition normalize (config : ScalarConfig) : ScalarConfig := {|
  Spec := Spec config;
  SpecUrl := SpecUrl config;
  Title :=
    if Title config =? "" then Title DefaultScalarConfig else Title config;
  Template :=
    if Template config =? "" then Template DefaultScalarConfig
    else Template config;
  IsEditable := IsEditable config;
  ProxyUrl := ProxyUrl config;
  DarkMode := DarkMode config;
  Layout := Layout config;
  Theme := Theme config;
  HideSidebar := HideSidebar config;
  SearchHotKey := SearchHotKey config
|}.

Definition ScalarConfig_fields (config : ScalarConfig) : template.Data := [
  ("Spec", template.VString (Spec config));
  ("SpecUrl", template.VString (SpecUrl config));
  ("Title", template.VString (Title config));
  ("Template", template.VString (Template config));
  ("IsEditable", template.VBool (IsEditable config));
  ("ProxyUrl", template.VString (ProxyUrl config));
  ("DarkMode", template.VBool (DarkMode config));
  ("Layout", template.VString (Layout config));
  ("Theme", template.VString (Theme config));
  ("HideSidebar", template.VBool (HideSidebar config));
  ("SearchHotKey", template.VString (SearchHotKey config))
].

Definition scalarTemplateParams_fields (params : scalarTemplateParams)
  : template.Data :=
  ([ ("ScalarConfig",
      template.VStruct (ScalarConfig_fields (Embedded params)));
     ("BasePath", template.VString (BasePath params));
     ("ApiReferenceConfiguration",
      template.VJS (ApiReferenceConfiguration params)) ]
   ++ ScalarConfig_fields (Embedded params))%list.

Section Handler.
Context `{template.Library}.

(** What executing [defaultScalarTemplate] writes: a value of type
    [htmltemplate.JS] goes into the script as it is. *)
Definition defaultScalarPage (params : scalarTemplateParams) : string :=
  template.raw
"<html lang=`en`>
<head>
  <meta charset=`utf-8`>
  <meta name=`viewport` content=`width=device-width, initial-scale=1`>
  <title>"
  ++ template.escape_rcdata (Title (Embedded params))
  ++ template.raw
"</title>
</head>
<body>
  <script id=`api-reference` type=`application/json`></script>
  <script>
    var configuration = "
  ++ ApiReferenceConfiguration params
  ++ template.raw
";
    var apiReference = document.getElementById('api-reference');
    apiReference.dataset.configuration = JSON.stringify(configuration);
  </script>
  <script src=`https://cdn.jsdelivr.net/npm/@scalar/api-reference`></script>
</body>
</html>
".

(** The handler that [ScalarDocumentsHandler] returns: the closure over
    the defaulted [config], [useSpecUrl] and [pageTmpl]. *)
Definition handlerFunc (config : ScalarConfig) (useSpecUrl : bool)
           (pageTmpl : template.Page) : echo.HandlerFunc :=
  fun c : echo.Context =>
  let p := echo.Request_URL_Path c in
  (* determine the base path *)
  let relPath := echo.Param c "*" in
  let basePath := strings.TrimSuffix p relPath in
  let page (specUrl : string) : echo.Result :=
    if negb (relPath =? "") then
      (* The document site only works with the base path. *)
      echo.Redirect http.StatusFound basePath
    else
      let apiReferenceConfiguration := {|
        conf.IsEditable := IsEditable config;
        conf.Spec := {| conf.URL := specUrl |};
        conf.ProxyUrl := ProxyUrl config;
        conf.DarkMode := DarkMode config;
        conf.Layout := Layout config;
        conf.Theme := Theme config;
        conf.ShowSidebar := negb (HideSidebar config);
        conf.SearchHotKey := SearchHotKey config
      |} in
      let jsonDate :=
        json.Marshal
          (conf.apiReferenceConfiguration_json apiReferenceConfiguration) in
      let params := {| Embedded := config;
                       BasePath := basePath;
                       ApiReferenceConfiguration := jsonDate |} in
      match template.ExecutePage defaultScalarPage
              scalarTemplateParams_fields pageTmpl params with
      | inr err => echo.Panicked err
      | inl buf => echo.HTML http.StatusOK buf
      end in
  if negb useSpecUrl then
    let specUrl := path.Join [basePath; "openapi-spec"] in
    if strings.HasSuffix p specUrl
    then echo.Blob http.StatusOK "text/plain; charset=utf-8" (Spec config)
    else page specUrl
  else page (SpecUrl config).

(** [func ScalarDocumentsHandler(config ScalarConfig) echo.HandlerFunc].
    [json.Marshal] has no error on a struct of strings and booleans, so
    the [return err] after it is never reached. *)
Definition ScalarDocumentsHandler (config : ScalarConfig)
  : Startup echo.HandlerFunc :=
  let config := normalize config in
  useSpecUrl <-
    (if Spec config =? "" then
       if SpecUrl config =? ""
       then Panic "either Spec or SpecUrl must be set"
       else Ready true
     else Ready false) ;;
  pageTmpl <-
    template.Must (template.ParsePage defaultScalarTemplate (Template config)) ;;
  Ready (handlerFunc config useSpecUrl pageTmpl).

(** [func ScalarDocuments(e *echo.Echo, pathPrefix string, config ScalarConfig)] *)
Definition ScalarDocuments (e : echo.Echo) (pathPrefix : string)
           (config : ScalarConfig) : Startup echo.Echo :=
  h <- ScalarDocumentsHandler config ;;
  Ready (echo.GET e (pathPrefix ++ "*") h).

End Handler.

End scalar.

(** ** Swagger UI *)

Module swaggerui.

Record SwaggerUIConfig := {
  Spec : string;
  SpecUrl : string;
  Title : string;
  Template : string;
  DeepLinking : bool;
  DisplayOperationId : bool
}.

(** [Embedded] is the embedded [SwaggerUIConfig]; [SwaggerUIConfiguration]
    has type [htmltemplate.JS]. *)
Record swaggerUITemplateParams := {
  Embedded : SwaggerUIConfig;
  BasePath : string;
  SwaggerUIConfiguration : string
}.

Module conf.

Record swaggerUIConfiguration := {
  Url : string;
  DomId : string;
  DeepLinking : bool;
  DisplayOperationId : bool
}.

(** The struct tags: [url] and [dom_id] are always written, the two
    booleans carry [omitempty]. *)
Definition swaggerUIConfiguration_json (v : swaggerUIConfiguration)
  : json.JSON :=
  json.JObject
    (json.field "url" (json.JString (Url v))
     ++ json.field "dom_id" (json.JString (DomId v))
     ++ json.omitempty_bool "deepLinking" (DeepLinking v)
     ++ json.omitempty_bool "displayOperationId" (DisplayOperationId v))%list.

End conf.

Definition defaultSwaggerUITemplate : string := template.raw
"<html lang=`en`>
<head>
  <meta charset=`utf-8`>
  <meta name=`viewport` content=`width=device-width, initial-scale=1`>
  <title>{{ .Title }}</title>
  <link rel=`stylesheet` href=`https://unpkg.com/swagger-ui-dist/swagger-ui.css` />
</head>
<body>
  <div id=`swagger-ui`></div>
  <script src=`https://unpkg.com/swagger-ui-dist/swagger-ui-bundle.js` crossorigin></script>
  <script>
	var configuration = {{ .SwaggerUIConfiguration }};
    window.onload = () => {
	  window.ui = SwaggerUIBundle(configuration);
    };
  </script>
</body>
</html>
".

Definition DefaultSwaggerUIConfig : SwaggerUIConfig := {|
  Spec := "";
  SpecUrl := "";
  Title := "API documentation with Swagger UI";
  Template := defaultSwaggerUITemplate;
  DeepLinking := false;
  DisplayOperationId := false
|}.

(** The defaulting at the head of [SwaggerUIDocumentsHandler]. *)
Definition normalize (config : SwaggerUIConfig) : SwaggerUIConfig := {|
  Spec := Spec config;
  SpecUrl := SpecUrl config;
  Title :=
    if Title config =? "" then Title DefaultSwaggerUIConfig
    else Title config;
  Template :=
    if Template config =? "" then Template DefaultSwaggerUIConfig
    else Template config;
  DeepLinking := DeepLinking config;
  DisplayOperationId := DisplayOperationId config
|}.

Definition SwaggerUIConfig_fields (config : SwaggerUIConfig)
  : template.Data := [
  ("Spec", template.VString (Spec config));
  ("SpecUrl", template.VString (SpecUrl config));
  ("Title", template.VString (Title config));
  ("Template", template.VString (Template config));
  ("DeepLinking", template.VBool (DeepLinking config));
  ("DisplayOperationId", template.VBool (DisplayOperationId config))
].

Definition swaggerUITemplateParams_fields (params : swaggerUITemplateParams)
  : template.Data :=
  ([ ("SwaggerUIConfig",
      template.VStruct (SwaggerUIConfig_fields (Embedded params)));
     ("BasePath", template.VString (BasePath params));
     ("SwaggerUIConfiguration",
      template.VJS (SwaggerUIConfiguration params)) ]
   ++ SwaggerUIConfig_fields (Embedded params))%list.

Section Handler.
Context `{template.Library}.

(** What executing [defaultSwaggerUITemplate] writes. *)
Definition defaultSwaggerUIPage (params : swaggerUITemplateParams) : string :=
  template.raw
"<html lang=`en`>
<head>
  <meta charset=`utf-8`>
  <meta name=`viewport` content=`width=device-width, initial-scale=1`>
  <title>"
  ++ template.escape_rcdata (Title (Embedded params))
  ++ template.raw
"</title>
  <link rel=`stylesheet` href=`https://unpkg.com/swagger-ui-dist/swagger-ui.css` />
</head>
<body>
  <div id=`swagger-ui`></div>
  <script src=`https://unpkg.com/swagger-ui-dist/swagger-ui-bundle.js` crossorigin></script>
  <script>
	var configuration = "
  ++ SwaggerUIConfiguration params
  ++ template.raw
";
    window.onload = () => {
	  window.ui = SwaggerUIBundle(configuration);
    };
  </script>
</body>
</html>
".

(** The handler that [SwaggerUIDocumentsHandler] returns: the closure over
    the defaulted [config], [useSpecUrl] and [pageTmpl]. *)
Definition handlerFunc (config : SwaggerUIConfig) (useSpecUrl : bool)
           (pageTmpl : template.Page) : echo.HandlerFunc :=
  fun c : echo.Context =>
  let p := echo.Request_URL_Path c in
  (* determine the base path *)
  let relPath := echo.Param c "*" in
  let basePath := strings.TrimSuffix p relPath in
  let page (specUrl : string) : echo.Result :=
    if negb (relPath =? "") then
      (* The document site only works with the base path. *)
      echo.Redirect http.StatusFound basePath
    else
      let swaggerUIConfiguration := {|
        conf.Url := specUrl;
        conf.DomId := "#swagger-ui";
        conf.DeepLinking := DeepLinking config;
        conf.DisplayOperationId := DisplayOperationId config
      |} in
      let jsonDate :=
        json.Marshal
          (conf.swaggerUIConfiguration_json swaggerUIConfiguration) in
      let params := {| Embedded := config;
                       BasePath := basePath;
                       SwaggerUIConfiguration := jsonDate |} in
      match template.ExecutePage defaultSwaggerUIPage
              swaggerUITemplateParams_fields pageTmpl params with
      | inr err => echo.Panicked err
      | inl buf => echo.HTML http.StatusOK buf
      end in
  if negb useSpecUrl then
    let specUrl := path.Join [basePath; "openapi-spec"] in
    if strings.HasSuffix p specUrl
    then echo.Blob http.StatusOK "text/plain; charset=utf-8" (Spec config)
    else page specUrl
  else page (SpecUrl config).

(** [func SwaggerUIDocumentsHandler(config SwaggerUIConfig) echo.HandlerFunc].
    As in the Scalar handler, [json.Marshal] has no error here. *)
Definition SwaggerUIDocumentsHandler (config : SwaggerUIConfig)
  : Startup echo.HandlerFunc :=
  let config := normalize config in
  useSpecUrl <-
    (if Spec config =? "" then
       if SpecUrl config =? ""
       then Panic "either Spec or SpecUrl must be set"
       else Ready true
     else Ready false) ;;
  pageTmpl <-
    template.Must
      (template.ParsePage defaultSwaggerUITemplate (Template config)) ;;
  Ready (handlerFunc config useSpecUrl pageTmpl).

(** [func SwaggerUIDocuments(e *echo.Echo, pathPrefix string, config SwaggerUIConfig)] *)
Definition SwaggerUIDocuments (e : echo.Echo) (pathPrefix : string)
           (config : SwaggerUIConfig) : Startup echo.Echo :=
  h <- SwaggerUIDocumentsHandler config ;;
  Ready (echo.GET e (pathPrefix ++ "*") h).

End Handler.

End swaggerui.

(** ** Redoc *)

Module redoc.

Record RedocConfig := {
  Spec : string;
  SpecUrl : string;
  Title : string;
  Template : string;
  DisableSearch : bool;
  MinCharacterLengthToInitSearch : Z
}.

(** [redocTemplateParams] has a field [SpecUrl] of its own next to the
    embedded [RedocConfig] (field [Embedded]); a module of its own, since
    the name repeats. *)
Module params.

Record redocTemplateParams := {
  Embedded : RedocConfig;
  BasePath : string;
  SpecUrl : string
}.

End params.

Definition defaultRedocTemplate : string := template.raw
"<html lang=`en`>
<head>
  <meta charset=`utf-8`>
  <meta name=`viewport` content=`width=device-width, initial-scale=1`>
  <title>{{ .Title }}</title>
</head>
<body>
  <redoc
    spec-url=`{{ .SpecUrl }}`
    {{- if .DisableSearch }}
	disable-search=`true`
	{{- end }}
	{{- if ne .MinCharacterLengthToInitSearch 0 }}
	min-character-length-to-init-search=`{{ .MinCharacterLengthToInitSearch }}`
	{{- end }}
  ></redoc>
  <script src=`https://cdn.redoc.ly/redoc/latest/bundles/redoc.standalone.js`> </script>
</body>
</html>
".

Definition DefaultRedocConfig : RedocConfig := {|
  Spec := "";
  SpecUrl := "";
  Title := "API documentation with Redoc";
  Template := defaultRedocTemplate;
  DisableSearch := false;
  MinCharacterLengthToInitSearch := 0
|}.

(** The defaulting at the head of [RedocDocumentsHandler]. *)
Definition normalize (config : RedocConfig) : RedocConfig := {|
  Spec := Spec config;
  SpecUrl := SpecUrl config;
  Title :=
    if Title config =? "" then Title DefaultRedocConfig else Title config;
  Template :=
    if Template config =? "" then Template DefaultRedocConfig
    else Template config;
  DisableSearch := DisableSearch config;
  MinCharacterLengthToInitSearch := MinCharacterLengthToInitSearch config
|}.

Definition RedocConfig_fields (config : RedocConfig) : template.Data := [
  ("Spec", template.VString (Spec config));
  ("SpecUrl", template.VString (SpecUrl config));
  ("Title", template.VString (Title config));
  ("Template", template.VString (Template config));
  ("DisableSearch", template.VBool (DisableSearch config));
  ("MinCharacterLengthToInitSearch",
   template.VInt (MinCharacterLengthToInitSearch config))
].

(** The outer [SpecUrl] comes first: it hides the promoted field of the
    same name. *)
Definition redocTemplateParams_fields (p : params.redocTemplateParams)
  : template.Data :=
  ([ ("RedocConfig",
      template.VStruct (RedocConfig_fields (params.Embedded p)));
     ("BasePath", template.VString (params.BasePath p));
     ("SpecUrl", template.VString (params.SpecUrl p)) ]
   ++ RedocConfig_fields (params.Embedded p))%list.

Definition attr (indent name value : string) : template.Attr :=
  {| template.indent := indent; template.name := name;
     template.value := value |}.

Section Handler.
Context `{template.Library}.

(** The attributes of the [<redoc>] tag of [defaultRedocTemplate]:
    [.SpecUrl] is the field of the parameters, not of the embedded
    configuration; the two guarded lines are indented with a tab. *)
Definition redocAttrs (p : params.redocTemplateParams) : list template.Attr :=
  let config := params.Embedded p in
  ([attr "    " "spec-url" (template.escape_url_attr (params.SpecUrl p))]
   ++ (if DisableSearch config
       then [attr template.tab "disable-search" "true"] else [])
   ++ (if negb (MinCharacterLengthToInitSearch config =? 0)%Z
       then [attr template.tab "min-character-length-to-init-search"
                  (template.escape_attr
                     (template.Sprint_int
                        (MinCharacterLengthToInitSearch config)))]
       else []))%list.

(** What executing [defaultRedocTemplate] writes. *)
Definition defaultRedocPage (p : params.redocTemplateParams) : string :=
  template.raw
"<html lang=`en`>
<head>
  <meta charset=`utf-8`>
  <meta name=`viewport` content=`width=device-width, initial-scale=1`>
  <title>"
  ++ template.escape_rcdata (Title (params.Embedded p))
  ++ template.raw
"</title>
</head>
<body>
  <redoc"
  ++ template.renderAttrs (redocAttrs p)
  ++ template.raw
"
  ></redoc>
  <script src=`https://cdn.redoc.ly/redoc/latest/bundles/redoc.standalone.js`> </script>
</body>
</html>
".

(** The handler that [RedocDocumentsHandler] returns: the closure over
    the defaulted [config], [useSpecUrl] and [pageTmpl]. *)
Definition handlerFunc (config : RedocConfig) (useSpecUrl : bool)
           (pageTmpl : template.Page) : echo.HandlerFunc :=
  fun c : echo.Context =>
  let p := echo.Request_URL_Path c in
  (* determine the base path *)
  let relPath := echo.Param c "*" in
  let basePath := strings.TrimSuffix p relPath in
  let page (specUrl : string) : echo.Result :=
    if negb (relPath =? "") then
      (* The document site only works with the base path. *)
      echo.Redirect http.StatusFound basePath
    else
      let params := {| params.Embedded := config;
                       params.BasePath := basePath;
                       params.SpecUrl := specUrl |} in
      match template.ExecutePage defaultRedocPage
              redocTemplateParams_fields pageTmpl params with
      | inr err => echo.Panicked err
      | inl buf => echo.HTML http.StatusOK buf
      end in
  if negb useSpecUrl then
    let specUrl := path.Join [basePath; "openapi-spec"] in
    if strings.HasSuffix p specUrl
    then echo.Blob http.StatusOK "text/plain; charset=utf-8" (Spec config)
    else page specUrl
  else page (SpecUrl config).

(** [func RedocDocumentsHandler(config RedocConfig) echo.HandlerFunc] *)
Definition RedocDocumentsHandler (config : RedocConfig)
  : Startup echo.HandlerFunc :=
  let config := normalize config in
  useSpecUrl <-
    (if Spec config =? "" then
       if SpecUrl config =? ""
       then Panic "either Spec or SpecUrl must be set"
       else Ready true
     else Ready false) ;;
  pageTmpl <-
    template.Must (template.ParsePage defaultRedocTemplate (Template config)) ;;
  Ready (handlerFunc config useSpecUrl pageTmpl).

(** [func RedocDocuments(e *echo.Echo, pathPrefix string, config RedocConfig)] *)
Definition RedocDocuments (e : echo.Echo) (pathPrefix : string)
           (config : RedocConfig) : Startup echo.Echo :=
  h <- RedocDocumentsHandler config ;;
  Ready (echo.GET e (pathPrefix ++ "*") h).

End Handler.

End redoc.

(** ** What every handler computes first

    [basePath] is the [basePath] of the handlers, [specEndpoint] the
    [specUrl] they serve an inline specification under. *)

Definition basePath (c : echo.Context) : string :=
  strings.TrimSuffix (echo.Request_URL_Path c) (echo.Param c "*").

Definition specEndpoint (c : echo.Context) : string :=
  path.Join [basePath c; "openapi-spec"].

(** [k] path elements [openapi-spec], each after a slash. *)
Fixpoint specTail (k : nat) : string :=
  match k with
  | O => ""
  | S k' => "/openapi-spec" ++ specTail k'
  end.

(** The response that carries the inline specification. *)
Definition rawSpec (spec : string) : echo.Result :=
  echo.Blob http.StatusOK "text/plain; charset=utf-8" spec.

Definition found (location : string) : echo.Result :=
  echo.Responded {| echo.Status := 302;
                    echo.Header := [(echo.HeaderLocation, location)];
                    echo.Body := "" |}.

Definition wrote (r : string + string) : echo.Result :=
  match r with
  | inr err => echo.Panicked err
  | inl buf => echo.HTML http.StatusOK buf
  end.

(** The test that guards the redirect and the page: the handler uses the
    configured URL, or the request is not for the specification. *)
Definition past_spec (useSpecUrl : bool) (c : echo.Context) : Prop :=
  useSpecUrl = true
  \/ strings.HasSuffix (echo.Request_URL_Path c) (specEndpoint c) = false.

(** ** A library instance to run the handlers on

    For evaluating handlers on concrete requests.  It covers what the
    examples below feed it: texts without template actions, which parse and
    are written as they are, and strings of letters, digits and
    [/ : . - _], which no escaper and no JSON encoding rewrites. *)

Module reference.

Fixpoint hasAction (s : string) : bool :=
  match s with
  | String "{" (String "{" _) => true
  | String _ s' => hasAction s'
  | EmptyString => false
  end.

Definition lib : template.Library := {|
  template.Template := string;
  template.Parse text :=
    if hasAction text then inr "actions are not supported" else inl text;
  template.Execute t _ := inl t;
  template.escape_rcdata s := s;
  template.escape_attr s := s;
  template.escape_url_attr s := s;
  template.json_string s := template.dq ++ s ++ template.dq
|}.

(** Configurations in the way of the README: an inline specification, or
    the URL of one, and nothing else set. *)
Definition inlineSpec : string := "openapi: 3.0.0".
Definition specUrl : string := "https://example.com/openapi.yaml".

Definition elementsWith (spec url : string) : elements.ElementsConfig := {|
  elements.Spec := spec;
  elements.SpecUrl := url;
  elements.Title := "";
  elements.Template := "";
  elements.Router := "";
  elements.Layout := "";
  elements.HideInternal := false;
  elements.HideTryIt := false;
  elements.HideSchemas := false;
  elements.HideExport := false;
  elements.TryItCorsProxy := "";
  elements.TryItCredentialsPolicy := "";
  elements.Logo := ""
|}.

Definition scalarWith (spec url : string) : scalar.ScalarConfig := {|
  scalar.Spec := spec;
  scalar.SpecUrl := url;
  scalar.Title := "";
  scalar.Template := "";
  scalar.IsEditable := false;
  scalar.ProxyUrl := "";
  scalar.DarkMode := false;
  scalar.Layout := "";
  scalar.Theme := "";
  scalar.HideSidebar := false;
  scalar.SearchHotKey := ""
|}.

Definition swaggeruiWith (spec url : string) : swaggerui.SwaggerUIConfig := {|
  swaggerui.Spec := spec;
  swaggerui.SpecUrl := url;
  swaggerui.Title := "";
  swaggerui.Template := "";
  swaggerui.DeepLinking := false;
  swaggerui.DisplayOperationId := false
|}.

Definition redocWith (spec url : string) : redoc.RedocConfig := {|
  redoc.Spec := spec;
  redoc.SpecUrl := url;
  redoc.Title := "";
  redoc.Template := "";
  redoc.DisableSearch := false;
  redoc.MinCharacterLengthToInitSearch := 0
|}.

(** A GET request for [path] whose route matched [rest] with its [*]. *)
Definition get (path rest : string) : echo.Context := {|
  echo.Request_Method := "GET";
  echo.Request_URL_Path := path;
  echo.Request_URL_RawQuery := "";
  echo.Request_Header := [];
  echo.pnames := ["*"];
  echo.pvalues := [rest]
|}.

(** What a handler factory's handler does with a request, when there is
    one. *)
Definition serve (h : Startup echo.HandlerFunc) (c : echo.Context)
  : option echo.Result :=
  match h with
  | Ready f => Some (f c)
  | Panic _ => None
  end.

End reference.

(** ** examples/main.go

    [main] up to [e.Start]: the eight registrations on a fresh [echo.New()],
    which has no routes.  [OpenAPISpecGithub] is the embedded file
    [ghes-3.0.yaml]; the fields a composite literal leaves out have their
    zero value. *)

Module examples.

Definition openai : string :=
  "https://raw.githubusercontent.com/openai/openai-openapi/master/openapi.yaml".

Definition elementsConfig (spec url title : string)
  : elements.ElementsConfig := {|
  elements.Spec := spec;
  elements.SpecUrl := url;
  elements.Title := title;
  elements.Template := "";
  elements.Router := "";
  elements.Layout := "";
  elements.HideInternal := false;
  elements.HideTryIt := false;
  elements.HideSchemas := false;
  elements.HideExport := false;
  elements.TryItCorsProxy := "";
  elements.TryItCredentialsPolicy := "";
  elements.Logo := ""
|}.

Definition scalarConfig (spec url title : string) : scalar.ScalarConfig := {|
  scalar.Spec := spec;
  scalar.SpecUrl := url;
  scalar.Title := title;
  scalar.Template := "";
  scalar.IsEditable := false;
  scalar.ProxyUrl := "";
  scalar.DarkMode := false;
  scalar.Layout := "";
  scalar.Theme := "";
  scalar.HideSidebar := false;
  scalar.SearchHotKey := ""
|}.

Definition swaggerUIConfig (spec url title : string)
  : swaggerui.SwaggerUIConfig := {|
  swaggerui.Spec := spec;
  swaggerui.SpecUrl := url;
  swaggerui.Title := title;
  swaggerui.Template := "";
  swaggerui.DeepLinking := false;
  swaggerui.DisplayOperationId := false
|}.

Definition redocConfig (spec url title : string) : redoc.RedocConfig := {|
  redoc.Spec := spec;
  redoc.SpecUrl := url;
  redoc.Title := title;
  redoc.Template := "";
  redoc.DisableSearch := false;
  redoc.MinCharacterLengthToInitSearch := 0
|}.

Section Main.
Context `{template.Library}.

(** [func main()] *)
Definition main (OpenAPISpecGithub : string) : Startup echo.Echo :=
  let e : echo.Echo := [] in
  (* ElementsDocuments *)
  e <- elements.ElementsDocuments e "/docs/elements/github"
         (elementsConfig OpenAPISpecGithub "" "GitHub v3 REST API") ;;
  e <- elements.ElementsDocuments e "/docs/elements/openai"
         (elementsConfig "" openai "OpenAI API") ;;
  (* ScalarDocuments *)
  e <- scalar.ScalarDocuments e "/docs/scalar/github"
         (scalarConfig OpenAPISpecGithub "" "GitHub v3 REST API") ;;
  e <- scalar.ScalarDocuments e "/docs/scalar/openai"
         (scalarConfig "" openai "OpenAI API") ;;
  (* SwaggerUIDocuments *)
  e <- swaggerui.SwaggerUIDocuments e "/docs/swagger-ui/github"
         (swaggerUIConfig OpenAPISpecGithub "" "GitHub v3 REST API") ;;
  e <- swaggerui.SwaggerUIDocuments e "/docs/swagger-ui/openai"
         (swaggerUIConfig "" openai "OpenAI API") ;;
  (* RedocDocuments *)
  e <- redoc.RedocDocuments e "/docs/redoc/github"
         (redocConfig OpenAPISpecGithub "" "GitHub v3 REST API") ;;
  e <- redoc.RedocDocuments e "/docs/redoc/openai"
         (redocConfig "" openai "OpenAI API") ;;
  Ready e.

End Main.

End examples.

(** A path element that [path.Clean] keeps: not empty, not [.] or [..],
    without a slash; and the absolute path made of such elements. *)
Definition plainName (n : string) : Prop :=
  n <> "" /\ n <> "." /\ n <> ".."
  /\ forall c, In c (list_ascii_of_string n) -> c <> path.slash.

Fixpoint joinNames (names : list string) : string :=
  match names with
  | [] => ""
  | n :: names' => "/" ++ n ++ joinNames names'
  end.

(** ** Requests in sequence

    The closure a factory returns lives as long as its route.  The
    variables it captures ([config], [useSpecUrl], [pageTmpl]) are shared
    by all the requests it handles, and every request that writes the page
    allocates a [bytes.Buffer] of its own.  Below the closures are written
    over that store, so that a handler can be followed through a sequence
    of requests; the requests are handled one after another. *)

Module bytes.

(** The buffers allocated so far, and a [*bytes.Buffer]: a place among
    them. *)
Definition Heap : Type := list string.
Definition Buffer : Type := nat.

(** [new(bytes.Buffer)]: a new, empty buffer. *)
Definition new (heap : Heap) : Buffer * Heap :=
  (List.length heap, (heap ++ [""])%list).

(** [func (b *Buffer) Write(p []byte)]: [p] goes after what the buffer
    holds. *)
Fixpoint Write (b : Buffer) (p : string) (heap : Heap) : Heap :=
  match heap, b with
  | [], _ => []
  | s :: heap', O => (s ++ p) :: heap'
  | s :: heap', S b' => s :: Write b' p heap'
  end.

(** [func (b *Buffer) String() string] *)
Definition String (b : Buffer) (heap : Heap) : string :=
  nth b heap "".

End bytes.

Module closure.

Section Store.
Context `{template.Library}.

(** The variables that the closure of a handler factory captures. *)
Record Captured (Config : Type) := {
  config : Config;
  useSpecUrl : bool;
  pageTmpl : template.Page
}.

(** What a handler works on: the captured variables and the buffers. *)
Record Store (Config : Type) := {
  captured : Captured Config;
  heap : bytes.Heap
}.

(** [pageTmpl.Execute(buf, params)]: the text goes to [buf].  When the
    execution fails the handler panics and never reads the buffer; what
    the library had written by then is left out. *)
Definition Execute {P : Type} (page : P -> string)
           (fields : P -> template.Data) (t : template.Page)
           (buf : bytes.Buffer) (params : P) (heap : bytes.Heap)
  : option string * bytes.Heap :=
  match template.ExecutePage page fields t params with
  | inl text => (None, bytes.Write buf text heap)
  | inr err => (Some err, heap)
  end.

(** The requests of [requests] handled by [h], one after another. *)
Fixpoint serve {Config : Type}
         (h : echo.Context -> Store Config -> echo.Result * Store Config)
         (requests : list echo.Context) (s : Store Config)
  : list echo.Result * Store Config :=
  match requests with
  | [] => ([], s)
  | c :: requests' =>
      let (r, s) := h c s in
      let (rs, s) := serve h requests' s in
      (r :: rs, s)
  end.

End Store.

Arguments config {_ _} _.
Arguments useSpecUrl {_ _} _.
Arguments pageTmpl {_ _} _.
Arguments captured {_ _} _.
Arguments heap {_ _} _.
Arguments Build_Captured {_ _} _ _ _.
Arguments Build_Store {_ _} _ _.

Module Elements.

Import elements.

Section Closure.
Context `{template.Library}.

(** What [ElementsDocumentsHandler] does before it returns: the variables its
    closure captures. *)
Definition capture (config : ElementsConfig) : Startup (Captured ElementsConfig) :=
  let config := normalize config in
  useSpecUrl <-
    (if Spec config =? "" then
       if SpecUrl config =? ""
       then Panic "either Spec or SpecUrl must be set"
       else Ready true
     else Ready false) ;;
  pageTmpl <-
    template.Must (template.ParsePage defaultElementsTemplate (Template config)) ;;
  Ready {| config := config;
           useSpecUrl := useSpecUrl;
           pageTmpl := pageTmpl |}.

(** One call of the closure that [ElementsDocumentsHandler] returns. *)
Definition call (c : echo.Context) (s : Store ElementsConfig)
  : echo.Result * Store ElementsConfig :=
  let config := config (captured s) in
  let useSpecUrl := useSpecUrl (captured s) in
  let pageTmpl := pageTmpl (captured s) in
  let p := echo.Request_URL_Path c in
  (* determine the base path *)
  let relPath := echo.Param c "*" in
  let basePath := strings.TrimSuffix p relPath in
  let page (specUrl : string) : echo.Result * Store ElementsConfig :=
    if negb (Router config =? ElementsRouterHistory) && negb (relPath =? "")
    then
      (* If the router is not history mode, the document site only works
         with the base path. *)
      (echo.Redirect http.StatusFound basePath, s)
    else
      let params := {| Embedded := config;
                       BasePath := basePath;
                       ApiDescriptionUrl := specUrl |} in
      let (buf, heap) := bytes.new (heap s) in
      match Execute defaultElementsPage elementsTemplateParams_fields
              pageTmpl buf params heap with
      | (Some err, heap) =>
          (echo.Panicked err, {| captured := captured s; heap := heap |})
      | (None, heap) =>
          (echo.HTML http.StatusOK (bytes.String buf heap),
           {| captured := captured s; heap := heap |})
      end in
  if negb useSpecUrl then
    let specUrl := path.Join [basePath; "openapi-spec"] in
    if strings.HasSuffix p specUrl
    then (echo.Blob http.StatusOK "text/plain; charset=utf-8" (Spec config),
          s)
    else page specUrl
  else page (SpecUrl config).

End Closure.

End Elements.

Module Scalar.

Import scalar.

Section Closure.
Context `{template.Library}.

(** What [ScalarDocumentsHandler] does before it returns: the variables its
    closure captures. *)
Definition capture (config : ScalarConfig) : Startup (Captured ScalarConfig) :=
  let config := normalize config in
  useSpecUrl <-
    (if Spec config =? "" then
       if SpecUrl config =? ""
       then Panic "either Spec or SpecUrl must be set"
       else Ready true
     else Ready false) ;;
  pageTmpl <-
    template.Must (template.ParsePage defaultScalarTemplate (Template config)) ;;
  Ready {| config := config;
           useSpecUrl := useSpecUrl;
           pageTmpl := pageTmpl |}.

(** One call of the closure that [ScalarDocumentsHandler] returns. *)
Definition call (c : echo.Context) (s : Store ScalarConfig)
  : echo.Result * Store ScalarConfig :=
  let config := config (captured s) in
  let useSpecUrl := useSpecUrl (captured s) in
  let pageTmpl := pageTmpl (captured s) in
  let p := echo.Request_URL_Path c in
  (* determine the base path *)
  let relPath := echo.Param c "*" in
  let basePath := strings.TrimSuffix p relPath in
  let page (specUrl : string) : echo.Result * Store ScalarConfig :=
    if negb (relPath =? "") then
      (* The document site only works with the base path. *)
      (echo.Redirect http.StatusFound basePath, s)
    else
      let apiReferenceConfiguration := {|
        conf.IsEditable := IsEditable config;
        conf.Spec := {| conf.URL := specUrl |};
        conf.ProxyUrl := ProxyUrl config;
        conf.DarkMode := DarkMode config;
        conf.Layout := Layout config;
        conf.Theme := Theme config;
        conf.ShowSidebar := negb (HideSidebar config);
        conf.SearchHotKey := SearchHotKey config
      |} in
      let jsonDate :=
        json.Marshal
          (conf.apiReferenceConfiguration_json apiReferenceConfiguration) in
      let params := {| Embedded := config;
                       BasePath := basePath;
                       ApiReferenceConfiguration := jsonDate |} in
      let (buf, heap) := bytes.new (heap s) in
      match Execute defaultScalarPage scalarTemplateParams_fields
              pageTmpl buf params heap with
      | (Some err, heap) =>
          (echo.Panicked err, {| captured := captured s; heap := heap |})
      | (None, heap) =>
          (echo.HTML http.StatusOK (bytes.String buf heap),
           {| captured := captured s; heap := heap |})
      end in
  if negb useSpecUrl then
    let specUrl := path.Join [basePath; "openapi-spec"] in
    if strings.HasSuffix p specUrl
    then (echo.Blob http.StatusOK "text/plain; charset=utf-8" (Spec config),
          s)
    else page specUrl
  else page (SpecUrl config).

End Closure.

End Scalar.

Module SwaggerUI.

Import swaggerui.

Section Closure.
Context `{template.Library}.

(** What [SwaggerUIDocumentsHandler] does before it returns: the variables its
    closure captures. *)
Definition capture (config : SwaggerUIConfig) : Startup (Captured SwaggerUIConfig) :=
  let config := normalize config in
  useSpecUrl <-
    (if Spec config =? "" then
       if SpecUrl config =? ""
       then Panic "either Spec or SpecUrl must be set"
       else Ready true
     else Ready false) ;;
  pageTmpl <-
    template.Must (template.ParsePage defaultSwaggerUITemplate (Template config)) ;;
  Ready {| config := config;
           useSpecUrl := useSpecUrl;
           pageTmpl := pageTmpl |}.

(** One call of the closure that [SwaggerUIDocumentsHandler] returns. *)
Definition call (c : echo.Context) (s : Store SwaggerUIConfig)
  : echo.Result * Store SwaggerUIConfig :=
  let config := config (captured s) in
  let useSpecUrl := useSpecUrl (captured s) in
  let pageTmpl := pageTmpl (captured s) in
  let p := echo.Request_URL_Path c in
  (* determine the base path *)
  let relPath := echo.Param c "*" in
  let basePath := strings.TrimSuffix p relPath in
  let page (specUrl : string) : echo.Result * Store SwaggerUIConfig :=
    if negb (relPath =? "") then
      (* The document site only works with the base path. *)
      (echo.Redirect http.StatusFound basePath, s)
    else
      let swaggerUIConfiguration := {|
        conf.Url := specUrl;
        conf.DomId := "#swagger-ui";
        conf.DeepLinking := DeepLinking config;
        conf.DisplayOperationId := DisplayOperationId config
      |} in
      let jsonDate :=
        json.Marshal
          (conf.swaggerUIConfiguration_json swaggerUIConfiguration) in
      let params := {| Embedded := config;
                       BasePath := basePath;
                       SwaggerUIConfiguration := jsonDate |} in
      let (buf, heap) := bytes.new (heap s) in
      match Execute defaultSwaggerUIPage swaggerUITemplateParams_fields
              pageTmpl buf params heap with
      | (Some err, heap) =>
          (echo.Panicked err, {| captured := captured s; heap := heap |})
      | (None, heap) =>
          (echo.HTML http.StatusOK (bytes.String buf heap),
           {| captured := captured s; heap := heap |})
      end in
  if negb useSpecUrl then
    let specUrl := path.Join [basePath; "openapi-spec"] in
    if strings.HasSuffix p specUrl
    then (echo.Blob http.StatusOK "text/plain; charset=utf-8" (Spec config),
          s)
    else page specUrl
  else page (SpecUrl config).

End Closure.

End SwaggerUI.

Module Redoc.

Import redoc.

Section Closure.
Context `{template.Library}.

(** What [RedocDocumentsHandler] does before it returns: the variables its
    closure captures. *)
Definition capture (config : RedocConfig) : Startup (Captured RedocConfig) :=
  let config := normalize config in
  useSpecUrl <-
    (if Spec config =? "" then
       if SpecUrl config =? ""
       then Panic "either Spec or SpecUrl must be set"
       else Ready true
     else Ready false) ;;
  pageTmpl <-
    template.Must (template.ParsePage defaultRedocTemplate (Template config)) ;;
  Ready {| config := config;
           useSpecUrl := useSpecUrl;
           pageTmpl := pageTmpl |}.

(** One call of the closure that [RedocDocumentsHandler] returns. *)
Definition call (c : echo.Context) (s : Store RedocConfig)
  : echo.Result * Store RedocConfig :=
  let config := config (captured s) in
  let useSpecUrl := useSpecUrl (captured s) in
  let pageTmpl := pageTmpl (captured s) in
  let p := echo.Request_URL_Path c in
  (* determine the base path *)
  let relPath := echo.Param c "*" in
  let basePath := strings.TrimSuffix p relPath in
  let page (specUrl : string) : echo.Result * Store RedocConfig :=
    if negb (relPath =? "") then
      (* The document site only works with the base path. *)
      (echo.Redirect http.StatusFound basePath, s)
    else
      let params := {| params.Embedded := config;
                       params.BasePath := basePath;
                       params.SpecUrl := specUrl |} in
      let (buf, heap) := bytes.new (heap s) in
      match Execute defaultRedocPage redocTemplateParams_fields
              pageTmpl buf params heap with
      | (Some err, heap) =>
          (echo.Panicked err, {| captured := captured s; heap := heap |})
      | (None, heap) =>
          (echo.HTML http.StatusOK (bytes.String buf heap),
           {| captured := captured s; heap := heap |})
      end in
  if negb useSpecUrl then
    let specUrl := path.Join [basePath; "openapi-spec"] in
    if strings.HasSuffix p specUrl
    then (echo.Blob http.StatusOK "text/plain; charset=utf-8" (Spec config),
          s)
    else page specUrl
  else page (SpecUrl config).

End Closure.

End Redoc.

End closure.

(** ** Proof automation *)

(** Splits a successful run of a handler factory into its three steps. *)
Ltac invert_factory Hready :=
  let Hspec := fresh "Hspec" in
  let Hurl := fresh "Hurl" in
  let Hparse := fresh "Hparse" in
  cbv beta delta [elements.ElementsDocumentsHandler
                    scalar.ScalarDocumentsHandler
                    swaggerui.SwaggerUIDocumentsHandler
                    redoc.RedocDocumentsHandler] in Hready;
  cbn [elements.Spec elements.SpecUrl elements.normalize
       scalar.Spec scalar.SpecUrl scalar.normalize
       swaggerui.Spec swaggerui.SpecUrl swaggerui.normalize
       redoc.Spec redoc.SpecUrl redoc.normalize] in Hready;
  match type of Hready with
  | context [if ?s =? "" then (if ?u =? "" then _ else _) else _] =>
      destruct (s =? "") eqn:Hspec;
      [destruct (u =? "") eqn:Hurl; [discriminate Hready|]|]
  end;
  cbn [bind] in Hready;
  match type of Hready with
  | context [template.Must ?r] =>
      destruct r eqn:Hparse; cbn [template.Must bind] in Hready;
      [|discriminate Hready]
  end;
  injection Hready as Hready.

Ltac enter_closure :=
  match goal with
  | |- context [elements.handlerFunc] => unfold elements.handlerFunc
  | |- context [scalar.handlerFunc] => unfold scalar.handlerFunc
  | |- context [swaggerui.handlerFunc] => unfold swaggerui.handlerFunc
  | |- context [redoc.handlerFunc] => unfold redoc.handlerFunc
  end;
  cbv zeta;
  fold (basePath ltac:(eassumption));
  fold (specEndpoint ltac:(eassumption)).

Ltac pass_spec u Hpast :=
  destruct u; cbn [negb];
  [|destruct Hpast as [Hpast | Hpast]; [discriminate Hpast | rewrite Hpast]].

(** * Properties *)

(** ** Evaluation of the standard-library functions on known inputs *)

Example Clean_ex1 : path.Clean "/docs/openapi-spec" = "/docs/openapi-spec".
Proof. reflexivity. Qed.
Example Clean_ex2 : path.Clean "/docs//openapi-spec" = "/docs/openapi-spec".
Proof. reflexivity. Qed.
Example Clean_ex3 : path.Clean "a/b/../../../c/./d/" = "../c/d".
Proof. reflexivity. Qed.
Example Clean_ex4 : path.Clean "/a/b/../../../c/./d/" = "/c/d".
Proof. reflexivity. Qed.
Example Clean_ex5 : path.Clean "/../.." = "/".
Proof. reflexivity. Qed.
Example Clean_ex6 : path.Clean "abc/def/../ghi/../.." = ".".
Proof. reflexivity. Qed.
Example Clean_ex7 : path.Clean "abc/..x/.y/z./..." = "abc/..x/.y/z./...".
Proof. reflexivity. Qed.
Example Join_ex1 : path.Join ["/docs/"; "openapi-spec"] = "/docs/openapi-spec".
Proof. reflexivity. Qed.
Example Join_ex2 : path.Join [""; "openapi-spec"] = "openapi-spec".
Proof. reflexivity. Qed.
Example Join_ex3 : path.Join [""; ""] = "".
Proof. reflexivity. Qed.
Example Trim_ex1 : strings.TrimSuffix "/docs/a/b" "/a/b" = "/docs".
Proof. reflexivity. Qed.
Example Trim_ex2 : strings.TrimSuffix "/docs/a%20b" "/a b" = "/docs/a%20b".
Proof. reflexivity. Qed.

(** ** Suffixes *)

Lemma substring_0_length (s : string) :
  substring 0 (String.length s) s = s.
Proof.
  induction s as [|c s IH]; simpl; [reflexivity | now rewrite IH].
Qed.

Lemma substring_skip_append (a b : string) :
  substring (String.length a) (String.length b) (a ++ b) = b.
Proof.
  induction a as [|c a IH]; simpl.
  - apply substring_0_length.
  - exact IH.
Qed.

Lemma substring_take_append (a b : string) :
  substring 0 (String.length a) (a ++ b) = a.
Proof.
  induction a as [|c a IH]; simpl.
  - now destruct b.
  - now rewrite IH.
Qed.

Lemma substring_split (n : nat) (s : string) :
  n <= String.length s ->
  substring 0 n s ++ substring n (String.length s - n) s = s.
Proof.
  revert n; induction s as [|c s IH]; intros [|n] Hn; simpl in *;
    try reflexivity; try lia.
  - now rewrite substring_0_length.
  - rewrite IH by lia. reflexivity.
Qed.

Lemma append_length (a b : string) :
  String.length (a ++ b) = String.length a + String.length b.
Proof.
  induction a as [|c a IH]; simpl; [reflexivity | now rewrite IH].
Qed.

(** [HasSuffix] holds exactly of the strings that end in [suffix]. *)
Lemma HasSuffix_true_iff (s suffix : string) :
  strings.HasSuffix s suffix = true <-> exists b, s = b ++ suffix.
Proof.
  unfold strings.HasSuffix. rewrite andb_true_iff, Nat.leb_le, String.eqb_eq.
  split.
  - intros [Hlen Hsub].
    exists (substring 0 (String.length s - String.length suffix) s).
    pose proof (substring_split (String.length s - String.length suffix) s)
      as Hsplit.
    replace (String.length s - (String.length s - String.length suffix))
      with (String.length suffix) in Hsplit by lia.
    rewrite Hsub in Hsplit. symmetry. apply Hsplit. lia.
  - intros [b ->]. rewrite append_length. split; [lia|].
    replace (String.length b + String.length suffix - String.length suffix)
      with (String.length b) by lia.
    apply substring_skip_append.
Qed.

Lemma HasSuffix_append (b suffix : string) :
  strings.HasSuffix (b ++ suffix) suffix = true.
Proof. apply HasSuffix_true_iff. now exists b. Qed.

Lemma HasSuffix_refl (s : string) : strings.HasSuffix s s = true.
Proof. apply HasSuffix_true_iff. now exists "". Qed.

Lemma TrimSuffix_append (b suffix : string) :
  strings.TrimSuffix (b ++ suffix) suffix = b.
Proof.
  unfold strings.TrimSuffix. rewrite HasSuffix_append, append_length.
  replace (String.length b + String.length suffix - String.length suffix)
    with (String.length b) by lia.
  apply substring_take_append.
Qed.

Lemma TrimSuffix_not_suffix (s suffix : string) :
  strings.HasSuffix s suffix = false -> strings.TrimSuffix s suffix = s.
Proof. unfold strings.TrimSuffix. now intros ->. Qed.

Lemma append_empty_r (s : string) : s ++ "" = s.
Proof.
  induction s as [|c s IH]; simpl; [reflexivity | now rewrite IH].
Qed.

Lemma TrimSuffix_empty (s : string) : strings.TrimSuffix s "" = s.
Proof.
  pose proof (TrimSuffix_append s "") as E.
  now rewrite append_empty_r in E.
Qed.

(** ** The loop of [path.Clean] never runs out of fuel *)

Lemma copyElement_length (rest out : string) :
  String.length (fst (path.copyElement rest out)) <= String.length rest.
Proof.
  revert out; induction rest as [|c rest IH]; intros out; simpl.
  - lia.
  - destruct (Ascii.eqb c path.slash); simpl; [lia|].
    specialize (IH (path.append out c)). lia.
Qed.

(** Every turn of the loop reads at least one byte. *)
Lemma cleanStep_consumes (rooted : bool) (c : ascii) (rest out : string)
      (dotdot : nat) :
  String.length (fst (fst (path.cleanStep rooted (String c rest) out dotdot)))
  <= String.length rest.
Proof.
  unfold path.cleanStep.
  destruct (Ascii.eqb c path.slash) eqn:Hslash; [simpl; lia|].
  destruct (Ascii.eqb c path.dot && _); [simpl; lia|].
  destruct (Ascii.eqb c path.dot && _).
  - assert (String.length match rest with
                          | String _ t2 => t2
                          | EmptyString => rest
                          end <= String.length rest)
      by (destruct rest; simpl; lia).
    destruct (dotdot <? String.length out)%nat; [simpl; lia|].
    destruct (negb rooted); simpl; lia.
  - match goal with
    | |- context [path.copyElement ?r ?o] =>
        pose proof (copyElement_length r o) as Hc;
        destruct (path.copyElement r o) as [rest' out2] eqn:E
    end.
    simpl in E. rewrite Hslash in E.
    pose proof (copyElement_length rest
                  (path.append
                     (if (rooted && negb (String.length out =? 1)%nat)
                         || (negb rooted && negb (String.length out =? 0)%nat)
                      then path.append out path.slash else out) c)) as Hc'.
    rewrite E in Hc'. simpl in *. exact Hc'.
Qed.

Lemma cleanLoop_fuel (f1 f2 : nat) (rooted : bool) (rest out : string)
      (dotdot : nat) :
  String.length rest <= f1 -> String.length rest <= f2 ->
  path.cleanLoop f1 rooted rest out dotdot
  = path.cleanLoop f2 rooted rest out dotdot.
Proof.
  revert f2 rest out dotdot.
  induction f1 as [|f1 IH]; intros f2 rest out dotdot H1 H2.
  - destruct rest; simpl in H1; [|lia]. now destruct f2.
  - destruct rest as [|c rest]; [now destruct f2|].
    destruct f2 as [|f2]; [simpl in H2; lia|].
    cbn [path.cleanLoop].
    pose proof (cleanStep_consumes rooted c rest out dotdot) as Hc.
    destruct (path.cleanStep rooted (String c rest) out dotdot)
      as [[rest' out'] dotdot'].
    simpl in Hc, H1, H2. apply IH; lia.
Qed.

Lemma cleanLoop_fuel_witness :
  path.cleanLoop 4 false "a/.." "" 0 = path.cleanLoop 64 false "a/.." "" 0.
Proof. apply cleanLoop_fuel; simpl; lia. Defined.

Lemma HasSuffix_eq (s t : string) : s = t -> strings.HasSuffix s t = true.
Proof. intros ->. apply HasSuffix_refl. Qed.

Lemma eqb_empty_false (s : string) : s <> "" -> (s =? "") = false.
Proof. intros Hs. now apply String.eqb_neq. Qed.

(** ** The mount root is not the specification endpoint *)

Lemma append_assoc (a b c : string) : (a ++ b) ++ c = a ++ (b ++ c).
Proof.
  induction a as [|x a IH]; simpl; [reflexivity | now rewrite IH].
Qed.

Lemma copyElement_name (n rest out : string) :
  (forall c, In c (list_ascii_of_string n) -> c <> path.slash) ->
  path.copyElement (n ++ rest) out = path.copyElement rest (out ++ n).
Proof.
  revert out; induction n as [|c n IH]; intros out Hn; simpl.
  - now rewrite append_empty_r.
  - destruct (Ascii.eqb_spec c path.slash) as [E|_].
    + exfalso. apply (Hn c); [now left | exact E].
    + rewrite IH by (intros c' Hc'; apply Hn; now right).
      unfold path.append. now rewrite append_assoc.
Qed.

Lemma copyElement_stop (rest out : string) :
  rest = "" \/ (exists t, rest = String path.slash t) ->
  path.copyElement rest out = (rest, out).
Proof. intros [-> | [t ->]]; reflexivity. Qed.

Lemma specTail_stop (k : nat) :
  specTail k = "" \/ exists t, specTail k = String path.slash t.
Proof. destruct k; [now left | right; eexists; reflexivity]. Qed.

(** After an element, the elements of [specTail k] are copied out one by
    one, each with its slash. *)
Lemma cleanLoop_specTail (k fuel : nat) (rooted : bool) (out : string)
      (dotdot : nat) :
  String.length (specTail k) <= fuel ->
  2 <= String.length out ->
  path.cleanLoop fuel rooted (specTail k) out dotdot = out ++ specTail k.
Proof.
  revert fuel out; induction k as [|k IH]; intros fuel out Hfuel Hout.
  - destruct fuel; simpl; now rewrite append_empty_r.
  - cbn [specTail] in *. rewrite append_length in Hfuel.
    cbn [String.length append] in Hfuel.
    destruct fuel as [|[|fuel]]; [lia | lia |].
    cbn [path.cleanLoop append]. cbn [path.cleanStep Ascii.eqb Bool.eqb path.slash path.dot andb].
    cbv zeta.
    assert ((rooted && negb (String.length out =? 1)%nat
             || negb rooted && negb (String.length out =? 0)%nat) = true) as ->.
    { destruct (String.length out) as [|[|n]]; [lia | lia |].
      now destruct rooted. }
    change (path.copyElement ?x ?o)
      with (path.copyElement ("openapi-spec" ++ specTail k) o).
    rewrite (copyElement_name "openapi-spec")
      by (intros c Hc; cbn in Hc; intuition (subst c; discriminate)).
    rewrite (copyElement_stop _ _ (specTail_stop k)).
    rewrite IH.
    + unfold path.append. now rewrite !append_assoc.
    + lia.
    + rewrite append_length. cbn. lia.
Qed.

(** Copying an element out of [P ++ "openapi-spec" ++ specTail k] stops at
    the first slash of [P], or takes [P] and [openapi-spec] whole. *)
Lemma copyElement_before_spec (P : string) (k : nat) (out : string) :
  (exists n P',
      P = n ++ String path.slash P'
      /\ path.copyElement (P ++ "openapi-spec" ++ specTail k) out
         = (String path.slash P' ++ "openapi-spec" ++ specTail k, out ++ n))
  \/ path.copyElement (P ++ "openapi-spec" ++ specTail k) out
     = (specTail k, out ++ P ++ "openapi-spec").
Proof.
  revert out; induction P as [|c P IH]; intros out.
  - right.
    change ("" ++ "openapi-spec" ++ specTail k)
      with ("openapi-spec" ++ specTail k).
    rewrite (copyElement_name "openapi-spec")
      by (intros c Hc; cbn in Hc; intuition (subst c; discriminate)).
    now rewrite (copyElement_stop _ _ (specTail_stop k)).
  - destruct (Ascii.eqb_spec c path.slash) as [-> | Hc].
    + left. exists "", P. split; [reflexivity|].
      cbn. now rewrite append_empty_r.
    + apply Ascii.eqb_neq in Hc.
      assert (path.copyElement
                (String c P ++ "openapi-spec" ++ specTail k) out
              = path.copyElement (P ++ "openapi-spec" ++ specTail k)
                  (path.append out c)) as ->
          by (cbn [append path.copyElement]; now rewrite Hc).
      destruct (IH (path.append out c)) as [(n & P' & HP & E) | E].
      * left. exists (String c n), P'. split; [now rewrite HP|].
        rewrite E. unfold path.append. now rewrite append_assoc.
      * right. rewrite E. unfold path.append. now rewrite append_assoc.
Qed.

(** The three ways a turn of the loop goes: it drops a slash or a dot, it
    drops two dots, or it copies an element. *)
Lemma cleanStep_cases (rooted : bool) (c : ascii) (t out : string)
      (dotdot : nat) :
  (exists out' dotdot',
      path.cleanStep rooted (String c t) out dotdot = (t, out', dotdot')
      /\ (c = path.slash \/ c = path.dot))
  \/ (exists t2 out' dotdot',
         c = path.dot /\ t = String path.dot t2
         /\ path.cleanStep rooted (String c t) out dotdot
            = (t2, out', dotdot'))
  \/ (c <> path.slash
      /\ exists out1,
          path.cleanStep rooted (String c t) out dotdot
          = (fst (path.copyElement (String c t) out1),
             snd (path.copyElement (String c t) out1), dotdot)).
Proof.
  unfold path.cleanStep.
  destruct (Ascii.eqb_spec c path.slash) as [-> | Hslash].
  { left. eauto. }
  destruct (Ascii.eqb_spec c path.dot) as [-> | Hdot]; cbn [andb].
  - destruct t as [|c2 t2].
    { left. eauto. }
    destruct (Ascii.eqb_spec c2 path.slash) as [-> | Hslash2].
    { left. eauto. }
    destruct (Ascii.eqb_spec c2 path.dot) as [-> | Hdot2].
    + assert (forall (X : string * string * nat) (b : bool) Y,
                 (exists out' dotdot', X = (t2, out', dotdot')) ->
                 (b = false ->
                  exists out1, Y = (fst (path.copyElement
                                           (String path.dot (String path.dot t2))
                                           out1),
                                    snd (path.copyElement
                                           (String path.dot (String path.dot t2))
                                           out1), dotdot)) ->
                 (exists t2' out' dotdot',
                     path.dot = path.dot
                     /\ String path.dot t2 = String path.dot t2'
                     /\ (if b then X else Y) = (t2', out', dotdot'))
                 \/ (path.dot <> path.slash
                     /\ exists out1,
                         (if b then X else Y)
                         = (fst (path.copyElement
                                   (String path.dot (String path.dot t2)) out1),
                            snd (path.copyElement
                                   (String path.dot (String path.dot t2)) out1),
                            dotdot))) as Hsplit.
      { intros X b Y HX HY. destruct b.
        - left. destruct HX as (out' & dotdot' & ->). eauto 10.
        - right. split; [discriminate | now apply HY]. }
      right. apply Hsplit.
      * destruct (_ <? _)%nat; [eauto|]. destruct (negb rooted); eauto.
      * intros _.
        match goal with
        | |- context [path.copyElement ?r ?o] =>
            exists o; destruct (path.copyElement r o); reflexivity
        end.
    + right. right. split; [exact Hslash|].
      assert (match t2 with
              | "" => false
              | String c3 _ => false && (c3 =? path.slash)%char
              end = false) as -> by now destruct t2.
      match goal with
      | |- context [path.copyElement ?r ?o] =>
          exists o; destruct (path.copyElement r o); reflexivity
      end.
  - right. right. split; [exact Hslash|].
    match goal with
    | |- context [path.copyElement ?r ?o] =>
        exists o; destruct (path.copyElement r o); reflexivity
    end.
Qed.

(** However the loop starts, a path that ends in [openapi-spec] elements
    is cleaned to one that ends in the same elements. *)
Lemma cleanLoop_keeps_spec (m : nat) :
  forall (P : string) (k fuel : nat) (rooted : bool) (out : string)
         (dotdot : nat),
    String.length P < m ->
    String.length (P ++ "openapi-spec" ++ specTail k) <= fuel ->
    exists b,
      path.cleanLoop fuel rooted (P ++ "openapi-spec" ++ specTail k) out dotdot
      = b ++ "openapi-spec" ++ specTail k.
Proof.
  induction m as [|m IH]; intros P k fuel rooted out dotdot Hm Hfuel; [lia|].
  remember ("openapi-spec" ++ specTail k) as W eqn:HW.
  assert (exists W', W = String "o" W') as [W' HW']
      by (subst W; eexists; reflexivity).
  remember (P ++ W) as R eqn:HR.
  destruct R as [|c t]; [destruct P; subst W; discriminate HR|].
  destruct fuel as [|fuel]; [simpl in Hfuel; lia|].
  cbn [path.cleanLoop]. cbn [String.length] in Hfuel.
  destruct (cleanStep_cases rooted c t out dotdot)
    as [(out' & dotdot' & -> & Hc)
       | [(t2 & out' & dotdot' & Hc & Ht & ->)
         | (Hc & out1 & ->)]].
  - destruct P as [|c' P1]; cbn [append] in HR.
    { rewrite HW' in HR. injection HR as -> _. destruct Hc; discriminate. }
    injection HR as <- ->. subst W. apply IH; [simpl in Hm; lia | lia].
  - subst c t.
    destruct P as [|c' [|c'' P2]]; cbn [append] in HR;
      try (rewrite HW' in HR; discriminate HR).
    injection HR as _ _ ->. subst W.
    apply IH; [simpl in Hm; lia|]. cbn [String.length] in Hfuel. lia.
  - rewrite HR. subst W.
    destruct (copyElement_before_spec P k out1)
      as [(n & P' & HP & E) | E]; rewrite E; cbn [fst snd].
    + destruct n as [|c' n].
      { subst P. cbn [append] in HR. injection HR as -> _. now elim Hc. }
      apply (IH (String path.slash P')).
      * subst P. rewrite append_length in Hm. simpl in Hm. simpl. lia.
      * apply (f_equal String.length) in HR. subst P.
        rewrite !append_length in HR. cbn [String.length] in HR.
        rewrite !append_length. cbn [String.length]. lia.
    + rewrite cleanLoop_specTail.
      * exists (out1 ++ P). now rewrite !append_assoc.
      * apply (f_equal String.length) in HR.
        rewrite !append_length in HR. cbn [String.length] in HR. lia.
      * rewrite !append_length. cbn. lia.
Qed.

Lemma Clean_keeps_spec (X : string) (k : nat) :
  exists b,
    path.Clean (X ++ "openapi-spec" ++ specTail k)
    = b ++ "openapi-spec" ++ specTail k.
Proof.
  assert (exists b rooted fuel rest out dotdot,
             path.Clean (X ++ "openapi-spec" ++ specTail k)
             = (let r := path.cleanLoop fuel rooted rest out dotdot in
                if (String.length r =? 0)%nat then "." else r)
             /\ path.cleanLoop fuel rooted rest out dotdot
                = b ++ "openapi-spec" ++ specTail k)
    as (b & rooted & fuel & rest & out & dotdot & -> & ->).
  { destruct X as [|c0 X].
    - destruct (cleanLoop_keeps_spec 1 "" k
                  (String.length ("" ++ "openapi-spec" ++ specTail k))
                  false "" 0) as [b Hb]; [cbn; lia | lia |].
      exists b. do 5 eexists. split; [|exact Hb]. reflexivity.
    - destruct (Ascii.eqb c0 path.slash) eqn:Hc0.
      + destruct (cleanLoop_keeps_spec (S (String.length X)) X k
                    (String.length (X ++ "openapi-spec" ++ specTail k))
                    true (String path.slash "") 1) as [b Hb]; [lia | lia |].
        exists b. do 5 eexists. split; [|exact Hb].
        change (String c0 X ++ ?w) with (String c0 (X ++ w)).
        cbn [path.Clean]. now rewrite Hc0.
      + destruct (cleanLoop_keeps_spec (S (String.length (String c0 X)))
                    (String c0 X) k
                    (String.length
                       (String c0 X ++ "openapi-spec" ++ specTail k))
                    false "" 0) as [b Hb]; [lia | lia |].
        exists b. do 5 eexists. split; [|exact Hb].
        change (String c0 X ++ ?w) with (String c0 (X ++ w)).
        cbn [path.Clean]. now rewrite Hc0. }
  exists b. cbv zeta.
  assert ((String.length (b ++ "openapi-spec" ++ specTail k) =? 0)%nat = false)
    as -> by (rewrite !append_length; apply Nat.eqb_neq; cbn; lia).
  reflexivity.
Qed.

Lemma Join_endpoint (p : string) :
  p <> "" ->
  path.Join [p; "openapi-spec"] = path.Clean ((p ++ "/") ++ "openapi-spec").
Proof.
  intros Hp. unfold path.Join. cbn [fold_left].
  assert ((0 + String.length p + String.length "openapi-spec" =? 0)%nat = false)
    as -> by (apply Nat.eqb_neq; cbn; lia).
  cbn [String.length Nat.ltb Nat.leb orb].
  rewrite (eqb_empty_false _ Hp). cbn [negb append].
  destruct p as [|c p]; [now elim Hp | reflexivity].
Qed.

Lemma specTail_snoc (k : nat) :
  specTail k ++ "/openapi-spec" = specTail (S k).
Proof.
  induction k as [|k IH]; [reflexivity|].
  cbn [specTail]. rewrite append_assoc, IH. reflexivity.
Qed.

Lemma specTail_length (k : nat) : String.length (specTail k) = 13 * k.
Proof.
  induction k as [|k IH]; [reflexivity|].
  cbn [specTail]. rewrite append_length, IH. cbn [String.length]. lia.
Qed.

(** The specification endpoint of a base path ends in one more
    [openapi-spec] element than the base path does. *)
Lemma endpoint_keeps_spec (p : string) (k : nat) :
  p <> "" ->
  (k = 0 \/ exists b, p = b ++ "openapi-spec" ++ specTail (k - 1)) ->
  exists b,
    path.Join [p; "openapi-spec"] = b ++ "openapi-spec" ++ specTail k.
Proof.
  intros Hp Hk. rewrite Join_endpoint by assumption.
  destruct k as [|k].
  - apply (Clean_keeps_spec (p ++ "/") 0).
  - destruct Hk as [Hk | [b ->]]; [discriminate Hk|].
    replace (S k - 1) with k by lia.
    replace (((b ++ "openapi-spec" ++ specTail k) ++ "/") ++ "openapi-spec")
      with (b ++ "openapi-spec" ++ specTail (S k)).
    + apply Clean_keeps_spec.
    + rewrite <- specTail_snoc, !append_assoc. reflexivity.
Qed.

(** A request for the mount root is never a request for the specification:
    the endpoint of a base path is not a suffix of the base path. *)
Lemma root_is_not_endpoint (p : string) :
  strings.HasSuffix p (path.Join [p; "openapi-spec"]) = false.
Proof.
  destruct (strings.HasSuffix _ _) eqn:E; [exfalso | reflexivity].
  apply HasSuffix_true_iff in E as [x Hx].
  destruct p as [|c p]; [now destruct x|].
  remember (String c p) as q eqn:Hq.
  assert (q <> "") as Hne by (subst q; discriminate).
  assert (forall k, exists b, q = b ++ "openapi-spec" ++ specTail k) as Hall.
  { induction k as [|k [b IH]].
    - destruct (endpoint_keeps_spec q 0 Hne (or_introl eq_refl)) as [b Hb].
      exists (x ++ b). rewrite Hx at 1. now rewrite Hb, append_assoc.
    - destruct (endpoint_keeps_spec q (S k) Hne) as [b' Hb'].
      { right. exists b. now replace (S k - 1) with k by lia. }
      exists (x ++ b'). rewrite Hx at 1. now rewrite Hb', append_assoc. }
  destruct (Hall (String.length q)) as [b Hb].
  apply (f_equal String.length) in Hb.
  rewrite !append_length, specTail_length in Hb.
  cbn [String.length] in Hb. lia.
Qed.

(** ** The handler factories *)

Section Properties.
Context `{L : template.Library}.

Lemma elements_factory_inv cfg h :
  elements.ElementsDocumentsHandler cfg = Ready h ->
  exists t,
    template.ParsePage elements.defaultElementsTemplate
      (elements.Template (elements.normalize cfg)) = inl t
    /\ ((elements.Spec cfg =? "") = true -> (elements.SpecUrl cfg =? "") = false)
    /\ h = elements.handlerFunc (elements.normalize cfg)
             (elements.Spec cfg =? "") t.
Proof.
  intros Hready. invert_factory Hready; eexists; repeat split; eauto;
    discriminate.
Qed.

Lemma scalar_factory_inv cfg h :
  scalar.ScalarDocumentsHandler cfg = Ready h ->
  exists t,
    template.ParsePage scalar.defaultScalarTemplate
      (scalar.Template (scalar.normalize cfg)) = inl t
    /\ ((scalar.Spec cfg =? "") = true -> (scalar.SpecUrl cfg =? "") = false)
    /\ h = scalar.handlerFunc (scalar.normalize cfg) (scalar.Spec cfg =? "") t.
Proof.
  intros Hready. invert_factory Hready; eexists; repeat split; eauto;
    discriminate.
Qed.

Lemma swaggerui_factory_inv cfg h :
  swaggerui.SwaggerUIDocumentsHandler cfg = Ready h ->
  exists t,
    template.ParsePage swaggerui.defaultSwaggerUITemplate
      (swaggerui.Template (swaggerui.normalize cfg)) = inl t
    /\ ((swaggerui.Spec cfg =? "") = true
        -> (swaggerui.SpecUrl cfg =? "") = false)
    /\ h = swaggerui.handlerFunc (swaggerui.normalize cfg)
             (swaggerui.Spec cfg =? "") t.
Proof.
  intros Hready. invert_factory Hready; eexists; repeat split; eauto;
    discriminate.
Qed.

Lemma redoc_factory_inv cfg h :
  redoc.RedocDocumentsHandler cfg = Ready h ->
  exists t,
    template.ParsePage redoc.defaultRedocTemplate
      (redoc.Template (redoc.normalize cfg)) = inl t
    /\ ((redoc.Spec cfg =? "") = true -> (redoc.SpecUrl cfg =? "") = false)
    /\ h = redoc.handlerFunc (redoc.normalize cfg) (redoc.Spec cfg =? "") t.
Proof.
  intros Hready. invert_factory Hready; eexists; repeat split; eauto;
    discriminate.
Qed.

(** ** The three answers of a handler

    One lemma for each way out of the closure: the raw specification, the
    redirect to the base path, the page. *)

Lemma elements_serves_spec cfg t c :
  strings.HasSuffix (echo.Request_URL_Path c) (specEndpoint c) = true ->
  elements.handlerFunc cfg false t c = rawSpec (elements.Spec cfg).
Proof. intros E. enter_closure. cbn [negb]. now rewrite E. Qed.

Lemma scalar_serves_spec cfg t c :
  strings.HasSuffix (echo.Request_URL_Path c) (specEndpoint c) = true ->
  scalar.handlerFunc cfg false t c = rawSpec (scalar.Spec cfg).
Proof. intros E. enter_closure. cbn [negb]. now rewrite E. Qed.

Lemma swaggerui_serves_spec cfg t c :
  strings.HasSuffix (echo.Request_URL_Path c) (specEndpoint c) = true ->
  swaggerui.handlerFunc cfg false t c = rawSpec (swaggerui.Spec cfg).
Proof. intros E. enter_closure. cbn [negb]. now rewrite E. Qed.

Lemma redoc_serves_spec cfg t c :
  strings.HasSuffix (echo.Request_URL_Path c) (specEndpoint c) = true ->
  redoc.handlerFunc cfg false t c = rawSpec (redoc.Spec cfg).
Proof. intros E. enter_closure. cbn [negb]. now rewrite E. Qed.

Lemma elements_redirects cfg u t c :
  past_spec u c ->
  elements.Router cfg <> elements.ElementsRouterHistory ->
  echo.Param c "*" <> "" ->
  elements.handlerFunc cfg u t c = found (basePath c).
Proof.
  intros Hpast Hrouter Hrel. enter_closure.
  apply String.eqb_neq in Hrouter, Hrel.
  pass_spec u Hpast; now rewrite Hrouter, Hrel.
Qed.

Lemma scalar_redirects cfg u t c :
  past_spec u c -> echo.Param c "*" <> "" ->
  scalar.handlerFunc cfg u t c = found (basePath c).
Proof.
  intros Hpast Hrel. enter_closure. apply String.eqb_neq in Hrel.
  pass_spec u Hpast; now rewrite Hrel.
Qed.

Lemma swaggerui_redirects cfg u t c :
  past_spec u c -> echo.Param c "*" <> "" ->
  swaggerui.handlerFunc cfg u t c = found (basePath c).
Proof.
  intros Hpast Hrel. enter_closure. apply String.eqb_neq in Hrel.
  pass_spec u Hpast; now rewrite Hrel.
Qed.

Lemma redoc_redirects cfg u t c :
  past_spec u c -> echo.Param c "*" <> "" ->
  redoc.handlerFunc cfg u t c = found (basePath c).
Proof.
  intros Hpast Hrel. enter_closure. apply String.eqb_neq in Hrel.
  pass_spec u Hpast; now rewrite Hrel.
Qed.

Lemma elements_writes_page cfg u t c :
  past_spec u c ->
  elements.Router cfg = elements.ElementsRouterHistory
  \/ echo.Param c "*" = "" ->
  elements.handlerFunc cfg u t c
  = wrote (template.ExecutePage elements.defaultElementsPage
             elements.elementsTemplateParams_fields t
             {| elements.Embedded := cfg;
                elements.BasePath := basePath c;
                elements.ApiDescriptionUrl :=
                  if u then elements.SpecUrl cfg else specEndpoint c |}).
Proof.
  intros Hpast Hpage. enter_closure.
  assert (negb (elements.Router cfg =? elements.ElementsRouterHistory)
          && negb (echo.Param c "*" =? "") = false) as ->.
  { destruct Hpage as [-> | ->]; [now rewrite String.eqb_refl|].
    now rewrite andb_false_r. }
  pass_spec u Hpast; reflexivity.
Qed.

Lemma scalar_writes_page cfg u t c :
  past_spec u c -> echo.Param c "*" = "" ->
  scalar.handlerFunc cfg u t c
  = wrote (template.ExecutePage scalar.defaultScalarPage
             scalar.scalarTemplateParams_fields t
             {| scalar.Embedded := cfg;
                scalar.BasePath := basePath c;
                scalar.ApiReferenceConfiguration :=
                  json.Marshal
                    (scalar.conf.apiReferenceConfiguration_json
                       {| scalar.conf.IsEditable := scalar.IsEditable cfg;
                          scalar.conf.Spec :=
                            {| scalar.conf.URL :=
                                 if u then scalar.SpecUrl cfg
                                 else specEndpoint c |};
                          scalar.conf.ProxyUrl := scalar.ProxyUrl cfg;
                          scalar.conf.DarkMode := scalar.DarkMode cfg;
                          scalar.conf.Layout := scalar.Layout cfg;
                          scalar.conf.Theme := scalar.Theme cfg;
                          scalar.conf.ShowSidebar :=
                            negb (scalar.HideSidebar cfg);
                          scalar.conf.SearchHotKey :=
                            scalar.SearchHotKey cfg |}) |}).
Proof.
  intros Hpast Hrel. enter_closure. rewrite Hrel. cbn [String.eqb negb].
  pass_spec u Hpast; reflexivity.
Qed.

Lemma swaggerui_writes_page cfg u t c :
  past_spec u c -> echo.Param c "*" = "" ->
  swaggerui.handlerFunc cfg u t c
  = wrote (template.ExecutePage swaggerui.defaultSwaggerUIPage
             swaggerui.swaggerUITemplateParams_fields t
             {| swaggerui.Embedded := cfg;
                swaggerui.BasePath := basePath c;
                swaggerui.SwaggerUIConfiguration :=
                  json.Marshal
                    (swaggerui.conf.swaggerUIConfiguration_json
                       {| swaggerui.conf.Url :=
                            if u then swaggerui.SpecUrl cfg
                            else specEndpoint c;
                          swaggerui.conf.DomId := "#swagger-ui";
                          swaggerui.conf.DeepLinking :=
                            swaggerui.DeepLinking cfg;
                          swaggerui.conf.DisplayOperationId :=
                            swaggerui.DisplayOperationId cfg |}) |}).
Proof.
  intros Hpast Hrel. enter_closure. rewrite Hrel. cbn [String.eqb negb].
  pass_spec u Hpast; reflexivity.
Qed.

Lemma redoc_writes_page cfg u t c :
  past_spec u c -> echo.Param c "*" = "" ->
  redoc.handlerFunc cfg u t c
  = wrote (template.ExecutePage redoc.defaultRedocPage
             redoc.redocTemplateParams_fields t
             {| redoc.params.Embedded := cfg;
                redoc.params.BasePath := basePath c;
                redoc.params.SpecUrl :=
                  if u then redoc.SpecUrl cfg else specEndpoint c |}).
Proof.
  intros Hpast Hrel. enter_closure. rewrite Hrel. cbn [String.eqb negb].
  pass_spec u Hpast; reflexivity.
Qed.

Lemma wrote_not_rawSpec r spec : wrote r <> rawSpec spec.
Proof. destruct r; discriminate. Qed.

Lemma found_not_rawSpec location spec : found location <> rawSpec spec.
Proof. discriminate. Qed.

Lemma past_spec_inline c :
  strings.HasSuffix (echo.Request_URL_Path c) (specEndpoint c) = false ->
  past_spec false c.
Proof. now right. Qed.

Lemma past_spec_url c : past_spec true c.
Proof. now left. Qed.

Lemma past_spec_root u c : echo.Param c "*" = "" -> past_spec u c.
Proof.
  intros Hrel. right. unfold specEndpoint, basePath.
  rewrite Hrel, TrimSuffix_empty. apply root_is_not_endpoint.
Qed.

#[local] Hint Resolve past_spec_inline past_spec_url past_spec_root : core.

(** ** The claims *)

(** C10: when the wildcard remainder [relPath] is not a suffix of the
    request path, the base path is the request path unchanged; when it is
    a suffix, the request path is the base path followed by [relPath], and
    that happens for no other request. *)
Theorem basePath_trims_suffix (c : echo.Context) :
  let p := echo.Request_URL_Path c in
  let relPath := echo.Param c "*" in
  (strings.HasSuffix p relPath = false -> basePath c = p)
  /\ (strings.HasSuffix p relPath = true -> p = basePath c ++ relPath)
  /\ (forall b, p = b ++ relPath -> basePath c = b)
  /\ (strings.HasSuffix p relPath = true <-> exists b, p = b ++ relPath).
Proof.
  cbv zeta. unfold basePath. repeat split.
  - apply TrimSuffix_not_suffix.
  - intros Hs. apply HasSuffix_true_iff in Hs as [b Hb].
    rewrite Hb at 2. now rewrite TrimSuffix_append.
  - intros b ->. apply TrimSuffix_append.
  - apply HasSuffix_true_iff.
  - apply HasSuffix_true_iff.
Qed.

(** C1: with a non-empty inline [Spec], every provider answers a request
    whose path is the base path joined with [openapi-spec] with status 200,
    content type [text/plain] and the inline specification as the body. *)
Theorem inline_spec_served_at_endpoint :
  (forall cfg h c,
      elements.ElementsDocumentsHandler cfg = Ready h ->
      elements.Spec cfg <> "" ->
      echo.Request_URL_Path c = path.Join [basePath c; "openapi-spec"] ->
      h c = echo.Responded
              {| echo.Status := 200;
                 echo.Header := [("Content-Type", "text/plain; charset=utf-8")];
                 echo.Body := elements.Spec cfg |})
  /\ (forall cfg h c,
      scalar.ScalarDocumentsHandler cfg = Ready h ->
      scalar.Spec cfg <> "" ->
      echo.Request_URL_Path c = path.Join [basePath c; "openapi-spec"] ->
      h c = echo.Responded
              {| echo.Status := 200;
                 echo.Header := [("Content-Type", "text/plain; charset=utf-8")];
                 echo.Body := scalar.Spec cfg |})
  /\ (forall cfg h c,
      swaggerui.SwaggerUIDocumentsHandler cfg = Ready h ->
      swaggerui.Spec cfg <> "" ->
      echo.Request_URL_Path c = path.Join [basePath c; "openapi-spec"] ->
      h c = echo.Responded
              {| echo.Status := 200;
                 echo.Header := [("Content-Type", "text/plain; charset=utf-8")];
                 echo.Body := swaggerui.Spec cfg |})
  /\ (forall cfg h c,
      redoc.RedocDocumentsHandler cfg = Ready h ->
      redoc.Spec cfg <> "" ->
      echo.Request_URL_Path c = path.Join [basePath c; "openapi-spec"] ->
      h c = echo.Responded
              {| echo.Status := 200;
                 echo.Header := [("Content-Type", "text/plain; charset=utf-8")];
                 echo.Body := redoc.Spec cfg |}).
Proof.
  repeat split; intros cfg h c Hready Hspec Hpath;
    apply eqb_empty_false in Hspec;
    apply HasSuffix_eq in Hpath; fold (specEndpoint c) in Hpath.
  - apply elements_factory_inv in Hready as (t & _ & _ & ->).
    rewrite Hspec. now rewrite elements_serves_spec.
  - apply scalar_factory_inv in Hready as (t & _ & _ & ->).
    rewrite Hspec. now rewrite scalar_serves_spec.
  - apply swaggerui_factory_inv in Hready as (t & _ & _ & ->).
    rewrite Hspec. now rewrite swaggerui_serves_spec.
  - apply redoc_factory_inv in Hready as (t & _ & _ & ->).
    rewrite Hspec. now rewrite redoc_serves_spec.
Qed.

(** C2, as the code has it: with an inline [Spec], a provider answers with
    the raw specification exactly when the base path joined with
    [openapi-spec] is a suffix of the request path; equality of the two is
    one such case, not the only one. *)
Theorem spec_served_iff_endpoint_suffix :
  (forall cfg h c,
      elements.ElementsDocumentsHandler cfg = Ready h ->
      elements.Spec cfg <> "" ->
      (h c = rawSpec (elements.Spec cfg)
       <-> strings.HasSuffix (echo.Request_URL_Path c)
             (path.Join [basePath c; "openapi-spec"]) = true))
  /\ (forall cfg h c,
      scalar.ScalarDocumentsHandler cfg = Ready h ->
      scalar.Spec cfg <> "" ->
      (h c = rawSpec (scalar.Spec cfg)
       <-> strings.HasSuffix (echo.Request_URL_Path c)
             (path.Join [basePath c; "openapi-spec"]) = true))
  /\ (forall cfg h c,
      swaggerui.SwaggerUIDocumentsHandler cfg = Ready h ->
      swaggerui.Spec cfg <> "" ->
      (h c = rawSpec (swaggerui.Spec cfg)
       <-> strings.HasSuffix (echo.Request_URL_Path c)
             (path.Join [basePath c; "openapi-spec"]) = true))
  /\ (forall cfg h c,
      redoc.RedocDocumentsHandler cfg = Ready h ->
      redoc.Spec cfg <> "" ->
      (h c = rawSpec (redoc.Spec cfg)
       <-> strings.HasSuffix (echo.Request_URL_Path c)
             (path.Join [basePath c; "openapi-spec"]) = true)).
Proof.
  split; [|split; [|split]]; intros cfg h c Hready Hspec;
    apply eqb_empty_false in Hspec; fold (specEndpoint c).
  - apply elements_factory_inv in Hready as (t & _ & _ & ->). rewrite Hspec.
    split; [|exact (elements_serves_spec (elements.normalize cfg) t c)].
    intros Hraw.
    destruct (strings.HasSuffix _ _) eqn:E; [reflexivity|exfalso].
    destruct (String.eqb_spec (elements.Router (elements.normalize cfg))
                elements.ElementsRouterHistory) as [Hr|Hr];
      [|destruct (String.eqb_spec (echo.Param c "*") "") as [Hp|Hp]].
    + rewrite elements_writes_page in Hraw by auto.
      now apply wrote_not_rawSpec in Hraw.
    + rewrite elements_writes_page in Hraw by auto.
      now apply wrote_not_rawSpec in Hraw.
    + rewrite elements_redirects in Hraw by auto. discriminate Hraw.
  - apply scalar_factory_inv in Hready as (t & _ & _ & ->). rewrite Hspec.
    split; [|exact (scalar_serves_spec (scalar.normalize cfg) t c)].
    intros Hraw.
    destruct (strings.HasSuffix _ _) eqn:E; [reflexivity|exfalso].
    destruct (String.eqb_spec (echo.Param c "*") "") as [Hp|Hp].
    + rewrite scalar_writes_page in Hraw by auto.
      now apply wrote_not_rawSpec in Hraw.
    + rewrite scalar_redirects in Hraw by auto. discriminate Hraw.
  - apply swaggerui_factory_inv in Hready as (t & _ & _ & ->). rewrite Hspec.
    split; [|exact (swaggerui_serves_spec (swaggerui.normalize cfg) t c)].
    intros Hraw.
    destruct (strings.HasSuffix _ _) eqn:E; [reflexivity|exfalso].
    destruct (String.eqb_spec (echo.Param c "*") "") as [Hp|Hp].
    + rewrite swaggerui_writes_page in Hraw by auto.
      now apply wrote_not_rawSpec in Hraw.
    + rewrite swaggerui_redirects in Hraw by auto. discriminate Hraw.
  - apply redoc_factory_inv in Hready as (t & _ & _ & ->). rewrite Hspec.
    split; [|exact (redoc_serves_spec (redoc.normalize cfg) t c)].
    intros Hraw.
    destruct (strings.HasSuffix _ _) eqn:E; [reflexivity|exfalso].
    destruct (String.eqb_spec (echo.Param c "*") "") as [Hp|Hp].
    + rewrite redoc_writes_page in Hraw by auto.
      now apply wrote_not_rawSpec in Hraw.
    + rewrite redoc_redirects in Hraw by auto. discriminate Hraw.
Qed.

(** C3: for every provider, a configuration whose [Spec] and [SpecUrl] are
    both empty makes the handler factory panic, and with it the
    registering call: no handler is returned and no route is added, so no
    request is ever served. *)
Theorem missing_spec_source_panics :
  (forall cfg,
      elements.Spec cfg = "" -> elements.SpecUrl cfg = "" ->
      elements.ElementsDocumentsHandler cfg = Panic "either Spec or SpecUrl must be set"
      /\ forall e pathPrefix,
           elements.ElementsDocuments e pathPrefix cfg
           = Panic "either Spec or SpecUrl must be set")
  /\ (forall cfg,
      scalar.Spec cfg = "" -> scalar.SpecUrl cfg = "" ->
      scalar.ScalarDocumentsHandler cfg = Panic "either Spec or SpecUrl must be set"
      /\ forall e pathPrefix,
           scalar.ScalarDocuments e pathPrefix cfg
           = Panic "either Spec or SpecUrl must be set")
  /\ (forall cfg,
      swaggerui.Spec cfg = "" -> swaggerui.SpecUrl cfg = "" ->
      swaggerui.SwaggerUIDocumentsHandler cfg = Panic "either Spec or SpecUrl must be set"
      /\ forall e pathPrefix,
           swaggerui.SwaggerUIDocuments e pathPrefix cfg
           = Panic "either Spec or SpecUrl must be set")
  /\ (forall cfg,
      redoc.Spec cfg = "" -> redoc.SpecUrl cfg = "" ->
      redoc.RedocDocumentsHandler cfg = Panic "either Spec or SpecUrl must be set"
      /\ forall e pathPrefix,
           redoc.RedocDocuments e pathPrefix cfg
           = Panic "either Spec or SpecUrl must be set").
Proof.
  split; [|split; [|split]]; intros cfg Hspec Hurl.
  - assert (elements.ElementsDocumentsHandler cfg
            = Panic "either Spec or SpecUrl must be set") as E.
    { unfold elements.ElementsDocumentsHandler.
      cbn [elements.normalize elements.Spec elements.SpecUrl].
      now rewrite Hspec, Hurl. }
    split; [exact E|]. intros e pathPrefix.
    unfold elements.ElementsDocuments. now rewrite E.
  - assert (scalar.ScalarDocumentsHandler cfg
            = Panic "either Spec or SpecUrl must be set") as E.
    { unfold scalar.ScalarDocumentsHandler.
      cbn [scalar.normalize scalar.Spec scalar.SpecUrl].
      now rewrite Hspec, Hurl. }
    split; [exact E|]. intros e pathPrefix.
    unfold scalar.ScalarDocuments. now rewrite E.
  - assert (swaggerui.SwaggerUIDocumentsHandler cfg
            = Panic "either Spec or SpecUrl must be set") as E.
    { unfold swaggerui.SwaggerUIDocumentsHandler.
      cbn [swaggerui.normalize swaggerui.Spec swaggerui.SpecUrl].
      now rewrite Hspec, Hurl. }
    split; [exact E|]. intros e pathPrefix.
    unfold swaggerui.SwaggerUIDocuments. now rewrite E.
  - assert (redoc.RedocDocumentsHandler cfg
            = Panic "either Spec or SpecUrl must be set") as E.
    { unfold redoc.RedocDocumentsHandler.
      cbn [redoc.normalize redoc.Spec redoc.SpecUrl].
      now rewrite Hspec, Hurl. }
    split; [exact E|]. intros e pathPrefix.
    unfold redoc.RedocDocuments. now rewrite E.
Qed.

Lemma past_spec_of_config (spec : string) (c : echo.Context) :
  spec = ""
  \/ strings.HasSuffix (echo.Request_URL_Path c)
       (path.Join [basePath c; "openapi-spec"]) = false ->
  past_spec (spec =? "") c.
Proof. intros [-> | E]; [now left | now right]. Qed.

(** C4: for Scalar, Swagger UI and Redoc, a request with a non-empty
    wildcard remainder that is not answered with the specification gets
    status 302 and [Location] equal to the base path. *)
Theorem subpath_redirects_to_base_path :
  (forall cfg h c,
      scalar.ScalarDocumentsHandler cfg = Ready h ->
      echo.Param c "*" <> "" ->
      scalar.Spec cfg = ""
      \/ strings.HasSuffix (echo.Request_URL_Path c)
           (path.Join [basePath c; "openapi-spec"]) = false ->
      h c = echo.Responded
              {| echo.Status := 302;
                 echo.Header := [("Location", basePath c)];
                 echo.Body := "" |})
  /\ (forall cfg h c,
      swaggerui.SwaggerUIDocumentsHandler cfg = Ready h ->
      echo.Param c "*" <> "" ->
      swaggerui.Spec cfg = ""
      \/ strings.HasSuffix (echo.Request_URL_Path c)
           (path.Join [basePath c; "openapi-spec"]) = false ->
      h c = echo.Responded
              {| echo.Status := 302;
                 echo.Header := [("Location", basePath c)];
                 echo.Body := "" |})
  /\ (forall cfg h c,
      redoc.RedocDocumentsHandler cfg = Ready h ->
      echo.Param c "*" <> "" ->
      redoc.Spec cfg = ""
      \/ strings.HasSuffix (echo.Request_URL_Path c)
           (path.Join [basePath c; "openapi-spec"]) = false ->
      h c = echo.Responded
              {| echo.Status := 302;
                 echo.Header := [("Location", basePath c)];
                 echo.Body := "" |}).
Proof.
  split; [|split]; intros cfg h c Hready Hrel Hpast;
    apply past_spec_of_config in Hpast.
  - apply scalar_factory_inv in Hready as (t & _ & _ & ->).
    now apply scalar_redirects.
  - apply swaggerui_factory_inv in Hready as (t & _ & _ & ->).
    now apply swaggerui_redirects.
  - apply redoc_factory_inv in Hready as (t & _ & _ & ->).
    now apply redoc_redirects.
Qed.

Lemma ParsePage_builtin (builtin : string) :
  template.ParsePage builtin builtin = inl template.Builtin.
Proof. unfold template.ParsePage. now rewrite String.eqb_refl. Qed.

Lemma elements_router_history cfg :
  elements.Router cfg = elements.ElementsRouterHistory
  \/ elements.Router cfg = "" ->
  elements.Router (elements.normalize cfg) = elements.ElementsRouterHistory.
Proof. now intros [E | E]; cbn; rewrite E. Qed.

(** C5: for Elements with [Router] set to [history], or left empty, a
    request for a sub-path gets status 200 whenever it gets a response;
    the handler never returns an error, and it panics only when a template
    of the embedding application fails to execute, so with the built-in
    template the request is always answered with status 200. *)
Theorem elements_history_never_redirects cfg h c :
  elements.ElementsDocumentsHandler cfg = Ready h ->
  elements.Router cfg = elements.ElementsRouterHistory
  \/ elements.Router cfg = "" ->
  echo.Param c "*" <> "" ->
  match h c with
  | echo.Responded r => echo.Status r = 200%Z
  | echo.Failed _ => False
  | echo.Panicked _ =>
      elements.Template cfg <> ""
      /\ elements.Template cfg <> elements.defaultElementsTemplate
  end
  /\ (elements.Template cfg = ""
      \/ elements.Template cfg = elements.defaultElementsTemplate ->
      exists r, h c = echo.Responded r /\ echo.Status r = 200%Z).
Proof.
  intros Hready Hrouter Hrel.
  apply elements_factory_inv in Hready as (t & Hparse & _ & ->).
  apply elements_router_history in Hrouter.
  assert (elements.Template cfg = ""
          \/ elements.Template cfg = elements.defaultElementsTemplate ->
          t = template.Builtin) as Hbuiltin.
  { intros Ht.
    assert (elements.Template (elements.normalize cfg)
            = elements.defaultElementsTemplate) as E
        by (destruct Ht as [E | E]; cbn; now rewrite E).
    rewrite E, ParsePage_builtin in Hparse. congruence. }
  destruct (elements.Spec cfg =? "") eqn:Hspec;
    [|destruct (strings.HasSuffix (echo.Request_URL_Path c) (specEndpoint c))
        eqn:Hsuffix].
  - rewrite elements_writes_page by auto.
    destruct t as [|t]; cbn [template.ExecutePage wrote].
    + split; [reflexivity|]. intros _. eexists. split; reflexivity.
    + destruct (template.Execute _ _); cbn.
      * split; [reflexivity|]. intros Ht. now specialize (Hbuiltin Ht).
      * split; [|intros Ht; now specialize (Hbuiltin Ht)].
        split; intros Ht; discriminate Hbuiltin; auto.
  - rewrite elements_serves_spec by assumption. cbn.
    split; [reflexivity|]. intros _. eexists. split; reflexivity.
  - rewrite elements_writes_page by auto.
    destruct t as [|t]; cbn [template.ExecutePage wrote].
    + split; [reflexivity|]. intros _. eexists. split; reflexivity.
    + destruct (template.Execute _ _); cbn.
      * split; [reflexivity|]. intros Ht. now specialize (Hbuiltin Ht).
      * split; [|intros Ht; now specialize (Hbuiltin Ht)].
        split; intros Ht; discriminate Hbuiltin; auto.
Qed.

Lemma spec_source cfg_spec cfg_url :
  ((cfg_spec =? "") = true -> (cfg_url =? "") = false) ->
  (cfg_spec <> "" -> (cfg_spec =? "") = false)
  /\ (cfg_spec = "" -> (cfg_spec =? "") = true /\ cfg_url <> "").
Proof.
  intros Hurl. split.
  - apply eqb_empty_false.
  - intros ->. split; [reflexivity|]. now apply String.eqb_neq, Hurl.
Qed.

(** ** Where a built-in page holds the specification reference *)

Lemma part_here (part rest : string) :
  exists before after, part ++ rest = before ++ part ++ after.
Proof. now exists "", rest. Qed.

Lemma part_left (s part : string) (l : string) :
  (exists before after, s = before ++ part ++ after) ->
  exists before after, l ++ s = before ++ part ++ after.
Proof.
  intros (b & a & ->). exists (l ++ b), a. now rewrite append_assoc.
Qed.

Lemma part_right (s part : string) (r : string) :
  (exists before after, s = before ++ part ++ after) ->
  exists before after, s ++ r = before ++ part ++ after.
Proof.
  intros (b & a & ->). exists b, (a ++ r). now rewrite !append_assoc.
Qed.

Lemma concat_member (sep x : string) (l1 l2 : list string) :
  exists before after,
    String.concat sep (l1 ++ x :: l2) = before ++ x ++ after.
Proof.
  induction l1 as [|y l1 IH].
  - destruct l2 as [|z l2]; cbn [app String.concat].
    + exists "", "". now rewrite append_empty_r.
    + now exists "", (sep ++ String.concat sep (z :: l2)).
  - destruct IH as (b & a & IH).
    replace (String.concat sep ((y :: l1) ++ x :: l2))
      with (y ++ sep ++ String.concat sep (l1 ++ x :: l2))
      by (cbn [app String.concat]; now destruct (l1 ++ x :: l2)%list eqn:E;
          [destruct l1; discriminate E|]).
    rewrite IH. exists (y ++ sep ++ b), a. now rewrite !append_assoc.
Qed.

Lemma part_trans (s t u : string) :
  (exists before after, s = before ++ t ++ after) ->
  (exists before after, t = before ++ u ++ after) ->
  exists before after, s = before ++ u ++ after.
Proof.
  intros (b & a & ->) (b' & a' & ->). exists (b ++ b'), (a' ++ a).
  now rewrite !append_assoc.
Qed.

Lemma elements_page_reference (params : elements.elementsTemplateParams) :
  exists before after,
    elements.defaultElementsPage params
    = before
      ++ (template.raw "apiDescriptionUrl=`"
          ++ template.escape_url_attr (elements.ApiDescriptionUrl params)
          ++ template.dq)
      ++ after.
Proof.
  unfold elements.defaultElementsPage.
  do 3 apply part_left. apply part_right.
  unfold template.renderAttrs, elements.elementsAttrs.
  cbn [app map].
  match goal with
  | |- context [String.concat "" (?x :: ?l)] =>
      destruct (concat_member "" x [] l) as (b & a & E)
  end.
  cbn [app] in E. rewrite E. clear E.
  exists (b ++ template.newline ++ "    "), a.
  unfold template.renderAttr, elements.attr.
  cbn [template.indent template.name template.value].
  rewrite !append_assoc. reflexivity.
Qed.

Lemma redoc_page_reference (p : redoc.params.redocTemplateParams) :
  exists before after,
    redoc.defaultRedocPage p
    = before
      ++ (template.raw "spec-url=`"
          ++ template.escape_url_attr (redoc.params.SpecUrl p)
          ++ template.dq)
      ++ after.
Proof.
  unfold redoc.defaultRedocPage.
  do 3 apply part_left. apply part_right.
  unfold template.renderAttrs, redoc.redocAttrs.
  cbn [app map].
  match goal with
  | |- context [String.concat "" (?x :: ?l)] =>
      destruct (concat_member "" x [] l) as (b & a & E)
  end.
  cbn [app] in E. rewrite E. clear E.
  exists (b ++ template.newline ++ "    "), a.
  unfold template.renderAttr, redoc.attr.
  cbn [template.indent template.name template.value].
  rewrite !append_assoc. reflexivity.
Qed.

Lemma swaggerui_json_reference (v : swaggerui.conf.swaggerUIConfiguration) :
  exists before after,
    json.Marshal (swaggerui.conf.swaggerUIConfiguration_json v)
    = before
      ++ (template.raw "`url`:"
          ++ template.json_string (swaggerui.conf.Url v))
      ++ after.
Proof.
  unfold swaggerui.conf.swaggerUIConfiguration_json.
  cbn [json.Marshal json.field app map fst snd].
  apply part_left, part_right.
  match goal with
  | |- context [String.concat "," (?x :: ?l)] =>
      destruct (concat_member "," x [] l) as (b & a & E)
  end.
  cbn [app] in E. rewrite E. clear E.
  exists b, a. reflexivity.
Qed.

Lemma swaggerui_page_reference (params : swaggerui.swaggerUITemplateParams)
      (part : string) :
  (exists before after,
      swaggerui.SwaggerUIConfiguration params = before ++ part ++ after) ->
  exists before after,
    swaggerui.defaultSwaggerUIPage params = before ++ part ++ after.
Proof.
  intros Hpart. unfold swaggerui.defaultSwaggerUIPage.
  do 3 apply part_left. now apply part_right.
Qed.

Lemma scalar_json_reference (v : scalar.conf.apiReferenceConfiguration) :
  exists before after,
    json.Marshal (scalar.conf.apiReferenceConfiguration_json v)
    = before
      ++ (template.raw "`spec`:{`url`:"
          ++ template.json_string (scalar.conf.URL (scalar.conf.Spec v))
          ++ "}")
      ++ after.
Proof.
  unfold scalar.conf.apiReferenceConfiguration_json,
    scalar.conf.apiReferenceConfigurationSpec_json.
  cbn [json.Marshal]. apply part_left, part_right.
  rewrite map_app. cbn [json.field app map fst snd json.Marshal].
  match goal with
  | |- context [String.concat "," (?l1 ++ ?x :: ?l2)] =>
      destruct (concat_member "," x l1 l2) as (b & a & E)
  end.
  rewrite E. clear E.
  exists b, a. cbn [String.concat]. rewrite !append_assoc. reflexivity.
Qed.

Lemma scalar_page_reference (params : scalar.scalarTemplateParams)
      (part : string) :
  (exists before after,
      scalar.ApiReferenceConfiguration params = before ++ part ++ after) ->
  exists before after,
    scalar.defaultScalarPage params = before ++ part ++ after.
Proof.
  intros Hpart. unfold scalar.defaultScalarPage.
  do 3 apply part_left. now apply part_right.
Qed.

Lemma elements_builtin cfg t :
  template.ParsePage elements.defaultElementsTemplate
    (elements.Template (elements.normalize cfg)) = inl t ->
  elements.Template cfg = "" \/ elements.Template cfg = elements.defaultElementsTemplate ->
  t = template.Builtin.
Proof.
  intros Hparse Ht.
  assert (elements.Template (elements.normalize cfg) = elements.defaultElementsTemplate) as E
      by (destruct Ht as [E | E]; cbn; now rewrite E).
  rewrite E, ParsePage_builtin in Hparse. congruence.
Qed.

Lemma scalar_builtin cfg t :
  template.ParsePage scalar.defaultScalarTemplate
    (scalar.Template (scalar.normalize cfg)) = inl t ->
  scalar.Template cfg = "" \/ scalar.Template cfg = scalar.defaultScalarTemplate ->
  t = template.Builtin.
Proof.
  intros Hparse Ht.
  assert (scalar.Template (scalar.normalize cfg) = scalar.defaultScalarTemplate) as E
      by (destruct Ht as [E | E]; cbn; now rewrite E).
  rewrite E, ParsePage_builtin in Hparse. congruence.
Qed.

Lemma swaggerui_builtin cfg t :
  template.ParsePage swaggerui.defaultSwaggerUITemplate
    (swaggerui.Template (swaggerui.normalize cfg)) = inl t ->
  swaggerui.Template cfg = "" \/ swaggerui.Template cfg = swaggerui.defaultSwaggerUITemplate ->
  t = template.Builtin.
Proof.
  intros Hparse Ht.
  assert (swaggerui.Template (swaggerui.normalize cfg) = swaggerui.defaultSwaggerUITemplate) as E
      by (destruct Ht as [E | E]; cbn; now rewrite E).
  rewrite E, ParsePage_builtin in Hparse. congruence.
Qed.

Lemma redoc_builtin cfg t :
  template.ParsePage redoc.defaultRedocTemplate
    (redoc.Template (redoc.normalize cfg)) = inl t ->
  redoc.Template cfg = "" \/ redoc.Template cfg = redoc.defaultRedocTemplate ->
  t = template.Builtin.
Proof.
  intros Hparse Ht.
  assert (redoc.Template (redoc.normalize cfg) = redoc.defaultRedocTemplate) as E
      by (destruct Ht as [E | E]; cbn; now rewrite E).
  rewrite E, ParsePage_builtin in Hparse. congruence.
Qed.

(** C6: for every provider, a request for the mount root (for Elements in
    history mode also one for a sub-path that does not end in the
    specification endpoint) gets the page written from parameters whose
    specification reference is the base path joined with [openapi-spec]
    when [Spec] is not empty, whatever [SpecUrl] holds, and the configured
    [SpecUrl], which is then not empty, when [Spec] is empty.  With the
    built-in template the answer is status 200, [text/html], and the body
    holds that reference at its place: as the [apiDescriptionUrl]
    attribute of Elements, the [url] of the [spec] member of Scalar's
    configuration, the [url] member of Swagger UI's, and the [spec-url]
    attribute of Redoc. *)
Theorem spec_reference_source :
  (forall cfg h c,
      elements.ElementsDocumentsHandler cfg = Ready h ->
      elements.Router (elements.normalize cfg) = elements.ElementsRouterHistory
      \/ echo.Param c "*" = "" ->
      exists t,
        template.ParsePage elements.defaultElementsTemplate
          (elements.Template (elements.normalize cfg)) = inl t
        /\ (elements.Spec cfg <> "" ->
            echo.Param c "*" = ""
            \/ strings.HasSuffix (echo.Request_URL_Path c) (specEndpoint c)
               = false ->
            h c = wrote (template.ExecutePage elements.defaultElementsPage
                           elements.elementsTemplateParams_fields t
                           {| elements.Embedded := elements.normalize cfg;
                              elements.BasePath := basePath c;
                              elements.ApiDescriptionUrl :=
                                path.Join [basePath c; "openapi-spec"] |}))
        /\ (elements.Spec cfg = "" ->
            elements.SpecUrl cfg <> ""
            /\ h c = wrote (template.ExecutePage elements.defaultElementsPage
                              elements.elementsTemplateParams_fields t
                              {| elements.Embedded := elements.normalize cfg;
                                 elements.BasePath := basePath c;
                                 elements.ApiDescriptionUrl :=
                                   elements.SpecUrl cfg |}))
        /\ (elements.Template cfg = "" ->
            (elements.Spec cfg <> "" ->
               echo.Param c "*" = ""
               \/ strings.HasSuffix (echo.Request_URL_Path c) (specEndpoint c)
                  = false ->
             exists before after,
                h c = echo.Responded
                        {| echo.Status := 200;
                           echo.Header :=
                             [("Content-Type", "text/html; charset=UTF-8")];
                           echo.Body := before ++ (template.raw "apiDescriptionUrl=`"
                                 ++ template.escape_url_attr
                                      (path.Join [basePath c; "openapi-spec"])
                                 ++ template.dq) ++ after |})
            /\ (elements.Spec cfg = "" ->
             exists before after,
                h c = echo.Responded
                        {| echo.Status := 200;
                           echo.Header :=
                             [("Content-Type", "text/html; charset=UTF-8")];
                           echo.Body := before ++ (template.raw "apiDescriptionUrl=`"
                                 ++ template.escape_url_attr
                                      (elements.SpecUrl cfg)
                                 ++ template.dq) ++ after |})))
  /\ (forall cfg h c,
      scalar.ScalarDocumentsHandler cfg = Ready h ->
      echo.Param c "*" = "" ->
      exists t (params : string -> scalar.scalarTemplateParams),
        template.ParsePage scalar.defaultScalarTemplate
          (scalar.Template (scalar.normalize cfg)) = inl t
        /\ (forall specUrl,
             params specUrl
             = {| scalar.Embedded := scalar.normalize cfg;
                  scalar.BasePath := basePath c;
                  scalar.ApiReferenceConfiguration :=
                    json.Marshal
                      (scalar.conf.apiReferenceConfiguration_json
                         {| scalar.conf.IsEditable := scalar.IsEditable cfg;
                            scalar.conf.Spec :=
                              {| scalar.conf.URL := specUrl |};
                            scalar.conf.ProxyUrl := scalar.ProxyUrl cfg;
                            scalar.conf.DarkMode := scalar.DarkMode cfg;
                            scalar.conf.Layout := scalar.Layout cfg;
                            scalar.conf.Theme := scalar.Theme cfg;
                            scalar.conf.ShowSidebar :=
                              negb (scalar.HideSidebar cfg);
                            scalar.conf.SearchHotKey :=
                              scalar.SearchHotKey cfg |}) |})
        /\ (scalar.Spec cfg <> "" ->
            h c = wrote (template.ExecutePage scalar.defaultScalarPage
                           scalar.scalarTemplateParams_fields t
                           (params (path.Join [basePath c; "openapi-spec"]))))
        /\ (scalar.Spec cfg = "" ->
            scalar.SpecUrl cfg <> ""
            /\ h c = wrote (template.ExecutePage scalar.defaultScalarPage
                              scalar.scalarTemplateParams_fields t
                              (params (scalar.SpecUrl cfg))))
        /\ (scalar.Template cfg = "" ->
            (scalar.Spec cfg <> "" ->
             exists before after,
                h c = echo.Responded
                        {| echo.Status := 200;
                           echo.Header :=
                             [("Content-Type", "text/html; charset=UTF-8")];
                           echo.Body := before ++ (template.raw "`spec`:{`url`:"
                                 ++ template.json_string
                                      (path.Join [basePath c; "openapi-spec"])
                                 ++ "}") ++ after |})
            /\ (scalar.Spec cfg = "" ->
             exists before after,
                h c = echo.Responded
                        {| echo.Status := 200;
                           echo.Header :=
                             [("Content-Type", "text/html; charset=UTF-8")];
                           echo.Body := before ++ (template.raw "`spec`:{`url`:"
                                 ++ template.json_string
                                      (scalar.SpecUrl cfg)
                                 ++ "}") ++ after |})))
  /\ (forall cfg h c,
      swaggerui.SwaggerUIDocumentsHandler cfg = Ready h ->
      echo.Param c "*" = "" ->
      exists t (params : string -> swaggerui.swaggerUITemplateParams),
        template.ParsePage swaggerui.defaultSwaggerUITemplate
          (swaggerui.Template (swaggerui.normalize cfg)) = inl t
        /\ (forall specUrl,
             params specUrl
             = {| swaggerui.Embedded := swaggerui.normalize cfg;
                  swaggerui.BasePath := basePath c;
                  swaggerui.SwaggerUIConfiguration :=
                    json.Marshal
                      (swaggerui.conf.swaggerUIConfiguration_json
                         {| swaggerui.conf.Url := specUrl;
                            swaggerui.conf.DomId := "#swagger-ui";
                            swaggerui.conf.DeepLinking :=
                              swaggerui.DeepLinking cfg;
                            swaggerui.conf.DisplayOperationId :=
                              swaggerui.DisplayOperationId cfg |}) |})
        /\ (swaggerui.Spec cfg <> "" ->
            h c = wrote (template.ExecutePage swaggerui.defaultSwaggerUIPage
                           swaggerui.swaggerUITemplateParams_fields t
                           (params (path.Join [basePath c; "openapi-spec"]))))
        /\ (swaggerui.Spec cfg = "" ->
            swaggerui.SpecUrl cfg <> ""
            /\ h c = wrote (template.ExecutePage
                              swaggerui.defaultSwaggerUIPage
                              swaggerui.swaggerUITemplateParams_fields t
                              (params (swaggerui.SpecUrl cfg))))
        /\ (swaggerui.Template cfg = "" ->
            (swaggerui.Spec cfg <> "" ->
             exists before after,
                h c = echo.Responded
                        {| echo.Status := 200;
                           echo.Header :=
                             [("Content-Type", "text/html; charset=UTF-8")];
                           echo.Body := before ++ (template.raw "`url`:"
                                 ++ template.json_string
                                      (path.Join [basePath c; "openapi-spec"])) ++ after |})
            /\ (swaggerui.Spec cfg = "" ->
             exists before after,
                h c = echo.Responded
                        {| echo.Status := 200;
                           echo.Header :=
                             [("Content-Type", "text/html; charset=UTF-8")];
                           echo.Body := before ++ (template.raw "`url`:"
                                 ++ template.json_string
                                      (swaggerui.SpecUrl cfg)) ++ after |})))
  /\ (forall cfg h c,
      redoc.RedocDocumentsHandler cfg = Ready h ->
      echo.Param c "*" = "" ->
      exists t,
        template.ParsePage redoc.defaultRedocTemplate
          (redoc.Template (redoc.normalize cfg)) = inl t
        /\ (redoc.Spec cfg <> "" ->
            h c = wrote (template.ExecutePage redoc.defaultRedocPage
                           redoc.redocTemplateParams_fields t
                           {| redoc.params.Embedded := redoc.normalize cfg;
                              redoc.params.BasePath := basePath c;
                              redoc.params.SpecUrl :=
                                path.Join [basePath c; "openapi-spec"] |}))
        /\ (redoc.Spec cfg = "" ->
            redoc.SpecUrl cfg <> ""
            /\ h c = wrote (template.ExecutePage redoc.defaultRedocPage
                              redoc.redocTemplateParams_fields t
                              {| redoc.params.Embedded := redoc.normalize cfg;
                                 redoc.params.BasePath := basePath c;
                                 redoc.params.SpecUrl := redoc.SpecUrl cfg |}))
        /\ (redoc.Template cfg = "" ->
            (redoc.Spec cfg <> "" ->
             exists before after,
                h c = echo.Responded
                        {| echo.Status := 200;
                           echo.Header :=
                             [("Content-Type", "text/html; charset=UTF-8")];
                           echo.Body := before ++ (template.raw "spec-url=`"
                                 ++ template.escape_url_attr
                                      (path.Join [basePath c; "openapi-spec"])
                                 ++ template.dq) ++ after |})
            /\ (redoc.Spec cfg = "" ->
             exists before after,
                h c = echo.Responded
                        {| echo.Status := 200;
                           echo.Header :=
                             [("Content-Type", "text/html; charset=UTF-8")];
                           echo.Body := before ++ (template.raw "spec-url=`"
                                 ++ template.escape_url_attr
                                      (redoc.SpecUrl cfg)
                                 ++ template.dq) ++ after |}))).
Proof.
  split; [|split; [|split]]; intros cfg h c Hready Hpage.
  - apply elements_factory_inv in Hready as (t & Hparse & Hurl & ->).
    apply spec_source in Hurl as [Hinline Hbyurl].
    exists t. split; [exact Hparse|]. split; [|split].
    + intros Hspec Hsuffix. rewrite (Hinline Hspec).
      now rewrite elements_writes_page by (destruct Hsuffix; auto).
    + intros Hspec. destruct (Hbyurl Hspec) as [-> Hset].
      split; [exact Hset|]. now rewrite elements_writes_page by auto.
    + intros Htemplate.
      assert (t = template.Builtin) as ->
          by (apply (elements_builtin cfg); [exact Hparse | now left]).
      split.
      * intros Hspec Hsuffix.
        rewrite (Hinline Hspec), elements_writes_page by (destruct Hsuffix; auto).
        unfold wrote, template.ExecutePage.
        match goal with
        | |- context [elements.defaultElementsPage ?params] =>
            destruct (elements_page_reference params) as (b & a & E)
        end.
        exists b, a. now rewrite E.
      * intros Hspec. destruct (Hbyurl Hspec) as [-> _].
        rewrite elements_writes_page by auto.
        unfold wrote, template.ExecutePage.
        match goal with
        | |- context [elements.defaultElementsPage ?params] =>
            destruct (elements_page_reference params) as (b & a & E)
        end.
        exists b, a. now rewrite E.
  - apply scalar_factory_inv in Hready as (t & Hparse & Hurl & ->).
    apply spec_source in Hurl as [Hinline Hbyurl].
    exists t. eexists. split; [exact Hparse|].
    split; [intros specUrl; reflexivity|]. split; [|split].
    + intros Hspec. rewrite (Hinline Hspec).
      now rewrite scalar_writes_page by auto.
    + intros Hspec. destruct (Hbyurl Hspec) as [-> Hset].
      split; [exact Hset|]. now rewrite scalar_writes_page by auto.
    + intros Htemplate.
      assert (t = template.Builtin) as ->
          by (apply (scalar_builtin cfg); [exact Hparse | now left]).
      split.
      * intros Hspec.
        rewrite (Hinline Hspec), scalar_writes_page by auto.
        unfold wrote, template.ExecutePage.
        match goal with
        | |- context [scalar.defaultScalarPage ?params] =>
            match params with
            | context [scalar.conf.apiReferenceConfiguration_json ?v] =>
                destruct (scalar_page_reference params _ (scalar_json_reference v)) as (b & a & E)
            end
        end.
        exists b, a. now rewrite E.
      * intros Hspec. destruct (Hbyurl Hspec) as [-> _].
        rewrite scalar_writes_page by auto.
        unfold wrote, template.ExecutePage.
        match goal with
        | |- context [scalar.defaultScalarPage ?params] =>
            match params with
            | context [scalar.conf.apiReferenceConfiguration_json ?v] =>
                destruct (scalar_page_reference params _ (scalar_json_reference v)) as (b & a & E)
            end
        end.
        exists b, a. now rewrite E.
  - apply swaggerui_factory_inv in Hready as (t & Hparse & Hurl & ->).
    apply spec_source in Hurl as [Hinline Hbyurl].
    exists t. eexists. split; [exact Hparse|].
    split; [intros specUrl; reflexivity|]. split; [|split].
    + intros Hspec. rewrite (Hinline Hspec).
      now rewrite swaggerui_writes_page by auto.
    + intros Hspec. destruct (Hbyurl Hspec) as [-> Hset].
      split; [exact Hset|]. now rewrite swaggerui_writes_page by auto.
    + intros Htemplate.
      assert (t = template.Builtin) as ->
          by (apply (swaggerui_builtin cfg); [exact Hparse | now left]).
      split.
      * intros Hspec.
        rewrite (Hinline Hspec), swaggerui_writes_page by auto.
        unfold wrote, template.ExecutePage.
        match goal with
        | |- context [swaggerui.defaultSwaggerUIPage ?params] =>
            match params with
            | context [swaggerui.conf.swaggerUIConfiguration_json ?v] =>
                destruct (swaggerui_page_reference params _ (swaggerui_json_reference v)) as (b & a & E)
            end
        end.
        exists b, a. now rewrite E.
      * intros Hspec. destruct (Hbyurl Hspec) as [-> _].
        rewrite swaggerui_writes_page by auto.
        unfold wrote, template.ExecutePage.
        match goal with
        | |- context [swaggerui.defaultSwaggerUIPage ?params] =>
            match params with
            | context [swaggerui.conf.swaggerUIConfiguration_json ?v] =>
                destruct (swaggerui_page_reference params _ (swaggerui_json_reference v)) as (b & a & E)
            end
        end.
        exists b, a. now rewrite E.
  - apply redoc_factory_inv in Hready as (t & Hparse & Hurl & ->).
    apply spec_source in Hurl as [Hinline Hbyurl].
    exists t. split; [exact Hparse|]. split; [|split].
    + intros Hspec. rewrite (Hinline Hspec).
      now rewrite redoc_writes_page by auto.
    + intros Hspec. destruct (Hbyurl Hspec) as [-> Hset].
      split; [exact Hset|]. now rewrite redoc_writes_page by auto.
    + intros Htemplate.
      assert (t = template.Builtin) as ->
          by (apply (redoc_builtin cfg); [exact Hparse | now left]).
      split.
      * intros Hspec.
        rewrite (Hinline Hspec), redoc_writes_page by auto.
        unfold wrote, template.ExecutePage.
        match goal with
        | |- context [redoc.defaultRedocPage ?params] =>
            destruct (redoc_page_reference params) as (b & a & E)
        end.
        exists b, a. now rewrite E.
      * intros Hspec. destruct (Hbyurl Hspec) as [-> _].
        rewrite redoc_writes_page by auto.
        unfold wrote, template.ExecutePage.
        match goal with
        | |- context [redoc.defaultRedocPage ?params] =>
            destruct (redoc_page_reference params) as (b & a & E)
        end.
        exists b, a. now rewrite E.
Qed.

(** ** Handlers over their store *)

Lemma Write_new (heap : bytes.Heap) (text : string) :
  bytes.String (List.length heap)
    (bytes.Write (List.length heap) text (heap ++ [""])%list)
  = text.
Proof.
  unfold bytes.String. induction heap as [|s heap IH]; [reflexivity|].
  exact IH.
Qed.

Lemma Execute_new {P : Type} (page : P -> string)
      (fields : P -> template.Data) (t : template.Page) (params : P)
      (heap : bytes.Heap) :
  let (buf, heap') := bytes.new heap in
  match closure.Execute page fields t buf params heap' with
  | (Some err, _) => template.ExecutePage page fields t params = inr err
  | (None, heap'') =>
      template.ExecutePage page fields t params
      = inl (bytes.String buf heap'')
  end.
Proof.
  unfold bytes.new, closure.Execute.
  destruct (template.ExecutePage page fields t params) as [text|err];
    [|reflexivity].
  now rewrite Write_new.
Qed.

Lemma serve_captured {Config : Type}
      (h : echo.Context -> closure.Store Config
           -> echo.Result * closure.Store Config)
      (requests : list echo.Context) (s : closure.Store Config) :
  (forall c s, closure.captured (snd (h c s)) = closure.captured s) ->
  closure.captured (snd (closure.serve h requests s)) = closure.captured s.
Proof.
  intros Hframe. revert s.
  induction requests as [|c requests IH]; intros s; [reflexivity|].
  cbn [closure.serve]. specialize (Hframe c s).
  destruct (h c s) as [r s']. specialize (IH s').
  destruct (closure.serve h requests s') as [rs s''].
  cbn [snd] in *. congruence.
Qed.

Lemma elements_call cfg (c : echo.Context) (s : closure.Store elements.ElementsConfig) :
  closure.captured s = cfg ->
  fst (closure.Elements.call c s)
  = elements.handlerFunc (closure.config cfg) (closure.useSpecUrl cfg)
      (closure.pageTmpl cfg) c
  /\ closure.captured (snd (closure.Elements.call c s)) = cfg.
Proof.
  intros <-. unfold closure.Elements.call, elements.handlerFunc. cbv zeta.
  repeat match goal with
         | |- context [if ?b then _ else _] => destruct b
         end; try (split; reflexivity).
  all: match goal with
       | |- context [closure.Execute ?page ?fields ?t _ ?params _] =>
           pose proof (Execute_new page fields t params (closure.heap s))
             as Hbuf
       end.
  all: cbv beta iota zeta delta [bytes.new] in Hbuf |- *.
  all: match goal with
       | |- context [closure.Execute ?page ?fields ?t ?buf ?params ?heap] =>
           destruct (closure.Execute page fields t buf params heap)
             as [[err|] heap']
       end.
  all: rewrite Hbuf; split; reflexivity.
Qed.

Lemma elements_capture_inv cfg env :
  closure.Elements.capture cfg = Ready env ->
  exists t,
    template.ParsePage elements.defaultElementsTemplate
      (elements.Template (elements.normalize cfg)) = inl t
    /\ env = {| closure.config := elements.normalize cfg;
                closure.useSpecUrl := (elements.Spec cfg =? "");
                closure.pageTmpl := t |}
    /\ elements.ElementsDocumentsHandler cfg
       = Ready (elements.handlerFunc (elements.normalize cfg) (elements.Spec cfg =? "") t).
Proof.
  unfold closure.Elements.capture, elements.ElementsDocumentsHandler. cbv zeta.
  change (elements.Spec (elements.normalize cfg)) with (elements.Spec cfg).
  change (elements.SpecUrl (elements.normalize cfg)) with (elements.SpecUrl cfg).
  destruct (elements.Spec cfg =? ""); [destruct (elements.SpecUrl cfg =? "")|];
    cbn [bind]; try discriminate.
  all: destruct (template.ParsePage _ _) as [t|err]; cbn [template.Must bind];
    [|discriminate].
  all: intros [= <-]; exists t; repeat split.
Qed.

Lemma scalar_call cfg (c : echo.Context) (s : closure.Store scalar.ScalarConfig) :
  closure.captured s = cfg ->
  fst (closure.Scalar.call c s)
  = scalar.handlerFunc (closure.config cfg) (closure.useSpecUrl cfg)
      (closure.pageTmpl cfg) c
  /\ closure.captured (snd (closure.Scalar.call c s)) = cfg.
Proof.
  intros <-. unfold closure.Scalar.call, scalar.handlerFunc. cbv zeta.
  repeat match goal with
         | |- context [if ?b then _ else _] => destruct b
         end; try (split; reflexivity).
  all: match goal with
       | |- context [closure.Execute ?page ?fields ?t _ ?params _] =>
           pose proof (Execute_new page fields t params (closure.heap s))
             as Hbuf
       end.
  all: cbv beta iota zeta delta [bytes.new] in Hbuf |- *.
  all: match goal with
       | |- context [closure.Execute ?page ?fields ?t ?buf ?params ?heap] =>
           destruct (closure.Execute page fields t buf params heap)
             as [[err|] heap']
       end.
  all: rewrite Hbuf; split; reflexivity.
Qed.

Lemma scalar_capture_inv cfg env :
  closure.Scalar.capture cfg = Ready env ->
  exists t,
    template.ParsePage scalar.defaultScalarTemplate
      (scalar.Template (scalar.normalize cfg)) = inl t
    /\ env = {| closure.config := scalar.normalize cfg;
                closure.useSpecUrl := (scalar.Spec cfg =? "");
                closure.pageTmpl := t |}
    /\ scalar.ScalarDocumentsHandler cfg
       = Ready (scalar.handlerFunc (scalar.normalize cfg) (scalar.Spec cfg =? "") t).
Proof.
  unfold closure.Scalar.capture, scalar.ScalarDocumentsHandler. cbv zeta.
  change (scalar.Spec (scalar.normalize cfg)) with (scalar.Spec cfg).
  change (scalar.SpecUrl (scalar.normalize cfg)) with (scalar.SpecUrl cfg).
  destruct (scalar.Spec cfg =? ""); [destruct (scalar.SpecUrl cfg =? "")|];
    cbn [bind]; try discriminate.
  all: destruct (template.ParsePage _ _) as [t|err]; cbn [template.Must bind];
    [|discriminate].
  all: intros [= <-]; exists t; repeat split.
Qed.

Lemma swaggerui_call cfg (c : echo.Context) (s : closure.Store swaggerui.SwaggerUIConfig) :
  closure.captured s = cfg ->
  fst (closure.SwaggerUI.call c s)
  = swaggerui.handlerFunc (closure.config cfg) (closure.useSpecUrl cfg)
      (closure.pageTmpl cfg) c
  /\ closure.captured (snd (closure.SwaggerUI.call c s)) = cfg.
Proof.
  intros <-. unfold closure.SwaggerUI.call, swaggerui.handlerFunc. cbv zeta.
  repeat match goal with
         | |- context [if ?b then _ else _] => destruct b
         end; try (split; reflexivity).
  all: match goal with
       | |- context [closure.Execute ?page ?fields ?t _ ?params _] =>
           pose proof (Execute_new page fields t params (closure.heap s))
             as Hbuf
       end.
  all: cbv beta iota zeta delta [bytes.new] in Hbuf |- *.
  all: match goal with
       | |- context [closure.Execute ?page ?fields ?t ?buf ?params ?heap] =>
           destruct (closure.Execute page fields t buf params heap)
             as [[err|] heap']
       end.
  all: rewrite Hbuf; split; reflexivity.
Qed.

Lemma swaggerui_capture_inv cfg env :
  closure.SwaggerUI.capture cfg = Ready env ->
  exists t,
    template.ParsePage swaggerui.defaultSwaggerUITemplate
      (swaggerui.Template (swaggerui.normalize cfg)) = inl t
    /\ env = {| closure.config := swaggerui.normalize cfg;
                closure.useSpecUrl := (swaggerui.Spec cfg =? "");
                closure.pageTmpl := t |}
    /\ swaggerui.SwaggerUIDocumentsHandler cfg
       = Ready (swaggerui.handlerFunc (swaggerui.normalize cfg) (swaggerui.Spec cfg =? "") t).
Proof.
  unfold closure.SwaggerUI.capture, swaggerui.SwaggerUIDocumentsHandler. cbv zeta.
  change (swaggerui.Spec (swaggerui.normalize cfg)) with (swaggerui.Spec cfg).
  change (swaggerui.SpecUrl (swaggerui.normalize cfg)) with (swaggerui.SpecUrl cfg).
  destruct (swaggerui.Spec cfg =? ""); [destruct (swaggerui.SpecUrl cfg =? "")|];
    cbn [bind]; try discriminate.
  all: destruct (template.ParsePage _ _) as [t|err]; cbn [template.Must bind];
    [|discriminate].
  all: intros [= <-]; exists t; repeat split.
Qed.

Lemma redoc_call cfg (c : echo.Context) (s : closure.Store redoc.RedocConfig) :
  closure.captured s = cfg ->
  fst (closure.Redoc.call c s)
  = redoc.handlerFunc (closure.config cfg) (closure.useSpecUrl cfg)
      (closure.pageTmpl cfg) c
  /\ closure.captured (snd (closure.Redoc.call c s)) = cfg.
Proof.
  intros <-. unfold closure.Redoc.call, redoc.handlerFunc. cbv zeta.
  repeat match goal with
         | |- context [if ?b then _ else _] => destruct b
         end; try (split; reflexivity).
  all: match goal with
       | |- context [closure.Execute ?page ?fields ?t _ ?params _] =>
           pose proof (Execute_new page fields t params (closure.heap s))
             as Hbuf
       end.
  all: cbv beta iota zeta delta [bytes.new] in Hbuf |- *.
  all: match goal with
       | |- context [closure.Execute ?page ?fields ?t ?buf ?params ?heap] =>
           destruct (closure.Execute page fields t buf params heap)
             as [[err|] heap']
       end.
  all: rewrite Hbuf; split; reflexivity.
Qed.

Lemma redoc_capture_inv cfg env :
  closure.Redoc.capture cfg = Ready env ->
  exists t,
    template.ParsePage redoc.defaultRedocTemplate
      (redoc.Template (redoc.normalize cfg)) = inl t
    /\ env = {| closure.config := redoc.normalize cfg;
                closure.useSpecUrl := (redoc.Spec cfg =? "");
                closure.pageTmpl := t |}
    /\ redoc.RedocDocumentsHandler cfg
       = Ready (redoc.handlerFunc (redoc.normalize cfg) (redoc.Spec cfg =? "") t).
Proof.
  unfold closure.Redoc.capture, redoc.RedocDocumentsHandler. cbv zeta.
  change (redoc.Spec (redoc.normalize cfg)) with (redoc.Spec cfg).
  change (redoc.SpecUrl (redoc.normalize cfg)) with (redoc.SpecUrl cfg).
  destruct (redoc.Spec cfg =? ""); [destruct (redoc.SpecUrl cfg =? "")|];
    cbn [bind]; try discriminate.
  all: destruct (template.ParsePage _ _) as [t|err]; cbn [template.Must bind];
    [|discriminate].
  all: intros [= <-]; exists t; repeat split.
Qed.

(** C9: for every provider, a handler gives the same answer to two
    requests with the same path and wildcard remainder, whatever it has
    handled before the first and between the two: the closure never
    assigns to a variable it captures, and every page is written to a
    buffer of its own.  For the mount root the answer is status 200 with
    content type [text/html], identical body included, unless a template of
    the embedding application fails to execute; it is the answer of the
    handler that the factory returns. *)
Theorem handler_deterministic :
  (forall cfg env heap before between c1 c2,
      closure.Elements.capture cfg = Ready env ->
      echo.Request_URL_Path c1 = echo.Request_URL_Path c2 ->
      echo.Param c1 "*" = echo.Param c2 "*" ->
      let s1 :=
        snd (closure.serve closure.Elements.call before
               {| closure.captured := env; closure.heap := heap |}) in
      let s2 := snd (closure.Elements.call c1 s1) in
      let s3 := snd (closure.serve closure.Elements.call between s2) in
      fst (closure.Elements.call c1 s1) = fst (closure.Elements.call c2 s3)
      /\ (echo.Param c1 "*" = "" ->
          match fst (closure.Elements.call c1 s1) with
          | echo.Responded r =>
              echo.Status r = 200%Z
              /\ echo.Header r = [("Content-Type", "text/html; charset=UTF-8")]
          | echo.Failed _ => False
          | echo.Panicked _ =>
              elements.Template cfg <> ""
              /\ elements.Template cfg <> elements.defaultElementsTemplate
          end)
      /\ (forall h,
          elements.ElementsDocumentsHandler cfg = Ready h ->
          fst (closure.Elements.call c1 s1) = h c1))
  /\ (forall cfg env heap before between c1 c2,
      closure.Scalar.capture cfg = Ready env ->
      echo.Request_URL_Path c1 = echo.Request_URL_Path c2 ->
      echo.Param c1 "*" = echo.Param c2 "*" ->
      let s1 :=
        snd (closure.serve closure.Scalar.call before
               {| closure.captured := env; closure.heap := heap |}) in
      let s2 := snd (closure.Scalar.call c1 s1) in
      let s3 := snd (closure.serve closure.Scalar.call between s2) in
      fst (closure.Scalar.call c1 s1) = fst (closure.Scalar.call c2 s3)
      /\ (echo.Param c1 "*" = "" ->
          match fst (closure.Scalar.call c1 s1) with
          | echo.Responded r =>
              echo.Status r = 200%Z
              /\ echo.Header r = [("Content-Type", "text/html; charset=UTF-8")]
          | echo.Failed _ => False
          | echo.Panicked _ =>
              scalar.Template cfg <> ""
              /\ scalar.Template cfg <> scalar.defaultScalarTemplate
          end)
      /\ (forall h,
          scalar.ScalarDocumentsHandler cfg = Ready h ->
          fst (closure.Scalar.call c1 s1) = h c1))
  /\ (forall cfg env heap before between c1 c2,
      closure.SwaggerUI.capture cfg = Ready env ->
      echo.Request_URL_Path c1 = echo.Request_URL_Path c2 ->
      echo.Param c1 "*" = echo.Param c2 "*" ->
      let s1 :=
        snd (closure.serve closure.SwaggerUI.call before
               {| closure.captured := env; closure.heap := heap |}) in
      let s2 := snd (closure.SwaggerUI.call c1 s1) in
      let s3 := snd (closure.serve closure.SwaggerUI.call between s2) in
      fst (closure.SwaggerUI.call c1 s1) = fst (closure.SwaggerUI.call c2 s3)
      /\ (echo.Param c1 "*" = "" ->
          match fst (closure.SwaggerUI.call c1 s1) with
          | echo.Responded r =>
              echo.Status r = 200%Z
              /\ echo.Header r = [("Content-Type", "text/html; charset=UTF-8")]
          | echo.Failed _ => False
          | echo.Panicked _ =>
              swaggerui.Template cfg <> ""
              /\ swaggerui.Template cfg <> swaggerui.defaultSwaggerUITemplate
          end)
      /\ (forall h,
          swaggerui.SwaggerUIDocumentsHandler cfg = Ready h ->
          fst (closure.SwaggerUI.call c1 s1) = h c1))
  /\ (forall cfg env heap before between c1 c2,
      closure.Redoc.capture cfg = Ready env ->
      echo.Request_URL_Path c1 = echo.Request_URL_Path c2 ->
      echo.Param c1 "*" = echo.Param c2 "*" ->
      let s1 :=
        snd (closure.serve closure.Redoc.call before
               {| closure.captured := env; closure.heap := heap |}) in
      let s2 := snd (closure.Redoc.call c1 s1) in
      let s3 := snd (closure.serve closure.Redoc.call between s2) in
      fst (closure.Redoc.call c1 s1) = fst (closure.Redoc.call c2 s3)
      /\ (echo.Param c1 "*" = "" ->
          match fst (closure.Redoc.call c1 s1) with
          | echo.Responded r =>
              echo.Status r = 200%Z
              /\ echo.Header r = [("Content-Type", "text/html; charset=UTF-8")]
          | echo.Failed _ => False
          | echo.Panicked _ =>
              redoc.Template cfg <> ""
              /\ redoc.Template cfg <> redoc.defaultRedocTemplate
          end)
      /\ (forall h,
          redoc.RedocDocumentsHandler cfg = Ready h ->
          fst (closure.Redoc.call c1 s1) = h c1)).
Proof.
  split; [|split; [|split]];
    intros cfg env heap before between c1 c2 Hcapture Hpath Hrel s1 s2 s3.
  - assert (forall c s, closure.captured (snd (closure.Elements.call c s))
                         = closure.captured s) as Hframe
        by (intros c s; now apply elements_call).
    assert (closure.captured s1 = env) as H1
        by (subst s1; now rewrite serve_captured).
    assert (closure.captured s3 = env) as H3
        by (subst s3 s2; rewrite serve_captured, Hframe by exact Hframe;
            exact H1).
    rewrite (proj1 (elements_call env c1 s1 H1)), (proj1 (elements_call env c2 s3 H3)).
    clearbody s1 s2 s3.
    apply elements_capture_inv in Hcapture as (t & Hparse & -> & Hready).
    cbn [closure.config closure.useSpecUrl closure.pageTmpl].
    split; [|split].
    + unfold elements.handlerFunc. now rewrite Hpath, Hrel.
    + intros Hroot. pose proof (elements_builtin cfg t Hparse) as Hbuiltin.
      rewrite elements_writes_page by auto.
      destruct t as [|t]; cbn [template.ExecutePage wrote]; [now split|].
      destruct (template.Execute t _); cbn; [now split|].
      split; intros E; discriminate Hbuiltin; auto.
    + intros h Hh. rewrite Hready in Hh. now injection Hh as <-.
  - assert (forall c s, closure.captured (snd (closure.Scalar.call c s))
                         = closure.captured s) as Hframe
        by (intros c s; now apply scalar_call).
    assert (closure.captured s1 = env) as H1
        by (subst s1; now rewrite serve_captured).
    assert (closure.captured s3 = env) as H3
        by (subst s3 s2; rewrite serve_captured, Hframe by exact Hframe;
            exact H1).
    rewrite (proj1 (scalar_call env c1 s1 H1)), (proj1 (scalar_call env c2 s3 H3)).
    clearbody s1 s2 s3.
    apply scalar_capture_inv in Hcapture as (t & Hparse & -> & Hready).
    cbn [closure.config closure.useSpecUrl closure.pageTmpl].
    split; [|split].
    + unfold scalar.handlerFunc. now rewrite Hpath, Hrel.
    + intros Hroot. pose proof (scalar_builtin cfg t Hparse) as Hbuiltin.
      rewrite scalar_writes_page by auto.
      destruct t as [|t]; cbn [template.ExecutePage wrote]; [now split|].
      destruct (template.Execute t _); cbn; [now split|].
      split; intros E; discriminate Hbuiltin; auto.
    + intros h Hh. rewrite Hready in Hh. now injection Hh as <-.
  - assert (forall c s, closure.captured (snd (closure.SwaggerUI.call c s))
                         = closure.captured s) as Hframe
        by (intros c s; now apply swaggerui_call).
    assert (closure.captured s1 = env) as H1
        by (subst s1; now rewrite serve_captured).
    assert (closure.captured s3 = env) as H3
        by (subst s3 s2; rewrite serve_captured, Hframe by exact Hframe;
            exact H1).
    rewrite (proj1 (swaggerui_call env c1 s1 H1)), (proj1 (swaggerui_call env c2 s3 H3)).
    clearbody s1 s2 s3.
    apply swaggerui_capture_inv in Hcapture as (t & Hparse & -> & Hready).
    cbn [closure.config closure.useSpecUrl closure.pageTmpl].
    split; [|split].
    + unfold swaggerui.handlerFunc. now rewrite Hpath, Hrel.
    + intros Hroot. pose proof (swaggerui_builtin cfg t Hparse) as Hbuiltin.
      rewrite swaggerui_writes_page by auto.
      destruct t as [|t]; cbn [template.ExecutePage wrote]; [now split|].
      destruct (template.Execute t _); cbn; [now split|].
      split; intros E; discriminate Hbuiltin; auto.
    + intros h Hh. rewrite Hready in Hh. now injection Hh as <-.
  - assert (forall c s, closure.captured (snd (closure.Redoc.call c s))
                         = closure.captured s) as Hframe
        by (intros c s; now apply redoc_call).
    assert (closure.captured s1 = env) as H1
        by (subst s1; now rewrite serve_captured).
    assert (closure.captured s3 = env) as H3
        by (subst s3 s2; rewrite serve_captured, Hframe by exact Hframe;
            exact H1).
    rewrite (proj1 (redoc_call env c1 s1 H1)), (proj1 (redoc_call env c2 s3 H3)).
    clearbody s1 s2 s3.
    apply redoc_capture_inv in Hcapture as (t & Hparse & -> & Hready).
    cbn [closure.config closure.useSpecUrl closure.pageTmpl].
    split; [|split].
    + unfold redoc.handlerFunc. now rewrite Hpath, Hrel.
    + intros Hroot. pose proof (redoc_builtin cfg t Hparse) as Hbuiltin.
      rewrite redoc_writes_page by auto.
      destruct t as [|t]; cbn [template.ExecutePage wrote]; [now split|].
      destruct (template.Execute t _); cbn; [now split|].
      split; intros E; discriminate Hbuiltin; auto.
    + intros h Hh. rewrite Hready in Hh. now injection Hh as <-.
Qed.

(** C7, as the code has it: the defaulting of every provider fills an empty
    [Title] and an empty [Template] from the provider's default
    configuration; that of Elements also fills [Router], [Layout] and
    [TryItCredentialsPolicy]; every other field, the [Layout] and [Theme]
    of Scalar among them, is left as configured; the handler is the
    closure over the configuration so defaulted. *)
Theorem normalize_fills_defaults :
  (forall cfg,
      let n := elements.normalize cfg in
      let d := elements.DefaultElementsConfig in
      elements.Title n
      = (if elements.Title cfg =? "" then elements.Title d
         else elements.Title cfg)
      /\ elements.Template n
         = (if elements.Template cfg =? "" then elements.Template d
            else elements.Template cfg)
      /\ elements.Router n
         = (if elements.Router cfg =? "" then elements.Router d
            else elements.Router cfg)
      /\ elements.Layout n
         = (if elements.Layout cfg =? "" then elements.Layout d
            else elements.Layout cfg)
      /\ elements.TryItCredentialsPolicy n
         = (if elements.TryItCredentialsPolicy cfg =? ""
            then elements.TryItCredentialsPolicy d
            else elements.TryItCredentialsPolicy cfg)
      /\ elements.Spec n = elements.Spec cfg
      /\ elements.SpecUrl n = elements.SpecUrl cfg
      /\ elements.HideInternal n = elements.HideInternal cfg
      /\ elements.HideTryIt n = elements.HideTryIt cfg
      /\ elements.HideSchemas n = elements.HideSchemas cfg
      /\ elements.HideExport n = elements.HideExport cfg
      /\ elements.TryItCorsProxy n = elements.TryItCorsProxy cfg
      /\ elements.Logo n = elements.Logo cfg)
  /\ (forall cfg,
      let n := scalar.normalize cfg in
      let d := scalar.DefaultScalarConfig in
      scalar.Title n
      = (if scalar.Title cfg =? "" then scalar.Title d else scalar.Title cfg)
      /\ scalar.Template n
         = (if scalar.Template cfg =? "" then scalar.Template d
            else scalar.Template cfg)
      /\ scalar.Layout n = scalar.Layout cfg
      /\ scalar.Theme n = scalar.Theme cfg
      /\ scalar.Spec n = scalar.Spec cfg
      /\ scalar.SpecUrl n = scalar.SpecUrl cfg
      /\ scalar.IsEditable n = scalar.IsEditable cfg
      /\ scalar.ProxyUrl n = scalar.ProxyUrl cfg
      /\ scalar.DarkMode n = scalar.DarkMode cfg
      /\ scalar.HideSidebar n = scalar.HideSidebar cfg
      /\ scalar.SearchHotKey n = scalar.SearchHotKey cfg)
  /\ (forall cfg,
      let n := swaggerui.normalize cfg in
      let d := swaggerui.DefaultSwaggerUIConfig in
      swaggerui.Title n
      = (if swaggerui.Title cfg =? "" then swaggerui.Title d
         else swaggerui.Title cfg)
      /\ swaggerui.Template n
         = (if swaggerui.Template cfg =? "" then swaggerui.Template d
            else swaggerui.Template cfg)
      /\ swaggerui.Spec n = swaggerui.Spec cfg
      /\ swaggerui.SpecUrl n = swaggerui.SpecUrl cfg
      /\ swaggerui.DeepLinking n = swaggerui.DeepLinking cfg
      /\ swaggerui.DisplayOperationId n = swaggerui.DisplayOperationId cfg)
  /\ (forall cfg,
      let n := redoc.normalize cfg in
      let d := redoc.DefaultRedocConfig in
      redoc.Title n
      = (if redoc.Title cfg =? "" then redoc.Title d else redoc.Title cfg)
      /\ redoc.Template n
         = (if redoc.Template cfg =? "" then redoc.Template d
            else redoc.Template cfg)
      /\ redoc.Spec n = redoc.Spec cfg
      /\ redoc.SpecUrl n = redoc.SpecUrl cfg
      /\ redoc.DisableSearch n = redoc.DisableSearch cfg
      /\ redoc.MinCharacterLengthToInitSearch n
         = redoc.MinCharacterLengthToInitSearch cfg)
  /\ (forall cfg h,
      elements.ElementsDocumentsHandler cfg = Ready h ->
      exists useSpecUrl pageTmpl,
        h = elements.handlerFunc (elements.normalize cfg) useSpecUrl pageTmpl)
  /\ (forall cfg h,
      scalar.ScalarDocumentsHandler cfg = Ready h ->
      exists useSpecUrl pageTmpl,
        h = scalar.handlerFunc (scalar.normalize cfg) useSpecUrl pageTmpl)
  /\ (forall cfg h,
      swaggerui.SwaggerUIDocumentsHandler cfg = Ready h ->
      exists useSpecUrl pageTmpl,
        h = swaggerui.handlerFunc (swaggerui.normalize cfg) useSpecUrl
              pageTmpl)
  /\ (forall cfg h,
      redoc.RedocDocumentsHandler cfg = Ready h ->
      exists useSpecUrl pageTmpl,
        h = redoc.handlerFunc (redoc.normalize cfg) useSpecUrl pageTmpl).
Proof.
  do 4 (split; [intros cfg n d; subst n d; repeat split; reflexivity|]).
  split; [|split; [|split]]; intros cfg h Hready.
  - apply elements_factory_inv in Hready as (t & _ & _ & ->). eauto.
  - apply scalar_factory_inv in Hready as (t & _ & _ & ->). eauto.
  - apply swaggerui_factory_inv in Hready as (t & _ & _ & ->). eauto.
  - apply redoc_factory_inv in Hready as (t & _ & _ & ->). eauto.
Qed.

(** ** Which attributes and keys the built-in templates write *)

Lemma in_names_if (b : bool) (a : template.Attr) (x : string) :
  In x (map template.name (if b then [a] else []))
  <-> b = true /\ template.name a = x.
Proof. destruct b; cbn; intuition discriminate. Qed.

Lemma in_keys_omitempty_bool (k : string) (b : bool) (x : string) :
  In x (map fst (json.omitempty_bool k b)) <-> b = true /\ k = x.
Proof. destruct b; cbn; intuition discriminate. Qed.

Lemma in_keys_omitempty_string (k s x : string) :
  In x (map fst (json.omitempty_string k s)) <-> s <> "" /\ k = x.
Proof.
  unfold json.omitempty_string.
  destruct (String.eqb_spec s ""); cbn; intuition congruence.
Qed.

Lemma in_names_singleton (a : template.Attr) (x : string) :
  In x (map template.name [a]) <-> True /\ template.name a = x.
Proof. cbn. intuition. Qed.

Lemma in_keys_field' (k : string) (v : json.JSON) (x : string) :
  In x (map fst (json.field k v)) <-> True /\ k = x.
Proof. cbn. intuition. Qed.

Lemma not_empty_iff (s : string) : negb (s =? "") = true <-> s <> "".
Proof. now rewrite negb_true_iff, String.eqb_neq. Qed.

Lemma omitempty_string_set (k s : string) :
  s <> "" -> json.omitempty_string k s = [(k, json.JString s)].
Proof.
  intros Hs. unfold json.omitempty_string. now rewrite eqb_empty_false.
Qed.

(** C8, as the code has it: in the built-in templates an option that sits
    under an [if] action, or carries [omitempty], is written exactly when
    it is set (a true flag, a non-empty string, a non-zero number, a
    credentials policy other than [omit]); the specification reference,
    the [layout] and [router] of Elements, the [showSidebar] of Scalar and
    the [dom_id] of Swagger UI are written whatever their value. *)
Theorem optional_fields_guarded :
  (forall params,
      let written := map template.name (elements.elementsAttrs params) in
      let config := elements.Embedded params in
      In "apiDescriptionUrl" written
      /\ In "layout" written
      /\ In "router" written
      /\ (In "basePath" written <-> elements.BasePath params <> "")
      /\ (In "hideInternal" written <-> elements.HideInternal config = true)
      /\ (In "hideTryIt" written <-> elements.HideTryIt config = true)
      /\ (In "hideSchemas" written <-> elements.HideSchemas config = true)
      /\ (In "hideExport" written <-> elements.HideExport config = true)
      /\ (In "tryItCorsProxy" written
          <-> elements.TryItCorsProxy config <> "")
      /\ (In "tryItCredentialsPolicy" written
          <-> elements.TryItCredentialsPolicy config <> ""
              /\ elements.TryItCredentialsPolicy config <> "omit")
      /\ (In "logo" written <-> elements.Logo config <> ""))
  /\ (forall v,
      let written := json.keys (scalar.conf.apiReferenceConfiguration_json v) in
      In "spec" written
      /\ In "showSidebar" written
      /\ (In "isEditable" written <-> scalar.conf.IsEditable v = true)
      /\ (In "proxyUrl" written <-> scalar.conf.ProxyUrl v <> "")
      /\ (In "darkMode" written <-> scalar.conf.DarkMode v = true)
      /\ (In "layout" written <-> scalar.conf.Layout v <> "")
      /\ (In "theme" written <-> scalar.conf.Theme v <> "")
      /\ (In "searchHotKey" written <-> scalar.conf.SearchHotKey v <> ""))
  /\ (forall v,
      let written := json.keys (swaggerui.conf.swaggerUIConfiguration_json v) in
      In "url" written
      /\ In "dom_id" written
      /\ (In "deepLinking" written <-> swaggerui.conf.DeepLinking v = true)
      /\ (In "displayOperationId" written
          <-> swaggerui.conf.DisplayOperationId v = true))
  /\ (forall p,
      let written := map template.name (redoc.redocAttrs p) in
      let config := redoc.params.Embedded p in
      In "spec-url" written
      /\ (In "disable-search" written <-> redoc.DisableSearch config = true)
      /\ (In "min-character-length-to-init-search" written
          <-> redoc.MinCharacterLengthToInitSearch config <> 0%Z)).
Proof.
  split; [|split; [|split]]; intros x; cbv zeta; repeat apply conj;
    unfold elements.elementsAttrs, redoc.redocAttrs,
      scalar.conf.apiReferenceConfiguration_json,
      swaggerui.conf.swaggerUIConfiguration_json;
    cbv zeta; cbn [json.keys]; rewrite !map_app.
  (* an attribute or key that is written is one of the entries, and its
     guard holds *)
  all: try (intros Hin;
            repeat (apply in_app_or in Hin; destruct Hin as [Hin | Hin]);
            first [ apply in_names_if in Hin
                  | apply in_names_singleton in Hin
                  | apply in_keys_omitempty_bool in Hin
                  | apply in_keys_omitempty_string in Hin
                  | apply in_keys_field' in Hin ];
            destruct Hin as [Hguard Hname]; cbn in Hname;
            try discriminate Hname;
            rewrite ?andb_true_iff, ?not_empty_iff, ?negb_true_iff,
              ?Z.eqb_neq, ?String.eqb_neq in Hguard;
            exact Hguard).
  (* an entry whose guard holds is written *)
  all: try (intros Hguard;
            lazymatch type of Hguard with
            | _ /\ _ =>
                let H1 := fresh in
                let H2 := fresh in
                destruct Hguard as [H1 H2];
                apply String.eqb_neq in H1, H2; rewrite H1, H2
            | _ <> 0%Z => apply Z.eqb_neq in Hguard; rewrite Hguard
            | _ <> _ =>
                first [ rewrite (omitempty_string_set _ _ Hguard)
                      | apply String.eqb_neq in Hguard; rewrite Hguard ]
            | _ = true => rewrite Hguard
            end).
  all: cbn [negb andb];
    repeat (apply in_or_app; first [left; cbn; left; reflexivity | right]);
    cbn; left; reflexivity.
Qed.

End Properties.

(** ** The claims on concrete requests

    Each theorem above that has premises is applied here to the handlers of
    [reference], mounted at [/docs]. *)

Lemma basePath_trims_suffix_witness :
  basePath (reference.get "/docs/a/b" "/a/b") = "/docs"
  /\ basePath (reference.get "/docs/a%20b" "/a b") = "/docs/a%20b".
Proof.
  split.
  - apply (proj1 (proj2 (proj2
             (basePath_trims_suffix (reference.get "/docs/a/b" "/a/b"))))).
    reflexivity.
  - apply (proj1 (basePath_trims_suffix (reference.get "/docs/a%20b" "/a b"))).
    reflexivity.
Defined.

Lemma inline_spec_served_at_endpoint_witness :
  (reference.serve
     (elements.ElementsDocumentsHandler (H := reference.lib)
        (reference.elementsWith reference.inlineSpec ""))
     (reference.get "/docs/openapi-spec" "/openapi-spec")
   = Some (echo.Responded
              {| echo.Status := 200;
                 echo.Header :=
                   [("Content-Type", "text/plain; charset=utf-8")];
                 echo.Body := "openapi: 3.0.0" |}))
  /\ (reference.serve
     (scalar.ScalarDocumentsHandler (H := reference.lib)
        (reference.scalarWith reference.inlineSpec ""))
     (reference.get "/docs/openapi-spec" "/openapi-spec")
   = Some (echo.Responded
              {| echo.Status := 200;
                 echo.Header :=
                   [("Content-Type", "text/plain; charset=utf-8")];
                 echo.Body := "openapi: 3.0.0" |}))
  /\ (reference.serve
     (swaggerui.SwaggerUIDocumentsHandler (H := reference.lib)
        (reference.swaggeruiWith reference.inlineSpec ""))
     (reference.get "/docs/openapi-spec" "/openapi-spec")
   = Some (echo.Responded
              {| echo.Status := 200;
                 echo.Header :=
                   [("Content-Type", "text/plain; charset=utf-8")];
                 echo.Body := "openapi: 3.0.0" |}))
  /\ (reference.serve
     (redoc.RedocDocumentsHandler (H := reference.lib)
        (reference.redocWith reference.inlineSpec ""))
     (reference.get "/docs/openapi-spec" "/openapi-spec")
   = Some (echo.Responded
              {| echo.Status := 200;
                 echo.Header :=
                   [("Content-Type", "text/plain; charset=utf-8")];
                 echo.Body := "openapi: 3.0.0" |})).
Proof.
  pose proof (inline_spec_served_at_endpoint (L := reference.lib))
    as (He & Hs & Hw & Hr).
  split; [|split; [|split]].
  - destruct (elements.ElementsDocumentsHandler _) as [h|v] eqn:Hready;
      [|discriminate Hready].
    cbn [reference.serve]. f_equal.
    apply (He _ h _ Hready); [discriminate | reflexivity].
  - destruct (scalar.ScalarDocumentsHandler _) as [h|v] eqn:Hready;
      [|discriminate Hready].
    cbn [reference.serve]. f_equal.
    apply (Hs _ h _ Hready); [discriminate | reflexivity].
  - destruct (swaggerui.SwaggerUIDocumentsHandler _) as [h|v] eqn:Hready;
      [|discriminate Hready].
    cbn [reference.serve]. f_equal.
    apply (Hw _ h _ Hready); [discriminate | reflexivity].
  - destruct (redoc.RedocDocumentsHandler _) as [h|v] eqn:Hready;
      [|discriminate Hready].
    cbn [reference.serve]. f_equal.
    apply (Hr _ h _ Hready); [discriminate | reflexivity].
Defined.

Lemma spec_served_iff_endpoint_suffix_witness :
  (reference.serve
     (elements.ElementsDocumentsHandler (H := reference.lib)
        (reference.elementsWith reference.inlineSpec ""))
     (reference.get "/docs/docs/openapi-spec" "/docs/openapi-spec")
   = Some (echo.Responded
              {| echo.Status := 200;
                 echo.Header :=
                   [("Content-Type", "text/plain; charset=utf-8")];
                 echo.Body := "openapi: 3.0.0" |}))
  /\ (reference.serve
     (scalar.ScalarDocumentsHandler (H := reference.lib)
        (reference.scalarWith reference.inlineSpec ""))
     (reference.get "/docs/docs/openapi-spec" "/docs/openapi-spec")
   = Some (echo.Responded
              {| echo.Status := 200;
                 echo.Header :=
                   [("Content-Type", "text/plain; charset=utf-8")];
                 echo.Body := "openapi: 3.0.0" |}))
  /\ (reference.serve
     (swaggerui.SwaggerUIDocumentsHandler (H := reference.lib)
        (reference.swaggeruiWith reference.inlineSpec ""))
     (reference.get "/docs/docs/openapi-spec" "/docs/openapi-spec")
   = Some (echo.Responded
              {| echo.Status := 200;
                 echo.Header :=
                   [("Content-Type", "text/plain; charset=utf-8")];
                 echo.Body := "openapi: 3.0.0" |}))
  /\ (reference.serve
     (redoc.RedocDocumentsHandler (H := reference.lib)
        (reference.redocWith reference.inlineSpec ""))
     (reference.get "/docs/docs/openapi-spec" "/docs/openapi-spec")
   = Some (echo.Responded
              {| echo.Status := 200;
                 echo.Header :=
                   [("Content-Type", "text/plain; charset=utf-8")];
                 echo.Body := "openapi: 3.0.0" |})).
Proof.
  pose proof (spec_served_iff_endpoint_suffix (L := reference.lib))
    as (He & Hs & Hw & Hr).
  split; [|split; [|split]].
  - destruct (elements.ElementsDocumentsHandler _) as [h|v] eqn:Hready;
      [|discriminate Hready].
    cbn [reference.serve]. f_equal.
    apply (He _ h _ Hready); [discriminate | reflexivity].
  - destruct (scalar.ScalarDocumentsHandler _) as [h|v] eqn:Hready;
      [|discriminate Hready].
    cbn [reference.serve]. f_equal.
    apply (Hs _ h _ Hready); [discriminate | reflexivity].
  - destruct (swaggerui.SwaggerUIDocumentsHandler _) as [h|v] eqn:Hready;
      [|discriminate Hready].
    cbn [reference.serve]. f_equal.
    apply (Hw _ h _ Hready); [discriminate | reflexivity].
  - destruct (redoc.RedocDocumentsHandler _) as [h|v] eqn:Hready;
      [|discriminate Hready].
    cbn [reference.serve]. f_equal.
    apply (Hr _ h _ Hready); [discriminate | reflexivity].
Defined.

(** C2 fails as stated: mounted at [/docs], Elements and Scalar answer
    [/docs/docs/openapi-spec] with the specification, though the base path
    joined with [openapi-spec] is [/docs/openapi-spec], a proper suffix of
    the request path. *)
Lemma spec_served_off_endpoint :
  basePath (reference.get "/docs/docs/openapi-spec" "/docs/openapi-spec")
  = "/docs"
  /\ path.Join ["/docs"; "openapi-spec"] = "/docs/openapi-spec"
  /\ echo.Request_URL_Path
       (reference.get "/docs/docs/openapi-spec" "/docs/openapi-spec")
     <> path.Join ["/docs"; "openapi-spec"]
  /\ reference.serve
       (elements.ElementsDocumentsHandler (H := reference.lib)
          (reference.elementsWith reference.inlineSpec ""))
       (reference.get "/docs/docs/openapi-spec" "/docs/openapi-spec")
     = Some (echo.Responded
              {| echo.Status := 200;
                 echo.Header :=
                   [("Content-Type", "text/plain; charset=utf-8")];
                 echo.Body := "openapi: 3.0.0" |})
  /\ reference.serve
       (scalar.ScalarDocumentsHandler (H := reference.lib)
          (reference.scalarWith reference.inlineSpec ""))
       (reference.get "/docs/docs/openapi-spec" "/docs/openapi-spec")
     = Some (echo.Responded
              {| echo.Status := 200;
                 echo.Header :=
                   [("Content-Type", "text/plain; charset=utf-8")];
                 echo.Body := "openapi: 3.0.0" |}).
Proof.
  split; [reflexivity|]. split; [reflexivity|].
  split; [intros E; vm_compute in E; discriminate E|].
  split; vm_compute; reflexivity.
Qed.

Lemma missing_spec_source_panics_witness :
  (elements.ElementsDocumentsHandler (H := reference.lib) (reference.elementsWith "" "")
   = Panic "either Spec or SpecUrl must be set"
   /\ elements.ElementsDocuments (H := reference.lib) [] "/docs" (reference.elementsWith "" "")
      = Panic "either Spec or SpecUrl must be set")
  /\ (scalar.ScalarDocumentsHandler (H := reference.lib) (reference.scalarWith "" "")
   = Panic "either Spec or SpecUrl must be set"
   /\ scalar.ScalarDocuments (H := reference.lib) [] "/docs" (reference.scalarWith "" "")
      = Panic "either Spec or SpecUrl must be set")
  /\ (swaggerui.SwaggerUIDocumentsHandler (H := reference.lib) (reference.swaggeruiWith "" "")
   = Panic "either Spec or SpecUrl must be set"
   /\ swaggerui.SwaggerUIDocuments (H := reference.lib) [] "/docs" (reference.swaggeruiWith "" "")
      = Panic "either Spec or SpecUrl must be set")
  /\ (redoc.RedocDocumentsHandler (H := reference.lib) (reference.redocWith "" "")
   = Panic "either Spec or SpecUrl must be set"
   /\ redoc.RedocDocuments (H := reference.lib) [] "/docs" (reference.redocWith "" "")
      = Panic "either Spec or SpecUrl must be set").
Proof.
  pose proof (missing_spec_source_panics (L := reference.lib))
    as (He & Hs & Hw & Hr).
  split; [|split; [|split]].
  - destruct (He (reference.elementsWith "" "") eq_refl eq_refl) as [Hhandler Hroute].
    split; [exact Hhandler | apply Hroute].
  - destruct (Hs (reference.scalarWith "" "") eq_refl eq_refl) as [Hhandler Hroute].
    split; [exact Hhandler | apply Hroute].
  - destruct (Hw (reference.swaggeruiWith "" "") eq_refl eq_refl) as [Hhandler Hroute].
    split; [exact Hhandler | apply Hroute].
  - destruct (Hr (reference.redocWith "" "") eq_refl eq_refl) as [Hhandler Hroute].
    split; [exact Hhandler | apply Hroute].
Defined.

Lemma subpath_redirects_to_base_path_witness :
  (reference.serve
     (scalar.ScalarDocumentsHandler (H := reference.lib)
        (reference.scalarWith "" reference.specUrl))
     (reference.get "/docs/anything" "/anything")
   = Some (echo.Responded
              {| echo.Status := 302;
                 echo.Header := [("Location", "/docs")];
                 echo.Body := "" |}))
  /\ (reference.serve
     (scalar.ScalarDocumentsHandler (H := reference.lib)
        (reference.scalarWith reference.inlineSpec ""))
     (reference.get "/docs/anything" "/anything")
   = Some (echo.Responded
              {| echo.Status := 302;
                 echo.Header := [("Location", "/docs")];
                 echo.Body := "" |}))
  /\ (reference.serve
     (swaggerui.SwaggerUIDocumentsHandler (H := reference.lib)
        (reference.swaggeruiWith "" reference.specUrl))
     (reference.get "/docs/anything" "/anything")
   = Some (echo.Responded
              {| echo.Status := 302;
                 echo.Header := [("Location", "/docs")];
                 echo.Body := "" |}))
  /\ (reference.serve
     (swaggerui.SwaggerUIDocumentsHandler (H := reference.lib)
        (reference.swaggeruiWith reference.inlineSpec ""))
     (reference.get "/docs/anything" "/anything")
   = Some (echo.Responded
              {| echo.Status := 302;
                 echo.Header := [("Location", "/docs")];
                 echo.Body := "" |}))
  /\ (reference.serve
     (redoc.RedocDocumentsHandler (H := reference.lib)
        (reference.redocWith "" reference.specUrl))
     (reference.get "/docs/anything" "/anything")
   = Some (echo.Responded
              {| echo.Status := 302;
                 echo.Header := [("Location", "/docs")];
                 echo.Body := "" |}))
  /\ (reference.serve
     (redoc.RedocDocumentsHandler (H := reference.lib)
        (reference.redocWith reference.inlineSpec ""))
     (reference.get "/docs/anything" "/anything")
   = Some (echo.Responded
              {| echo.Status := 302;
                 echo.Header := [("Location", "/docs")];
                 echo.Body := "" |})).
Proof.
  pose proof (subpath_redirects_to_base_path (L := reference.lib))
    as (Hs & Hw & Hr).
  repeat apply conj.
  - destruct (scalar.ScalarDocumentsHandler _) as [h|v] eqn:Hready;
      [|discriminate Hready].
    cbn [reference.serve]. f_equal.
    apply (Hs _ h (reference.get "/docs/anything" "/anything") Hready);
      [discriminate | left; reflexivity].
  - destruct (scalar.ScalarDocumentsHandler _) as [h|v] eqn:Hready;
      [|discriminate Hready].
    cbn [reference.serve]. f_equal.
    apply (Hs _ h (reference.get "/docs/anything" "/anything") Hready);
      [discriminate | right; reflexivity].
  - destruct (swaggerui.SwaggerUIDocumentsHandler _) as [h|v] eqn:Hready;
      [|discriminate Hready].
    cbn [reference.serve]. f_equal.
    apply (Hw _ h (reference.get "/docs/anything" "/anything") Hready);
      [discriminate | left; reflexivity].
  - destruct (swaggerui.SwaggerUIDocumentsHandler _) as [h|v] eqn:Hready;
      [|discriminate Hready].
    cbn [reference.serve]. f_equal.
    apply (Hw _ h (reference.get "/docs/anything" "/anything") Hready);
      [discriminate | right; reflexivity].
  - destruct (redoc.RedocDocumentsHandler _) as [h|v] eqn:Hready;
      [|discriminate Hready].
    cbn [reference.serve]. f_equal.
    apply (Hr _ h (reference.get "/docs/anything" "/anything") Hready);
      [discriminate | left; reflexivity].
  - destruct (redoc.RedocDocumentsHandler _) as [h|v] eqn:Hready;
      [|discriminate Hready].
    cbn [reference.serve]. f_equal.
    apply (Hr _ h (reference.get "/docs/anything" "/anything") Hready);
      [discriminate | right; reflexivity].
Defined.

Lemma elements_history_never_redirects_witness :
  exists h r,
    elements.ElementsDocumentsHandler (H := reference.lib)
      (reference.elementsWith "" reference.specUrl) = Ready h
    /\ h (reference.get "/docs/anything" "/anything") = echo.Responded r
    /\ echo.Status r = 200%Z.
Proof.
  destruct (elements.ElementsDocumentsHandler (H := reference.lib)
              (reference.elementsWith "" reference.specUrl))
    as [h|v] eqn:Hready; [|discriminate Hready].
  destruct (elements_history_never_redirects
              (reference.elementsWith "" reference.specUrl) h
              (reference.get "/docs/anything" "/anything") Hready
              (or_intror eq_refl)) as [_ Hbuiltin]; [discriminate|].
  destruct (Hbuiltin (or_introl eq_refl)) as (r & Hr & Hstatus).
  exists h, r. repeat split; assumption.
Defined.

Lemma spec_reference_source_witness :
  (reference.serve
     (elements.ElementsDocumentsHandler (H := reference.lib)
        (reference.elementsWith reference.inlineSpec reference.specUrl))
     (reference.get "/docs" "")
   = Some (echo.Responded
             {| echo.Status := 200;
                echo.Header :=
                  [("Content-Type", "text/html; charset=UTF-8")];
                echo.Body := template.raw
"<html lang=`en`>
<head>
  <meta charset=`utf-8`>
  <meta name=`viewport` content=`width=device-width, initial-scale=1`>
  <title>API documentation with Stoplight Elements</title>
  <script src=`https://unpkg.com/@stoplight/elements/web-components.min.js`></script>
  <link rel=`stylesheet` href=`https://unpkg.com/@stoplight/elements/styles.min.css`>
</head>
<body>
  <elements-api
    apiDescriptionUrl=`/docs/openapi-spec`
    basePath=`/docs`
    layout=`sidebar`
    router=`history`
  />
</body>
</html>
" |}))
  /\ (exists before after,
        reference.serve
          (elements.ElementsDocumentsHandler (H := reference.lib)
             (reference.elementsWith reference.inlineSpec reference.specUrl))
          (reference.get "/docs" "")
        = Some (echo.Responded
                  {| echo.Status := 200;
                     echo.Header :=
                       [("Content-Type", "text/html; charset=UTF-8")];
                     echo.Body :=
                       before
                       ++ template.raw "apiDescriptionUrl=`/docs/openapi-spec`"
                       ++ after |}))
  /\ (reference.serve
       (swaggerui.SwaggerUIDocumentsHandler (H := reference.lib)
          (reference.swaggeruiWith "" reference.specUrl))
       (reference.get "/docs" "")
     = Some (echo.Responded
             {| echo.Status := 200;
                echo.Header :=
                  [("Content-Type", "text/html; charset=UTF-8")];
                echo.Body := template.raw
"<html lang=`en`>
<head>
  <meta charset=`utf-8`>
  <meta name=`viewport` content=`width=device-width, initial-scale=1`>
  <title>API documentation with Swagger UI</title>
  <link rel=`stylesheet` href=`https://unpkg.com/swagger-ui-dist/swagger-ui.css` />
</head>
<body>
  <div id=`swagger-ui`></div>
  <script src=`https://unpkg.com/swagger-ui-dist/swagger-ui-bundle.js` crossorigin></script>
  <script>
	var configuration = {`url`:`https://example.com/openapi.yaml`,`dom_id`:`#swagger-ui`};
    window.onload = () => {
	  window.ui = SwaggerUIBundle(configuration);
    };
  </script>
</body>
</html>
" |})).
Proof.
  split; [|split].
  - destruct (elements.ElementsDocumentsHandler (H := reference.lib)
                (reference.elementsWith reference.inlineSpec
                   reference.specUrl))
      as [h|v] eqn:Hready; [|discriminate Hready].
    destruct (proj1 (spec_reference_source (L := reference.lib))
                (reference.elementsWith reference.inlineSpec
                   reference.specUrl)
                h (reference.get "/docs" "") Hready (or_intror eq_refl))
      as (t & Hparse & Hinline & _).
    cbn [reference.serve]. rewrite Hinline; [|discriminate|left; reflexivity].
    injection Hparse as <-. reflexivity.
  - destruct (elements.ElementsDocumentsHandler (H := reference.lib)
                (reference.elementsWith reference.inlineSpec
                   reference.specUrl))
      as [h|v] eqn:Hready; [|discriminate Hready].
    destruct (proj1 (spec_reference_source (L := reference.lib))
                (reference.elementsWith reference.inlineSpec
                   reference.specUrl)
                h (reference.get "/docs" "") Hready (or_intror eq_refl))
      as (t & _ & _ & _ & Hbuiltin).
    destruct (proj1 (Hbuiltin eq_refl)) as (before & after & Hbody);
      [discriminate | left; reflexivity |].
    exists before, after. cbn [reference.serve]. rewrite Hbody. reflexivity.
  - destruct (swaggerui.SwaggerUIDocumentsHandler (H := reference.lib)
                (reference.swaggeruiWith "" reference.specUrl))
      as [h|v] eqn:Hready; [|discriminate Hready].
    destruct (proj1 (proj2 (proj2 (spec_reference_source
                                     (L := reference.lib))))
                (reference.swaggeruiWith "" reference.specUrl)
                h (reference.get "/docs" "") Hready eq_refl)
      as (t & params & Hparse & Hparams & _ & Hbyurl & _).
    destruct (Hbyurl eq_refl) as [_ Hpage].
    cbn [reference.serve]. rewrite Hpage, Hparams.
    injection Hparse as <-. reflexivity.
Defined.

Lemma handler_deterministic_witness :
  exists env,
    closure.Scalar.capture (H := reference.lib)
      (reference.scalarWith "" reference.specUrl) = Ready env
    /\ let s1 :=
         snd (closure.serve closure.Scalar.call
                [reference.get "/docs/guide" "/guide"]
                {| closure.captured := env;
                   closure.heap := ["<html>"] |}) in
       let s2 := snd (closure.Scalar.call (reference.get "/docs" "") s1) in
       let s3 :=
         snd (closure.serve closure.Scalar.call
                [reference.get "/docs" "";
                 reference.get "/docs/openapi-spec" "/openapi-spec"]
                s2) in
       fst (closure.Scalar.call (reference.get "/docs" "") s1)
       = fst (closure.Scalar.call
                {| echo.Request_Method := "GET";
                   echo.Request_URL_Path := "/docs";
                   echo.Request_URL_RawQuery := "again=1";
                   echo.Request_Header := [("Accept", "text/html")];
                   echo.pnames := ["*"];
                   echo.pvalues := [""] |}
                s3).
Proof.
  destruct (closure.Scalar.capture (H := reference.lib)
              (reference.scalarWith "" reference.specUrl))
    as [env|v] eqn:Hcapture; [|discriminate Hcapture].
  exists env. split; [reflexivity|].
  exact (proj1 (proj1 (proj2 (handler_deterministic (L := reference.lib)))
                  (reference.scalarWith "" reference.specUrl) env
                  ["<html>"] [reference.get "/docs/guide" "/guide"]
                  [reference.get "/docs" "";
                   reference.get "/docs/openapi-spec" "/openapi-spec"]
                  (reference.get "/docs" "") _ Hcapture eq_refl eq_refl)).
Defined.

Lemma normalize_fills_defaults_witness :
  exists h useSpecUrl (pageTmpl : template.Page (H := reference.lib)),
    elements.ElementsDocumentsHandler (H := reference.lib)
      (reference.elementsWith "" reference.specUrl) = Ready h
    /\ h = elements.handlerFunc
             (elements.normalize (reference.elementsWith "" reference.specUrl))
             useSpecUrl pageTmpl
    /\ elements.Layout
         (elements.normalize (reference.elementsWith "" reference.specUrl))
       = "sidebar".
Proof.
  destruct (elements.ElementsDocumentsHandler (H := reference.lib)
              (reference.elementsWith "" reference.specUrl))
    as [h|v] eqn:Hready; [|discriminate Hready].
  pose proof (normalize_fills_defaults (L := reference.lib))
    as (He & _ & _ & _ & Hh & _).
  destruct (Hh _ h Hready) as (useSpecUrl & pageTmpl & Hclosure).
  exists h, useSpecUrl, pageTmpl.
  split; [reflexivity|]. split; [exact Hclosure|].
  destruct (He (reference.elementsWith "" reference.specUrl))
    as (_ & _ & _ & Hlayout & _).
  exact Hlayout.
Defined.

Lemma optional_fields_guarded_witness :
  In "layout"
    (json.keys
       (scalar.conf.apiReferenceConfiguration_json
          {| scalar.conf.IsEditable := false;
             scalar.conf.Spec := {| scalar.conf.URL := reference.specUrl |};
             scalar.conf.ProxyUrl := "";
             scalar.conf.DarkMode := false;
             scalar.conf.Layout := scalar.ScalarLayoutClassic;
             scalar.conf.Theme := "";
             scalar.conf.ShowSidebar := true;
             scalar.conf.SearchHotKey := "" |})).
Proof.
  pose proof (optional_fields_guarded (L := reference.lib)) as (_ & Hs & _).
  match goal with
  | |- In _ (json.keys (scalar.conf.apiReferenceConfiguration_json ?v)) =>
      destruct (Hs v) as (_ & _ & _ & _ & _ & Hlayout & _)
  end.
  apply Hlayout. discriminate.
Defined.

(** C7 fails as stated: the default configuration of Scalar names the
    layout [modern] and the theme [default], the defaulting leaves an empty
    [Layout] and an empty [Theme] empty, and the page then carries neither
    key. *)
Lemma scalar_layout_theme_not_filled :
  scalar.Layout (reference.scalarWith "" reference.specUrl) = ""
  /\ scalar.Layout scalar.DefaultScalarConfig = "modern"
  /\ scalar.Layout (scalar.normalize (reference.scalarWith "" reference.specUrl))
     <> scalar.Layout scalar.DefaultScalarConfig
  /\ scalar.Theme (reference.scalarWith "" reference.specUrl) = ""
  /\ scalar.Theme scalar.DefaultScalarConfig = "default"
  /\ scalar.Theme (scalar.normalize (reference.scalarWith "" reference.specUrl))
     <> scalar.Theme scalar.DefaultScalarConfig
  /\ reference.serve
       (scalar.ScalarDocumentsHandler (H := reference.lib)
          (reference.scalarWith "" reference.specUrl))
       (reference.get "/docs" "")
     = Some (echo.Responded
               {| echo.Status := 200;
                  echo.Header := [("Content-Type", "text/html; charset=UTF-8")];
                  echo.Body := template.raw
"<html lang=`en`>
<head>
  <meta charset=`utf-8`>
  <meta name=`viewport` content=`width=device-width, initial-scale=1`>
  <title>API documentation with Scalar</title>
</head>
<body>
  <script id=`api-reference` type=`application/json`></script>
  <script>
    var configuration = {`spec`:{`url`:`https://example.com/openapi.yaml`},`showSidebar`:true};
    var apiReference = document.getElementById('api-reference');
    apiReference.dataset.configuration = JSON.stringify(configuration);
  </script>
  <script src=`https://cdn.jsdelivr.net/npm/@scalar/api-reference`></script>
</body>
</html>
" |}).
Proof.
  repeat apply conj; try reflexivity; try discriminate.
Qed.

(** C8 fails as stated: with every option of Elements at its default, the
    page still carries [layout] and [router], with their default values. *)
Lemma elements_default_layout_router_written :
  elements.Layout (elements.normalize (reference.elementsWith "" reference.specUrl))
  = elements.Layout elements.DefaultElementsConfig
  /\ elements.Router
       (elements.normalize (reference.elementsWith "" reference.specUrl))
     = elements.Router elements.DefaultElementsConfig
  /\ reference.serve
       (elements.ElementsDocumentsHandler (H := reference.lib)
          (reference.elementsWith "" reference.specUrl))
       (reference.get "/docs" "")
     = Some (echo.Responded
               {| echo.Status := 200;
                  echo.Header := [("Content-Type", "text/html; charset=UTF-8")];
                  echo.Body := template.raw
"<html lang=`en`>
<head>
  <meta charset=`utf-8`>
  <meta name=`viewport` content=`width=device-width, initial-scale=1`>
  <title>API documentation with Stoplight Elements</title>
  <script src=`https://unpkg.com/@stoplight/elements/web-components.min.js`></script>
  <link rel=`stylesheet` href=`https://unpkg.com/@stoplight/elements/styles.min.css`>
</head>
<body>
  <elements-api
    apiDescriptionUrl=`https://example.com/openapi.yaml`
    basePath=`/docs`
    layout=`sidebar`
    router=`history`
  />
</body>
</html>
" |}).
Proof.
  repeat apply conj; vm_compute; reflexivity.
Qed.

(** * Further properties of the specification endpoint *)

Lemma substring_0_cons (c : ascii) (s : string) (n : nat) :
  substring 0 (S n) (String c s) = String c (substring 0 n s).
Proof. reflexivity. Qed.

Lemma backtrack_bound (out : string) (dotdot w : nat) :
  dotdot <= w -> dotdot <= path.backtrack out dotdot w.
Proof.
  induction w as [|w IH]; intros Hw; cbn [path.backtrack]; [lia|].
  destruct (dotdot <? S w)%nat eqn:E; cbn [andb]; [|lia].
  apply Nat.ltb_lt in E.
  destruct (negb _); [apply IH; lia | lia].
Qed.

(** Copying an element only adds to the buffer. *)
Lemma copyElement_keeps_prefix (rest out : string) :
  exists x, snd (path.copyElement rest out) = out ++ x.
Proof.
  revert out; induction rest as [|c rest IH]; intros out; cbn.
  - exists "". now rewrite append_empty_r.
  - destruct (Ascii.eqb c path.slash); cbn.
    + exists "". now rewrite append_empty_r.
    + destruct (IH (path.append out c)) as [x ->].
      exists (String c x). unfold path.append. now rewrite append_assoc.
Qed.

(** In a rooted path the loop never takes the leading slash back. *)
Lemma cleanLoop_rooted (fuel : nat) :
  forall (rest out : string) (dotdot : nat),
    1 <= dotdot ->
    (exists out', out = String path.slash out') ->
    exists r, path.cleanLoop fuel true rest out dotdot = String path.slash r.
Proof.
  induction fuel as [|fuel IH]; intros rest out dotdot Hdotdot [out' ->];
    [now exists out'|].
  destruct rest as [|c1 t1]; [now exists out'|].
  cbn [path.cleanLoop]. unfold path.cleanStep.
  destruct (Ascii.eqb c1 path.slash); [apply IH; eauto|].
  destruct (Ascii.eqb c1 path.dot && _); [apply IH; eauto|].
  destruct (Ascii.eqb c1 path.dot && _).
  - destruct (dotdot <? _)%nat eqn:E;
      [|cbn [negb]; apply IH; eauto].
    apply Nat.ltb_lt in E.
    apply IH; [exact Hdotdot|].
    pose proof (backtrack_bound (String path.slash out') dotdot
                  (String.length (String path.slash out') - 1)) as Hb.
    destruct (path.backtrack _ _ _) as [|w]; [lia|].
    rewrite substring_0_cons. eauto.
  - match goal with
    | |- context [path.copyElement ?r ?o] =>
        pose proof (copyElement_keeps_prefix r o) as Hc;
        destruct (path.copyElement r o) as [rest' out2]
    end.
    cbn [snd] in Hc. destruct Hc as [x ->].
    apply IH; [exact Hdotdot|].
    destruct (_ || _); cbn [path.append append]; eauto.
Qed.

Lemma Clean_rooted (t : string) :
  exists r, path.Clean (String path.slash t) = String path.slash r.
Proof.
  cbn [path.Clean]. change (Ascii.eqb path.slash path.slash) with true.
  cbv zeta. cbn iota.
  destruct (cleanLoop_rooted (String.length t) t (String path.slash "") 1)
    as [r ->]; [lia | eauto |].
  now exists r.
Qed.

(** X1: the specification endpoint of any base path ends in [openapi-spec],
    whatever dots and slashes the base path holds, and it is an absolute
    path whenever the base path is one. *)
Theorem endpoint_shape (b : string) :
  (exists x, path.Join [b; "openapi-spec"] = x ++ "openapi-spec")
  /\ (forall t, b = String "/" t ->
      exists r, path.Join [b; "openapi-spec"] = String "/" r).
Proof.
  split.
  - destruct b as [|c b]; [now exists ""|].
    destruct (endpoint_keeps_spec (String c b) 0) as [x Hx];
      [discriminate | now left |].
    exists x. rewrite Hx. cbn [specTail]. now rewrite append_empty_r.
  - intros t ->. rewrite Join_endpoint by discriminate.
    apply (Clean_rooted ((t ++ "/") ++ "openapi-spec")).
Qed.

(** ** Mount roots made of plain names *)

Lemma joinNames_stop (names : list string) :
  joinNames names = "" \/ exists t, joinNames names = String path.slash t.
Proof. destruct names; [now left | right; eexists; reflexivity]. Qed.

(** A turn of the loop on a plain name copies the name, after a slash
    unless the buffer is at its start. *)
Lemma cleanStep_plain (rooted : bool) (n R out : string) (dotdot : nat) :
  plainName n ->
  R = "" \/ (exists t, R = String path.slash t) ->
  path.cleanStep rooted (n ++ R) out dotdot
  = (R,
     (if (rooted && negb (String.length out =? 1)%nat)
         || (negb rooted && negb (String.length out =? 0)%nat)
      then path.append out path.slash else out) ++ n,
     dotdot).
Proof.
  intros (Hne & Hdot & Hdotdot & Hslash) HR.
  assert (forall out1,
             path.copyElement (n ++ R) out1 = (R, out1 ++ n)) as Hcopy.
  { intros out1. rewrite copyElement_name by exact Hslash.
    now apply copyElement_stop. }
  destruct n as [|c1 n1]; [now elim Hne|].
  assert (Ascii.eqb c1 path.slash = false) as Hc1
      by (apply Ascii.eqb_neq, Hslash; now left).
  change (String c1 n1 ++ R) with (String c1 (n1 ++ R)) in *.
  unfold path.cleanStep. rewrite Hc1.
  assert ((Ascii.eqb c1 path.dot
           && match n1 ++ R with
              | "" => true
              | String c2 _ => Ascii.eqb c2 path.slash
              end = false)
          /\ (Ascii.eqb c1 path.dot
              && match n1 ++ R with
                 | String c2 "" => Ascii.eqb c2 path.dot
                 | String c2 (String c3 _) =>
                     Ascii.eqb c2 path.dot && Ascii.eqb c3 path.slash
                 | "" => false
                 end = false)) as [-> ->].
  { destruct (Ascii.eqb_spec c1 path.dot) as [-> | _]; [|now split].
    cbn [andb].
    destruct n1 as [|c2 n2]; [now elim Hdot|].
    assert (Ascii.eqb c2 path.slash = false) as Hc2
        by (apply Ascii.eqb_neq, Hslash; right; now left).
    change (String c2 n2 ++ R) with (String c2 (n2 ++ R)).
    split; [exact Hc2|].
    destruct (Ascii.eqb_spec c2 path.dot) as [-> | _];
      [|now destruct (n2 ++ R)].
    destruct n2 as [|c3 n3]; [now elim Hdotdot|].
    assert (Ascii.eqb c3 path.slash = false) as Hc3
        by (apply Ascii.eqb_neq, Hslash; right; right; now left).
    change (String c3 n3 ++ R) with (String c3 (n3 ++ R)).
    cbn iota. rewrite Hc3. apply andb_false_r. }
  cbv zeta. now rewrite Hcopy.
Qed.

Lemma joinNames_length (n : string) (names : list string) :
  String.length (joinNames (n :: names))
  = S (String.length n + String.length (joinNames names)).
Proof. cbn [joinNames append String.length]. now rewrite append_length. Qed.

Lemma joinNames_then_stop (names : list string) (R : string) :
  R = "" \/ (exists t, R = String path.slash t) ->
  joinNames names ++ R = ""
  \/ exists t, joinNames names ++ R = String path.slash t.
Proof.
  intros HR. destruct names; [exact HR | right; eexists; reflexivity].
Qed.

(** After an element, plain names are copied out one by one, each with its
    slash, and the loop goes on with what follows them. *)
Lemma cleanLoop_names_then (names : list string) :
  forall (fuel : nat) (rooted : bool) (out R : string) (dotdot : nat),
    Forall plainName names ->
    R = "" \/ (exists t, R = String path.slash t) ->
    String.length (joinNames names ++ R) <= fuel ->
    2 <= String.length out ->
    exists fuel',
      String.length R <= fuel'
      /\ path.cleanLoop fuel rooted (joinNames names ++ R) out dotdot
         = path.cleanLoop fuel' rooted R (out ++ joinNames names) dotdot.
Proof.
  induction names as [|n names IH]; intros fuel rooted out R dotdot Hplain
    HR Hfuel Hout.
  - exists fuel. cbn [joinNames append] in *. now rewrite append_empty_r.
  - inversion Hplain as [|? ? Hn Hnames]; subst.
    assert (1 <= String.length n) as Hlen
        by (destruct Hn as (Hne & _); destruct n; [now elim Hne | cbn; lia]).
    cbn [joinNames] in *.
    change (("/" ++ n ++ joinNames names) ++ R)
      with (String path.slash ((n ++ joinNames names) ++ R)) in *.
    rewrite append_assoc in *. cbn [String.length] in Hfuel.
    rewrite append_length in Hfuel.
    destruct fuel as [|[|fuel]]; [lia | lia |].
    cbn [path.cleanLoop].
    assert (path.cleanStep rooted
              (String path.slash (n ++ joinNames names ++ R)) out dotdot
            = (n ++ joinNames names ++ R, out, dotdot)) as -> by reflexivity.
    destruct (n ++ joinNames names ++ R) eqn:E;
      [destruct n; [cbn in Hlen; lia | discriminate E]|].
    rewrite <- E.
    rewrite (cleanStep_plain rooted n (joinNames names ++ R) out dotdot Hn
               (joinNames_then_stop names R HR)).
    assert ((rooted && negb (String.length out =? 1)%nat
             || negb rooted && negb (String.length out =? 0)%nat) = true)
      as ->.
    { destruct (String.length out) as [|[|k]]; [lia | lia |].
      now destruct rooted. }
    destruct (IH fuel rooted (path.append out path.slash ++ n) R dotdot
                Hnames HR) as (fuel' & Hfuel' & ->); [lia | |].
    + unfold path.append. rewrite !append_length. cbn. lia.
    + exists fuel'. split; [exact Hfuel'|].
      unfold path.append. now rewrite !append_assoc.
Qed.

Lemma cleanLoop_names (names : list string) (fuel : nat) (rooted : bool)
      (out : string) (dotdot : nat) :
  Forall plainName names ->
  String.length (joinNames names) <= fuel ->
  2 <= String.length out ->
  path.cleanLoop fuel rooted (joinNames names) out dotdot
  = out ++ joinNames names.
Proof.
  intros Hplain Hfuel Hout.
  destruct (cleanLoop_names_then names fuel rooted out "" dotdot Hplain)
    as (fuel' & _ & E); [now left | now rewrite append_empty_r | exact Hout |].
  rewrite append_empty_r in E. rewrite E. now destruct fuel'.
Qed.

(** An absolute path of plain names is clean. *)
Lemma Clean_names (n : string) (names : list string) :
  Forall plainName (n :: names) ->
  path.Clean (joinNames (n :: names)) = joinNames (n :: names).
Proof.
  intros Hplain. inversion Hplain as [|? ? Hn Hnames]; subst.
  assert (1 <= String.length n) as Hlen
      by (destruct Hn as (Hne & _); destruct n; [now elim Hne | cbn; lia]).
  cbn [joinNames]. change ("/" ++ n ++ joinNames names)
    with (String path.slash (n ++ joinNames names)).
  cbn [path.Clean]. change (Ascii.eqb path.slash path.slash) with true.
  cbv zeta. cbn iota.
  rewrite append_length.
  destruct (String.length n + String.length (joinNames names)) as [|fuel] eqn:F;
    [lia|].
  cbn [path.cleanLoop].
  destruct (n ++ joinNames names) eqn:E;
    [destruct n; [cbn in Hlen; lia | discriminate E]|].
  rewrite <- E.
  rewrite (cleanStep_plain true n (joinNames names) _ 1 Hn
             (joinNames_stop names)).
  cbn [String.length Nat.eqb andb orb negb].
  rewrite cleanLoop_names; [| exact Hnames | lia | cbn [append String.length]; lia].
  cbn [append]. 
  destruct (String.length _ =? 0)%nat eqn:Z; [|reflexivity].
  apply Nat.eqb_eq in Z. cbn in Z. lia.
Qed.

Lemma joinNames_app (a b : list string) :
  joinNames (a ++ b)%list = joinNames a ++ joinNames b.
Proof.
  induction a as [|n a IH]; [reflexivity|].
  cbn [joinNames List.app]. rewrite IH.
  change ("/" ++ ?x) with (String "/" x). cbn [append].
  now rewrite append_assoc.
Qed.

Lemma plainName_openapi_spec : plainName "openapi-spec".
Proof.
  repeat split; try discriminate.
  intros c Hc. cbn in Hc. intuition (subst c; discriminate).
Qed.

(** Under a mount root of plain names the specification endpoint is the
    root followed by [/openapi-spec], with or without a slash at the end
    of the root. *)
Lemma Join_plain_root (n : string) (names : list string) :
  Forall plainName (n :: names) ->
  path.Join [joinNames (n :: names); "openapi-spec"]
  = joinNames (n :: names) ++ "/openapi-spec"
  /\ path.Join [joinNames (n :: names) ++ "/"; "openapi-spec"]
     = joinNames (n :: names) ++ "/openapi-spec".
Proof.
  intros Hplain.
  assert (Forall plainName ((n :: names) ++ ["openapi-spec"])%list) as Hall.
  { apply Forall_app. split; [exact Hplain|].
    constructor; [apply plainName_openapi_spec | constructor]. }
  assert (joinNames (n :: names) ++ "/openapi-spec"
          = joinNames ((n :: names) ++ ["openapi-spec"])%list) as Hjoin.
  { rewrite joinNames_app. f_equal. }
  split.
  - rewrite Join_endpoint by discriminate.
    rewrite append_assoc.
    change ("/" ++ "openapi-spec") with "/openapi-spec".
    rewrite Hjoin. apply (Clean_names n (names ++ ["openapi-spec"]) Hall).
  - rewrite Join_endpoint
      by (cbn [joinNames]; change ("/" ++ ?x) with (String "/" x);
          discriminate).
    rewrite !append_assoc.
    change ("/" ++ "/" ++ "openapi-spec") with (String "/" "/openapi-spec").
    inversion Hplain as [|? ? Hn Hnames]; subst.
    assert (1 <= String.length n) as Hlen
        by (destruct Hn as (Hne & _); destruct n; [now elim Hne | cbn; lia]).
    cbn [joinNames].
    change (("/" ++ n ++ joinNames names) ++ ?R)
      with (String path.slash ((n ++ joinNames names) ++ R)).
    rewrite append_assoc.
    cbn [path.Clean]. change (Ascii.eqb path.slash path.slash) with true.
    cbv zeta. cbn iota.
    remember (String "/" "/openapi-spec") as R eqn:HR.
    assert (R = "" \/ (exists t, R = String path.slash t)) as HRstop
        by (right; subst R; eexists; reflexivity).
    destruct (String.length (n ++ joinNames names ++ R)) as [|fuel] eqn:F;
      [rewrite append_length in F; lia|].
    cbn [path.cleanLoop].
    destruct (n ++ joinNames names ++ R) eqn:E;
      [destruct n; [cbn in Hlen; lia | discriminate E]|].
    rewrite <- E in *.
    rewrite (cleanStep_plain true n (joinNames names ++ R) _ 1 Hn
               (joinNames_then_stop names R HRstop)).
    cbn [String.length Nat.eqb andb orb negb].
    rewrite !append_length in F.
    destruct (cleanLoop_names_then names fuel true
                (String path.slash "" ++ n) R 1 Hnames HRstop)
      as (fuel' & Hfuel' & ->);
      [rewrite append_length; lia | cbn [append String.length]; lia |].
    subst R. cbn [String.length] in Hfuel'.
    destruct fuel' as [|fuel']; [lia|].
    cbn [path.cleanLoop].
    change (path.cleanStep true (String "/" "/openapi-spec") ?o 1)
      with (joinNames ["openapi-spec"], o, 1).
    cbv iota beta. rewrite !append_assoc.
    rewrite (cleanLoop_names ["openapi-spec"] fuel' true
               (String path.slash "" ++ n ++ joinNames names) 1);
      [| constructor; [apply plainName_openapi_spec | constructor]
       | cbn; lia
       | rewrite !append_length; cbn [String.length]; lia].
    cbn [joinNames]. rewrite append_empty_r.
    change ("/" ++ "openapi-spec") with "/openapi-spec".
    rewrite !append_assoc.
    destruct (String.length _ =? 0)%nat eqn:Z; [|reflexivity].
    apply Nat.eqb_eq in Z. cbn in Z. lia.
Qed.

(** * Further properties of the handlers *)

Section Further.
Context `{L : template.Library}.

#[local] Hint Resolve past_spec_inline past_spec_url past_spec_root : core.

(** ** The answers a handler has *)

Lemma elements_answers cfg u t c :
  (u = false
   /\ strings.HasSuffix (echo.Request_URL_Path c) (specEndpoint c) = true
   /\ elements.handlerFunc cfg u t c = rawSpec (elements.Spec cfg))
  \/ (past_spec u c /\ elements.Router cfg <> elements.ElementsRouterHistory /\ echo.Param c "*" <> ""
      /\ elements.handlerFunc cfg u t c = found (basePath c))
  \/ (past_spec u c
      /\ exists params,
          elements.BasePath params = basePath c
          /\ elements.handlerFunc cfg u t c
             = wrote (template.ExecutePage elements.defaultElementsPage
                        elements.elementsTemplateParams_fields t params)).
Proof.
  assert (past_spec u c
          \/ (u = false
              /\ strings.HasSuffix (echo.Request_URL_Path c) (specEndpoint c)
                 = true)) as [Hpast | [-> Hsuffix]].
  { destruct u; [left; now left|].
    destruct (strings.HasSuffix (echo.Request_URL_Path c) (specEndpoint c))
      eqn:E; [right; now split | left; now right]. }
  - destruct (String.eqb_spec (echo.Param c "*") "") as [Hrel | Hrel];
      [|destruct (String.eqb_spec (elements.Router cfg)
                    elements.ElementsRouterHistory) as [Hrouter | Hrouter]].
    + right. right. split; [exact Hpast|]. eexists. split;
        [|apply elements_writes_page; auto]. reflexivity.
    + right. right. split; [exact Hpast|]. eexists. split;
        [|apply elements_writes_page; auto]. reflexivity.
    + right. left. repeat split; try assumption.
      now apply elements_redirects.
  - left. repeat split; try assumption. now apply elements_serves_spec.
Qed.

Lemma scalar_answers cfg u t c :
  (u = false
   /\ strings.HasSuffix (echo.Request_URL_Path c) (specEndpoint c) = true
   /\ scalar.handlerFunc cfg u t c = rawSpec (scalar.Spec cfg))
  \/ (past_spec u c /\ echo.Param c "*" <> ""
      /\ scalar.handlerFunc cfg u t c = found (basePath c))
  \/ (past_spec u c
      /\ exists params,
          scalar.BasePath params = basePath c
          /\ scalar.handlerFunc cfg u t c
             = wrote (template.ExecutePage scalar.defaultScalarPage
                        scalar.scalarTemplateParams_fields t params)).
Proof.
  assert (past_spec u c
          \/ (u = false
              /\ strings.HasSuffix (echo.Request_URL_Path c) (specEndpoint c)
                 = true)) as [Hpast | [-> Hsuffix]].
  { destruct u; [left; now left|].
    destruct (strings.HasSuffix (echo.Request_URL_Path c) (specEndpoint c))
      eqn:E; [right; now split | left; now right]. }
  - destruct (String.eqb_spec (echo.Param c "*") "") as [Hrel | Hrel].
    + right. right. split; [exact Hpast|]. eexists. split;
        [|apply scalar_writes_page; auto]. reflexivity.
    + right. left. repeat split; try assumption.
      now apply scalar_redirects.
  - left. repeat split; try assumption. now apply scalar_serves_spec.
Qed.

Lemma swaggerui_answers cfg u t c :
  (u = false
   /\ strings.HasSuffix (echo.Request_URL_Path c) (specEndpoint c) = true
   /\ swaggerui.handlerFunc cfg u t c = rawSpec (swaggerui.Spec cfg))
  \/ (past_spec u c /\ echo.Param c "*" <> ""
      /\ swaggerui.handlerFunc cfg u t c = found (basePath c))
  \/ (past_spec u c
      /\ exists params,
          swaggerui.BasePath params = basePath c
          /\ swaggerui.handlerFunc cfg u t c
             = wrote (template.ExecutePage swaggerui.defaultSwaggerUIPage
                        swaggerui.swaggerUITemplateParams_fields t params)).
Proof.
  assert (past_spec u c
          \/ (u = false
              /\ strings.HasSuffix (echo.Request_URL_Path c) (specEndpoint c)
                 = true)) as [Hpast | [-> Hsuffix]].
  { destruct u; [left; now left|].
    destruct (strings.HasSuffix (echo.Request_URL_Path c) (specEndpoint c))
      eqn:E; [right; now split | left; now right]. }
  - destruct (String.eqb_spec (echo.Param c "*") "") as [Hrel | Hrel].
    + right. right. split; [exact Hpast|]. eexists. split;
        [|apply swaggerui_writes_page; auto]. reflexivity.
    + right. left. repeat split; try assumption.
      now apply swaggerui_redirects.
  - left. repeat split; try assumption. now apply swaggerui_serves_spec.
Qed.

Lemma redoc_answers cfg u t c :
  (u = false
   /\ strings.HasSuffix (echo.Request_URL_Path c) (specEndpoint c) = true
   /\ redoc.handlerFunc cfg u t c = rawSpec (redoc.Spec cfg))
  \/ (past_spec u c /\ echo.Param c "*" <> ""
      /\ redoc.handlerFunc cfg u t c = found (basePath c))
  \/ (past_spec u c
      /\ exists params,
          redoc.params.BasePath params = basePath c
          /\ redoc.handlerFunc cfg u t c
             = wrote (template.ExecutePage redoc.defaultRedocPage
                        redoc.redocTemplateParams_fields t params)).
Proof.
  assert (past_spec u c
          \/ (u = false
              /\ strings.HasSuffix (echo.Request_URL_Path c) (specEndpoint c)
                 = true)) as [Hpast | [-> Hsuffix]].
  { destruct u; [left; now left|].
    destruct (strings.HasSuffix (echo.Request_URL_Path c) (specEndpoint c))
      eqn:E; [right; now split | left; now right]. }
  - destruct (String.eqb_spec (echo.Param c "*") "") as [Hrel | Hrel].
    + right. right. split; [exact Hpast|]. eexists. split;
        [|apply redoc_writes_page; auto]. reflexivity.
    + right. left. repeat split; try assumption.
      now apply redoc_redirects.
  - left. repeat split; try assumption. now apply redoc_serves_spec.
Qed.

(** ** What a handler never does *)

(** X2: a handler has no error of its own to return (the redirect code is a
    valid one, and writing the response is taken to succeed): it answers
    with status 200, or with status 302, the base path as [Location] and no
    body; it panics only when a template of the embedding application
    fails to execute. *)
Theorem handler_answers_or_template_panics :
  (forall cfg h c,
      elements.ElementsDocumentsHandler cfg = Ready h ->
      match h c with
      | echo.Responded r =>
          echo.Status r = 200%Z
          \/ (echo.Status r = 302%Z
              /\ echo.Header r = [("Location", basePath c)]
              /\ echo.Body r = "")
      | echo.Failed _ => False
      | echo.Panicked _ =>
          elements.Template cfg <> "" /\ elements.Template cfg <> elements.defaultElementsTemplate
      end)
  /\ (forall cfg h c,
      scalar.ScalarDocumentsHandler cfg = Ready h ->
      match h c with
      | echo.Responded r =>
          echo.Status r = 200%Z
          \/ (echo.Status r = 302%Z
              /\ echo.Header r = [("Location", basePath c)]
              /\ echo.Body r = "")
      | echo.Failed _ => False
      | echo.Panicked _ =>
          scalar.Template cfg <> "" /\ scalar.Template cfg <> scalar.defaultScalarTemplate
      end)
  /\ (forall cfg h c,
      swaggerui.SwaggerUIDocumentsHandler cfg = Ready h ->
      match h c with
      | echo.Responded r =>
          echo.Status r = 200%Z
          \/ (echo.Status r = 302%Z
              /\ echo.Header r = [("Location", basePath c)]
              /\ echo.Body r = "")
      | echo.Failed _ => False
      | echo.Panicked _ =>
          swaggerui.Template cfg <> "" /\ swaggerui.Template cfg <> swaggerui.defaultSwaggerUITemplate
      end)
  /\ (forall cfg h c,
      redoc.RedocDocumentsHandler cfg = Ready h ->
      match h c with
      | echo.Responded r =>
          echo.Status r = 200%Z
          \/ (echo.Status r = 302%Z
              /\ echo.Header r = [("Location", basePath c)]
              /\ echo.Body r = "")
      | echo.Failed _ => False
      | echo.Panicked _ =>
          redoc.Template cfg <> "" /\ redoc.Template cfg <> redoc.defaultRedocTemplate
      end).
Proof.
  split; [|split; [|split]]; intros cfg h c Hready.
  - apply elements_factory_inv in Hready as (t & Hparse & _ & ->).
    pose proof (elements_builtin cfg t Hparse) as Hbuiltin.
    destruct (elements_answers (elements.normalize cfg) (elements.Spec cfg =? "") t c)
      as [(_ & _ & ->) | [(_ & _ & _ & ->) | (_ & params & _ & ->)]].
    + now left.
    + right. now repeat split.
    + destruct t as [|t]; cbn [template.ExecutePage wrote]; [now left|].
      destruct (template.Execute t _); cbn; [now left|].
      split; intros E; discriminate Hbuiltin; auto.
  - apply scalar_factory_inv in Hready as (t & Hparse & _ & ->).
    pose proof (scalar_builtin cfg t Hparse) as Hbuiltin.
    destruct (scalar_answers (scalar.normalize cfg) (scalar.Spec cfg =? "") t c)
      as [(_ & _ & ->) | [(_ & _ & ->) | (_ & params & _ & ->)]].
    + now left.
    + right. now repeat split.
    + destruct t as [|t]; cbn [template.ExecutePage wrote]; [now left|].
      destruct (template.Execute t _); cbn; [now left|].
      split; intros E; discriminate Hbuiltin; auto.
  - apply swaggerui_factory_inv in Hready as (t & Hparse & _ & ->).
    pose proof (swaggerui_builtin cfg t Hparse) as Hbuiltin.
    destruct (swaggerui_answers (swaggerui.normalize cfg) (swaggerui.Spec cfg =? "") t c)
      as [(_ & _ & ->) | [(_ & _ & ->) | (_ & params & _ & ->)]].
    + now left.
    + right. now repeat split.
    + destruct t as [|t]; cbn [template.ExecutePage wrote]; [now left|].
      destruct (template.Execute t _); cbn; [now left|].
      split; intros E; discriminate Hbuiltin; auto.
  - apply redoc_factory_inv in Hready as (t & Hparse & _ & ->).
    pose proof (redoc_builtin cfg t Hparse) as Hbuiltin.
    destruct (redoc_answers (redoc.normalize cfg) (redoc.Spec cfg =? "") t c)
      as [(_ & _ & ->) | [(_ & _ & ->) | (_ & params & _ & ->)]].
    + now left.
    + right. now repeat split.
    + destruct t as [|t]; cbn [template.ExecutePage wrote]; [now left|].
      destruct (template.Execute t _); cbn; [now left|].
      split; intros E; discriminate Hbuiltin; auto.
Qed.

Lemma TrimSuffix_prefix (s suffix : string) :
  exists rest, s = strings.TrimSuffix s suffix ++ rest.
Proof.
  destruct (strings.HasSuffix s suffix) eqn:E.
  - apply HasSuffix_true_iff in E as [b ->]. exists suffix.
    now rewrite TrimSuffix_append.
  - exists "". now rewrite TrimSuffix_not_suffix, append_empty_r.
Qed.

Lemma basePath_prefix (c : echo.Context) :
  exists rest, echo.Request_URL_Path c = basePath c ++ rest.
Proof. apply TrimSuffix_prefix. Qed.

(** X3: a redirect never leaves the request path: its [Location] is a prefix
    of the path that was requested. *)
Theorem redirect_location_is_prefix :
  (forall cfg h c r,
      elements.ElementsDocumentsHandler cfg = Ready h ->
      h c = echo.Responded r ->
      echo.Status r = 302%Z ->
      exists location rest,
        echo.Header r = [("Location", location)]
        /\ echo.Request_URL_Path c = location ++ rest)
  /\ (forall cfg h c r,
      scalar.ScalarDocumentsHandler cfg = Ready h ->
      h c = echo.Responded r ->
      echo.Status r = 302%Z ->
      exists location rest,
        echo.Header r = [("Location", location)]
        /\ echo.Request_URL_Path c = location ++ rest)
  /\ (forall cfg h c r,
      swaggerui.SwaggerUIDocumentsHandler cfg = Ready h ->
      h c = echo.Responded r ->
      echo.Status r = 302%Z ->
      exists location rest,
        echo.Header r = [("Location", location)]
        /\ echo.Request_URL_Path c = location ++ rest)
  /\ (forall cfg h c r,
      redoc.RedocDocumentsHandler cfg = Ready h ->
      h c = echo.Responded r ->
      echo.Status r = 302%Z ->
      exists location rest,
        echo.Header r = [("Location", location)]
        /\ echo.Request_URL_Path c = location ++ rest).
Proof.
  split; [|split; [|split]]; intros cfg h c r Hready Hr Hstatus.
  - apply elements_factory_inv in Hready as (t & _ & _ & ->).
    destruct (elements_answers (elements.normalize cfg) (elements.Spec cfg =? "") t c)
      as [(_ & _ & E) | [(_ & _ & _ & E) | (_ & params & _ & E)]];
      rewrite E in Hr.
    + injection Hr as <-. discriminate Hstatus.
    + injection Hr as <-. destruct (basePath_prefix c) as [rest Hrest].
      now exists (basePath c), rest.
    + destruct (template.ExecutePage _ _ _ _); [|discriminate Hr].
      injection Hr as <-. discriminate Hstatus.
  - apply scalar_factory_inv in Hready as (t & _ & _ & ->).
    destruct (scalar_answers (scalar.normalize cfg) (scalar.Spec cfg =? "") t c)
      as [(_ & _ & E) | [(_ & _ & E) | (_ & params & _ & E)]];
      rewrite E in Hr.
    + injection Hr as <-. discriminate Hstatus.
    + injection Hr as <-. destruct (basePath_prefix c) as [rest Hrest].
      now exists (basePath c), rest.
    + destruct (template.ExecutePage _ _ _ _); [|discriminate Hr].
      injection Hr as <-. discriminate Hstatus.
  - apply swaggerui_factory_inv in Hready as (t & _ & _ & ->).
    destruct (swaggerui_answers (swaggerui.normalize cfg) (swaggerui.Spec cfg =? "") t c)
      as [(_ & _ & E) | [(_ & _ & E) | (_ & params & _ & E)]];
      rewrite E in Hr.
    + injection Hr as <-. discriminate Hstatus.
    + injection Hr as <-. destruct (basePath_prefix c) as [rest Hrest].
      now exists (basePath c), rest.
    + destruct (template.ExecutePage _ _ _ _); [|discriminate Hr].
      injection Hr as <-. discriminate Hstatus.
  - apply redoc_factory_inv in Hready as (t & _ & _ & ->).
    destruct (redoc_answers (redoc.normalize cfg) (redoc.Spec cfg =? "") t c)
      as [(_ & _ & E) | [(_ & _ & E) | (_ & params & _ & E)]];
      rewrite E in Hr.
    + injection Hr as <-. discriminate Hstatus.
    + injection Hr as <-. destruct (basePath_prefix c) as [rest Hrest].
      now exists (basePath c), rest.
    + destruct (template.ExecutePage _ _ _ _); [|discriminate Hr].
      injection Hr as <-. discriminate Hstatus.
Qed.

(** X4: a handler built with [SpecUrl] alone has no specification endpoint:
    no request is answered with [text/plain]. *)
Theorem url_config_serves_no_spec :
  (forall cfg h c r,
      elements.ElementsDocumentsHandler cfg = Ready h ->
      elements.Spec cfg = "" ->
      h c = echo.Responded r ->
      echo.Header r <> [("Content-Type", "text/plain; charset=utf-8")])
  /\ (forall cfg h c r,
      scalar.ScalarDocumentsHandler cfg = Ready h ->
      scalar.Spec cfg = "" ->
      h c = echo.Responded r ->
      echo.Header r <> [("Content-Type", "text/plain; charset=utf-8")])
  /\ (forall cfg h c r,
      swaggerui.SwaggerUIDocumentsHandler cfg = Ready h ->
      swaggerui.Spec cfg = "" ->
      h c = echo.Responded r ->
      echo.Header r <> [("Content-Type", "text/plain; charset=utf-8")])
  /\ (forall cfg h c r,
      redoc.RedocDocumentsHandler cfg = Ready h ->
      redoc.Spec cfg = "" ->
      h c = echo.Responded r ->
      echo.Header r <> [("Content-Type", "text/plain; charset=utf-8")]).
Proof.
  split; [|split; [|split]]; intros cfg h c r Hready Hspec Hr.
  - apply elements_factory_inv in Hready as (t & _ & _ & ->). rewrite Hspec in Hr.
    destruct (elements_answers (elements.normalize cfg) ("" =? "") t c)
      as [(E & _) | [(_ & _ & _ & E) | (_ & params & _ & E)]];
      [discriminate E | |]; rewrite E in Hr.
    + injection Hr as <-. discriminate.
    + destruct (template.ExecutePage _ _ _ _); [|discriminate Hr].
      injection Hr as <-. discriminate.
  - apply scalar_factory_inv in Hready as (t & _ & _ & ->). rewrite Hspec in Hr.
    destruct (scalar_answers (scalar.normalize cfg) ("" =? "") t c)
      as [(E & _) | [(_ & _ & E) | (_ & params & _ & E)]];
      [discriminate E | |]; rewrite E in Hr.
    + injection Hr as <-. discriminate.
    + destruct (template.ExecutePage _ _ _ _); [|discriminate Hr].
      injection Hr as <-. discriminate.
  - apply swaggerui_factory_inv in Hready as (t & _ & _ & ->). rewrite Hspec in Hr.
    destruct (swaggerui_answers (swaggerui.normalize cfg) ("" =? "") t c)
      as [(E & _) | [(_ & _ & E) | (_ & params & _ & E)]];
      [discriminate E | |]; rewrite E in Hr.
    + injection Hr as <-. discriminate.
    + destruct (template.ExecutePage _ _ _ _); [|discriminate Hr].
      injection Hr as <-. discriminate.
  - apply redoc_factory_inv in Hready as (t & _ & _ & ->). rewrite Hspec in Hr.
    destruct (redoc_answers (redoc.normalize cfg) ("" =? "") t c)
      as [(E & _) | [(_ & _ & E) | (_ & params & _ & E)]];
      [discriminate E | |]; rewrite E in Hr.
    + injection Hr as <-. discriminate.
    + destruct (template.ExecutePage _ _ _ _); [|discriminate Hr].
      injection Hr as <-. discriminate.
Qed.

(** ** Redirects *)

(** X5: Elements with a router other than [history] (unset counts as
    [history]) treats a sub-path as the other providers do: unless the
    request is answered with the specification, it is redirected to the
    base path. *)
Theorem elements_other_router_redirects cfg h c :
  elements.ElementsDocumentsHandler cfg = Ready h ->
  elements.Router cfg <> "" ->
  elements.Router cfg <> elements.ElementsRouterHistory ->
  echo.Param c "*" <> "" ->
  elements.Spec cfg = ""
  \/ strings.HasSuffix (echo.Request_URL_Path c)
       (path.Join [basePath c; "openapi-spec"]) = false ->
  h c = echo.Responded
          {| echo.Status := 302;
             echo.Header := [("Location", basePath c)];
             echo.Body := "" |}.
Proof.
  intros Hready Hset Hrouter Hrel Hpast.
  apply past_spec_of_config in Hpast.
  apply elements_factory_inv in Hready as (t & _ & _ & ->).
  apply elements_redirects; [exact Hpast | | exact Hrel].
  cbn. now rewrite (eqb_empty_false _ Hset).
Qed.

Lemma past_spec_unmatched u c :
  strings.HasSuffix (echo.Request_URL_Path c) (echo.Param c "*") = false ->
  past_spec u c.
Proof.
  intros Hsuffix. right. unfold specEndpoint, basePath.
  rewrite TrimSuffix_not_suffix by assumption. apply root_is_not_endpoint.
Qed.

(** X6: when the wildcard remainder is not empty and not a suffix of the
    request path (the router reports it in another spelling than the URL
    has), the base path is the whole request path: the request is never
    taken for the specification, and the redirect goes to the very path
    that was requested. *)
Theorem unmatched_remainder_redirects_to_itself :
  (forall cfg h c,
      elements.ElementsDocumentsHandler cfg = Ready h ->
      elements.Router cfg <> "" ->
      elements.Router cfg <> elements.ElementsRouterHistory ->
      echo.Param c "*" <> "" ->
      strings.HasSuffix (echo.Request_URL_Path c) (echo.Param c "*") = false ->
      h c = echo.Responded
              {| echo.Status := 302;
                 echo.Header := [("Location", echo.Request_URL_Path c)];
                 echo.Body := "" |})
  /\ (forall cfg h c,
      scalar.ScalarDocumentsHandler cfg = Ready h ->
      echo.Param c "*" <> "" ->
      strings.HasSuffix (echo.Request_URL_Path c) (echo.Param c "*") = false ->
      h c = echo.Responded
              {| echo.Status := 302;
                 echo.Header := [("Location", echo.Request_URL_Path c)];
                 echo.Body := "" |})
  /\ (forall cfg h c,
      swaggerui.SwaggerUIDocumentsHandler cfg = Ready h ->
      echo.Param c "*" <> "" ->
      strings.HasSuffix (echo.Request_URL_Path c) (echo.Param c "*") = false ->
      h c = echo.Responded
              {| echo.Status := 302;
                 echo.Header := [("Location", echo.Request_URL_Path c)];
                 echo.Body := "" |})
  /\ (forall cfg h c,
      redoc.RedocDocumentsHandler cfg = Ready h ->
      echo.Param c "*" <> "" ->
      strings.HasSuffix (echo.Request_URL_Path c) (echo.Param c "*") = false ->
      h c = echo.Responded
              {| echo.Status := 302;
                 echo.Header := [("Location", echo.Request_URL_Path c)];
                 echo.Body := "" |}).
Proof.
  split; [|split; [|split]].
  - intros cfg h c Hready Hset Hrouter Hrel Hsuffix.
    apply elements_factory_inv in Hready as (t & _ & _ & ->).
    rewrite elements_redirects; auto using past_spec_unmatched.
    + unfold basePath. now rewrite TrimSuffix_not_suffix.
    + cbn. now rewrite (eqb_empty_false _ Hset).
  - intros cfg h c Hready Hrel Hsuffix.
    apply scalar_factory_inv in Hready as (t & _ & _ & ->).
    rewrite scalar_redirects; auto using past_spec_unmatched.
    unfold basePath. now rewrite TrimSuffix_not_suffix.
  - intros cfg h c Hready Hrel Hsuffix.
    apply swaggerui_factory_inv in Hready as (t & _ & _ & ->).
    rewrite swaggerui_redirects; auto using past_spec_unmatched.
    unfold basePath. now rewrite TrimSuffix_not_suffix.
  - intros cfg h c Hready Hrel Hsuffix.
    apply redoc_factory_inv in Hready as (t & _ & _ & ->).
    rewrite redoc_redirects; auto using past_spec_unmatched.
    unfold basePath. now rewrite TrimSuffix_not_suffix.
Qed.

(** X7: a redirect ends at the page.  For Scalar, Swagger UI and Redoc,
    and for Elements with a router other than [history] (unset counts as
    [history], and Elements in history mode does not redirect): when the
    wildcard remainder is a non-empty suffix of the request path and the
    request is not answered with the specification, the redirect goes to
    the path without the remainder, and a request for that path with an
    empty remainder is answered with the page, status 200, not with
    another redirect. *)
Theorem redirect_lands_on_page :
  (forall cfg h b relPath c,
      elements.ElementsDocumentsHandler cfg = Ready h ->
      elements.Router cfg <> "" ->
      elements.Router cfg <> elements.ElementsRouterHistory ->
      relPath <> "" ->
      echo.Request_URL_Path c = b ++ relPath ->
      echo.Param c "*" = relPath ->
      elements.Spec cfg = ""
      \/ strings.HasSuffix (b ++ relPath) (path.Join [b; "openapi-spec"])
         = false ->
      h c = echo.Responded
              {| echo.Status := 302;
                 echo.Header := [("Location", b)];
                 echo.Body := "" |}
      /\ forall c',
          echo.Request_URL_Path c' = b ->
          echo.Param c' "*" = "" ->
          match h c' with
          | echo.Responded r =>
              echo.Status r = 200%Z
              /\ echo.Header r = [("Content-Type", "text/html; charset=UTF-8")]
          | echo.Failed _ => False
          | echo.Panicked _ =>
              elements.Template cfg <> "" /\ elements.Template cfg <> elements.defaultElementsTemplate
          end)
  /\ (forall cfg h b relPath c,
      scalar.ScalarDocumentsHandler cfg = Ready h ->
      relPath <> "" ->
      echo.Request_URL_Path c = b ++ relPath ->
      echo.Param c "*" = relPath ->
      scalar.Spec cfg = ""
      \/ strings.HasSuffix (b ++ relPath) (path.Join [b; "openapi-spec"])
         = false ->
      h c = echo.Responded
              {| echo.Status := 302;
                 echo.Header := [("Location", b)];
                 echo.Body := "" |}
      /\ forall c',
          echo.Request_URL_Path c' = b ->
          echo.Param c' "*" = "" ->
          match h c' with
          | echo.Responded r =>
              echo.Status r = 200%Z
              /\ echo.Header r = [("Content-Type", "text/html; charset=UTF-8")]
          | echo.Failed _ => False
          | echo.Panicked _ =>
              scalar.Template cfg <> "" /\ scalar.Template cfg <> scalar.defaultScalarTemplate
          end)
  /\ (forall cfg h b relPath c,
      swaggerui.SwaggerUIDocumentsHandler cfg = Ready h ->
      relPath <> "" ->
      echo.Request_URL_Path c = b ++ relPath ->
      echo.Param c "*" = relPath ->
      swaggerui.Spec cfg = ""
      \/ strings.HasSuffix (b ++ relPath) (path.Join [b; "openapi-spec"])
         = false ->
      h c = echo.Responded
              {| echo.Status := 302;
                 echo.Header := [("Location", b)];
                 echo.Body := "" |}
      /\ forall c',
          echo.Request_URL_Path c' = b ->
          echo.Param c' "*" = "" ->
          match h c' with
          | echo.Responded r =>
              echo.Status r = 200%Z
              /\ echo.Header r = [("Content-Type", "text/html; charset=UTF-8")]
          | echo.Failed _ => False
          | echo.Panicked _ =>
              swaggerui.Template cfg <> "" /\ swaggerui.Template cfg <> swaggerui.defaultSwaggerUITemplate
          end)
  /\ (forall cfg h b relPath c,
      redoc.RedocDocumentsHandler cfg = Ready h ->
      relPath <> "" ->
      echo.Request_URL_Path c = b ++ relPath ->
      echo.Param c "*" = relPath ->
      redoc.Spec cfg = ""
      \/ strings.HasSuffix (b ++ relPath) (path.Join [b; "openapi-spec"])
         = false ->
      h c = echo.Responded
              {| echo.Status := 302;
                 echo.Header := [("Location", b)];
                 echo.Body := "" |}
      /\ forall c',
          echo.Request_URL_Path c' = b ->
          echo.Param c' "*" = "" ->
          match h c' with
          | echo.Responded r =>
              echo.Status r = 200%Z
              /\ echo.Header r = [("Content-Type", "text/html; charset=UTF-8")]
          | echo.Failed _ => False
          | echo.Panicked _ =>
              redoc.Template cfg <> "" /\ redoc.Template cfg <> redoc.defaultRedocTemplate
          end).
Proof.
  split; [|split; [|split]].
  - intros cfg h b relPath c Hready Hset Hrouter Hrel Hpath Hparam Hpast.
    apply elements_factory_inv in Hready as (t & Hparse & _ & ->).
    pose proof (elements_builtin cfg t Hparse) as Hbuiltin.
    assert (basePath c = b) as Hb
        by (unfold basePath; rewrite Hpath, Hparam; apply TrimSuffix_append).
    split.
    + rewrite elements_redirects.
      * now rewrite Hb.
      * destruct Hpast as [-> | Hpast]; [now left | right].
        unfold specEndpoint. now rewrite Hb, Hpath.
      * cbn. now rewrite (eqb_empty_false _ Hset).
      * congruence.
    + intros c' Hpath' Hparam'.
      rewrite elements_writes_page by auto.
      destruct t as [|t]; cbn [template.ExecutePage wrote]; [now split|].
      destruct (template.Execute t _); cbn; [now split|].
      split; intros E; discriminate Hbuiltin; auto.
  - intros cfg h b relPath c Hready Hrel Hpath Hparam Hpast.
    apply scalar_factory_inv in Hready as (t & Hparse & _ & ->).
    pose proof (scalar_builtin cfg t Hparse) as Hbuiltin.
    assert (basePath c = b) as Hb
        by (unfold basePath; rewrite Hpath, Hparam; apply TrimSuffix_append).
    split.
    + rewrite scalar_redirects.
      * now rewrite Hb.
      * destruct Hpast as [-> | Hpast]; [now left | right].
        unfold specEndpoint. now rewrite Hb, Hpath.
      * congruence.
    + intros c' Hpath' Hparam'.
      rewrite scalar_writes_page by auto.
      destruct t as [|t]; cbn [template.ExecutePage wrote]; [now split|].
      destruct (template.Execute t _); cbn; [now split|].
      split; intros E; discriminate Hbuiltin; auto.
  - intros cfg h b relPath c Hready Hrel Hpath Hparam Hpast.
    apply swaggerui_factory_inv in Hready as (t & Hparse & _ & ->).
    pose proof (swaggerui_builtin cfg t Hparse) as Hbuiltin.
    assert (basePath c = b) as Hb
        by (unfold basePath; rewrite Hpath, Hparam; apply TrimSuffix_append).
    split.
    + rewrite swaggerui_redirects.
      * now rewrite Hb.
      * destruct Hpast as [-> | Hpast]; [now left | right].
        unfold specEndpoint. now rewrite Hb, Hpath.
      * congruence.
    + intros c' Hpath' Hparam'.
      rewrite swaggerui_writes_page by auto.
      destruct t as [|t]; cbn [template.ExecutePage wrote]; [now split|].
      destruct (template.Execute t _); cbn; [now split|].
      split; intros E; discriminate Hbuiltin; auto.
  - intros cfg h b relPath c Hready Hrel Hpath Hparam Hpast.
    apply redoc_factory_inv in Hready as (t & Hparse & _ & ->).
    pose proof (redoc_builtin cfg t Hparse) as Hbuiltin.
    assert (basePath c = b) as Hb
        by (unfold basePath; rewrite Hpath, Hparam; apply TrimSuffix_append).
    split.
    + rewrite redoc_redirects.
      * now rewrite Hb.
      * destruct Hpast as [-> | Hpast]; [now left | right].
        unfold specEndpoint. now rewrite Hb, Hpath.
      * congruence.
    + intros c' Hpath' Hparam'.
      rewrite redoc_writes_page by auto.
      destruct t as [|t]; cbn [template.ExecutePage wrote]; [now split|].
      destruct (template.Execute t _); cbn; [now split|].
      split; intros E; discriminate Hbuiltin; auto.
Qed.

(** ** The mount root *)

(** X8: with the built-in template, a request for the mount root (an empty
    wildcard remainder) is always answered with status 200, content type
    [text/html] and the built-in page, whose base path is the request path
    and whose specification reference is [SpecUrl], or the request path
    joined with [openapi-spec] when [Spec] is set; such a request is never
    redirected and never taken for the specification. *)
Theorem mount_root_gets_builtin_page :
  (forall cfg h c,
      elements.ElementsDocumentsHandler cfg = Ready h ->
      elements.Template cfg = "" ->
      echo.Param c "*" = "" ->
      h c = echo.Responded
              {| echo.Status := 200;
                 echo.Header := [("Content-Type", "text/html; charset=UTF-8")];
                 echo.Body :=
                   elements.defaultElementsPage
                     {| elements.Embedded := elements.normalize cfg;
                        elements.BasePath := echo.Request_URL_Path c;
                        elements.ApiDescriptionUrl := (if elements.Spec cfg =? ""
                           then elements.SpecUrl cfg
                           else path.Join [echo.Request_URL_Path c;
                                           "openapi-spec"]) |} |})
  /\ (forall cfg h c,
      scalar.ScalarDocumentsHandler cfg = Ready h ->
      scalar.Template cfg = "" ->
      echo.Param c "*" = "" ->
      h c = echo.Responded
              {| echo.Status := 200;
                 echo.Header := [("Content-Type", "text/html; charset=UTF-8")];
                 echo.Body :=
                   scalar.defaultScalarPage
                     {| scalar.Embedded := scalar.normalize cfg;
                        scalar.BasePath := echo.Request_URL_Path c;
                        scalar.ApiReferenceConfiguration :=
                          json.Marshal
                            (scalar.conf.apiReferenceConfiguration_json
                               {| scalar.conf.IsEditable :=
                                    scalar.IsEditable cfg;
                                  scalar.conf.Spec :=
                                    {| scalar.conf.URL := (if scalar.Spec cfg =? ""
                           then scalar.SpecUrl cfg
                           else path.Join [echo.Request_URL_Path c;
                                           "openapi-spec"]) |};
                                  scalar.conf.ProxyUrl := scalar.ProxyUrl cfg;
                                  scalar.conf.DarkMode := scalar.DarkMode cfg;
                                  scalar.conf.Layout := scalar.Layout cfg;
                                  scalar.conf.Theme := scalar.Theme cfg;
                                  scalar.conf.ShowSidebar :=
                                    negb (scalar.HideSidebar cfg);
                                  scalar.conf.SearchHotKey :=
                                    scalar.SearchHotKey cfg |}) |} |})
  /\ (forall cfg h c,
      swaggerui.SwaggerUIDocumentsHandler cfg = Ready h ->
      swaggerui.Template cfg = "" ->
      echo.Param c "*" = "" ->
      h c = echo.Responded
              {| echo.Status := 200;
                 echo.Header := [("Content-Type", "text/html; charset=UTF-8")];
                 echo.Body :=
                   swaggerui.defaultSwaggerUIPage
                     {| swaggerui.Embedded := swaggerui.normalize cfg;
                        swaggerui.BasePath := echo.Request_URL_Path c;
                        swaggerui.SwaggerUIConfiguration :=
                          json.Marshal
                            (swaggerui.conf.swaggerUIConfiguration_json
                               {| swaggerui.conf.Url := (if swaggerui.Spec cfg =? ""
                           then swaggerui.SpecUrl cfg
                           else path.Join [echo.Request_URL_Path c;
                                           "openapi-spec"]);
                                  swaggerui.conf.DomId := "#swagger-ui";
                                  swaggerui.conf.DeepLinking :=
                                    swaggerui.DeepLinking cfg;
                                  swaggerui.conf.DisplayOperationId :=
                                    swaggerui.DisplayOperationId cfg |}) |} |})
  /\ (forall cfg h c,
      redoc.RedocDocumentsHandler cfg = Ready h ->
      redoc.Template cfg = "" ->
      echo.Param c "*" = "" ->
      h c = echo.Responded
              {| echo.Status := 200;
                 echo.Header := [("Content-Type", "text/html; charset=UTF-8")];
                 echo.Body :=
                   redoc.defaultRedocPage
                     {| redoc.params.Embedded := redoc.normalize cfg;
                        redoc.params.BasePath := echo.Request_URL_Path c;
                        redoc.params.SpecUrl := (if redoc.Spec cfg =? ""
                           then redoc.SpecUrl cfg
                           else path.Join [echo.Request_URL_Path c;
                                           "openapi-spec"]) |} |}).
Proof.
  split; [|split; [|split]]; intros cfg h c Hready Htemplate Hrel.
  - apply elements_factory_inv in Hready as (t & Hparse & _ & ->).
    rewrite (elements_builtin cfg t Hparse (or_introl Htemplate)).
    rewrite elements_writes_page by auto.
    unfold specEndpoint, basePath. rewrite Hrel, TrimSuffix_empty.
    now destruct (elements.Spec cfg =? "").
  - apply scalar_factory_inv in Hready as (t & Hparse & _ & ->).
    rewrite (scalar_builtin cfg t Hparse (or_introl Htemplate)).
    rewrite scalar_writes_page by auto.
    unfold specEndpoint, basePath. rewrite Hrel, TrimSuffix_empty.
    now destruct (scalar.Spec cfg =? "").
  - apply swaggerui_factory_inv in Hready as (t & Hparse & _ & ->).
    rewrite (swaggerui_builtin cfg t Hparse (or_introl Htemplate)).
    rewrite swaggerui_writes_page by auto.
    unfold specEndpoint, basePath. rewrite Hrel, TrimSuffix_empty.
    now destruct (swaggerui.Spec cfg =? "").
  - apply redoc_factory_inv in Hready as (t & Hparse & _ & ->).
    rewrite (redoc_builtin cfg t Hparse (or_introl Htemplate)).
    rewrite redoc_writes_page by auto.
    unfold specEndpoint, basePath. rewrite Hrel, TrimSuffix_empty.
    now destruct (redoc.Spec cfg =? "").
Qed.

Lemma lookupParam_missing (name : string) (names values : list string) :
  ~ In name names \/ values = [] ->
  echo.lookupParam name names values = "".
Proof.
  intros [Hnames | ->]; [|now destruct names].
  revert values; induction names as [|n names IH]; intros values;
    [reflexivity|].
  destruct values as [|v values]; [reflexivity|]. cbn.
  destruct (String.eqb_spec n name) as [-> | _].
  - elim Hnames. now left.
  - apply IH. intros Hin. apply Hnames. now right.
Qed.

(** X9: a handler mounted on a route without a wildcard, or reached without
    parameter values, finds no [*] parameter: the remainder is empty, so
    every request counts as one for the mount root and is answered with the
    page, never with a redirect or the specification. *)
Theorem no_wildcard_gets_page :
  (forall cfg h c,
      elements.ElementsDocumentsHandler cfg = Ready h ->
      ~ In "*" (echo.pnames c) \/ echo.pvalues c = [] ->
      match h c with
      | echo.Responded r =>
          echo.Status r = 200%Z
          /\ echo.Header r = [("Content-Type", "text/html; charset=UTF-8")]
      | echo.Failed _ => False
      | echo.Panicked _ =>
          elements.Template cfg <> "" /\ elements.Template cfg <> elements.defaultElementsTemplate
      end)
  /\ (forall cfg h c,
      scalar.ScalarDocumentsHandler cfg = Ready h ->
      ~ In "*" (echo.pnames c) \/ echo.pvalues c = [] ->
      match h c with
      | echo.Responded r =>
          echo.Status r = 200%Z
          /\ echo.Header r = [("Content-Type", "text/html; charset=UTF-8")]
      | echo.Failed _ => False
      | echo.Panicked _ =>
          scalar.Template cfg <> "" /\ scalar.Template cfg <> scalar.defaultScalarTemplate
      end)
  /\ (forall cfg h c,
      swaggerui.SwaggerUIDocumentsHandler cfg = Ready h ->
      ~ In "*" (echo.pnames c) \/ echo.pvalues c = [] ->
      match h c with
      | echo.Responded r =>
          echo.Status r = 200%Z
          /\ echo.Header r = [("Content-Type", "text/html; charset=UTF-8")]
      | echo.Failed _ => False
      | echo.Panicked _ =>
          swaggerui.Template cfg <> "" /\ swaggerui.Template cfg <> swaggerui.defaultSwaggerUITemplate
      end)
  /\ (forall cfg h c,
      redoc.RedocDocumentsHandler cfg = Ready h ->
      ~ In "*" (echo.pnames c) \/ echo.pvalues c = [] ->
      match h c with
      | echo.Responded r =>
          echo.Status r = 200%Z
          /\ echo.Header r = [("Content-Type", "text/html; charset=UTF-8")]
      | echo.Failed _ => False
      | echo.Panicked _ =>
          redoc.Template cfg <> "" /\ redoc.Template cfg <> redoc.defaultRedocTemplate
      end).
Proof.
  split; [|split; [|split]]; intros cfg h c Hready Hmissing;
    apply (lookupParam_missing "*") in Hmissing; fold (echo.Param c "*") in Hmissing.
  - apply elements_factory_inv in Hready as (t & Hparse & _ & ->).
    pose proof (elements_builtin cfg t Hparse) as Hbuiltin.
    rewrite elements_writes_page by auto.
    destruct t as [|t]; cbn [template.ExecutePage wrote]; [now split|].
    destruct (template.Execute t _); cbn; [now split|].
    split; intros E; discriminate Hbuiltin; auto.
  - apply scalar_factory_inv in Hready as (t & Hparse & _ & ->).
    pose proof (scalar_builtin cfg t Hparse) as Hbuiltin.
    rewrite scalar_writes_page by auto.
    destruct t as [|t]; cbn [template.ExecutePage wrote]; [now split|].
    destruct (template.Execute t _); cbn; [now split|].
    split; intros E; discriminate Hbuiltin; auto.
  - apply swaggerui_factory_inv in Hready as (t & Hparse & _ & ->).
    pose proof (swaggerui_builtin cfg t Hparse) as Hbuiltin.
    rewrite swaggerui_writes_page by auto.
    destruct t as [|t]; cbn [template.ExecutePage wrote]; [now split|].
    destruct (template.Execute t _); cbn; [now split|].
    split; intros E; discriminate Hbuiltin; auto.
  - apply redoc_factory_inv in Hready as (t & Hparse & _ & ->).
    pose proof (redoc_builtin cfg t Hparse) as Hbuiltin.
    rewrite redoc_writes_page by auto.
    destruct t as [|t]; cbn [template.ExecutePage wrote]; [now split|].
    destruct (template.Execute t _); cbn; [now split|].
    split; intros E; discriminate Hbuiltin; auto.
Qed.

(** ** An inline specification hides [SpecUrl] *)

(** X10: with [Spec] set and the built-in template, [SpecUrl] is ignored: the
    handler built from a configuration and the handler built from the same
    configuration with any other [SpecUrl] give the same answer to every
    request. *)
Theorem spec_url_ignored_when_inline :
  (forall cfg url h h' c,
      elements.ElementsDocumentsHandler cfg = Ready h ->
      elements.ElementsDocumentsHandler
        {| elements.Spec := elements.Spec cfg;
             elements.SpecUrl := url;
             elements.Title := elements.Title cfg;
             elements.Template := elements.Template cfg;
             elements.Router := elements.Router cfg;
             elements.Layout := elements.Layout cfg;
             elements.HideInternal := elements.HideInternal cfg;
             elements.HideTryIt := elements.HideTryIt cfg;
             elements.HideSchemas := elements.HideSchemas cfg;
             elements.HideExport := elements.HideExport cfg;
             elements.TryItCorsProxy := elements.TryItCorsProxy cfg;
             elements.TryItCredentialsPolicy := elements.TryItCredentialsPolicy cfg;
             elements.Logo := elements.Logo cfg |} = Ready h' ->
      elements.Spec cfg <> "" ->
      elements.Template cfg = "" ->
      h c = h' c)
  /\ (forall cfg url h h' c,
      scalar.ScalarDocumentsHandler cfg = Ready h ->
      scalar.ScalarDocumentsHandler
        {| scalar.Spec := scalar.Spec cfg;
             scalar.SpecUrl := url;
             scalar.Title := scalar.Title cfg;
             scalar.Template := scalar.Template cfg;
             scalar.IsEditable := scalar.IsEditable cfg;
             scalar.ProxyUrl := scalar.ProxyUrl cfg;
             scalar.DarkMode := scalar.DarkMode cfg;
             scalar.Layout := scalar.Layout cfg;
             scalar.Theme := scalar.Theme cfg;
             scalar.HideSidebar := scalar.HideSidebar cfg;
             scalar.SearchHotKey := scalar.SearchHotKey cfg |} = Ready h' ->
      scalar.Spec cfg <> "" ->
      scalar.Template cfg = "" ->
      h c = h' c)
  /\ (forall cfg url h h' c,
      swaggerui.SwaggerUIDocumentsHandler cfg = Ready h ->
      swaggerui.SwaggerUIDocumentsHandler
        {| swaggerui.Spec := swaggerui.Spec cfg;
             swaggerui.SpecUrl := url;
             swaggerui.Title := swaggerui.Title cfg;
             swaggerui.Template := swaggerui.Template cfg;
             swaggerui.DeepLinking := swaggerui.DeepLinking cfg;
             swaggerui.DisplayOperationId := swaggerui.DisplayOperationId cfg |} = Ready h' ->
      swaggerui.Spec cfg <> "" ->
      swaggerui.Template cfg = "" ->
      h c = h' c)
  /\ (forall cfg url h h' c,
      redoc.RedocDocumentsHandler cfg = Ready h ->
      redoc.RedocDocumentsHandler
        {| redoc.Spec := redoc.Spec cfg;
             redoc.SpecUrl := url;
             redoc.Title := redoc.Title cfg;
             redoc.Template := redoc.Template cfg;
             redoc.DisableSearch := redoc.DisableSearch cfg;
             redoc.MinCharacterLengthToInitSearch := redoc.MinCharacterLengthToInitSearch cfg |} = Ready h' ->
      redoc.Spec cfg <> "" ->
      redoc.Template cfg = "" ->
      h c = h' c).
Proof.
  split; [|split; [|split]];
    intros cfg url h h' c Hready Hready' Hspec Htemplate.
  - apply elements_factory_inv in Hready as (t & Hparse & _ & ->).
    apply elements_factory_inv in Hready' as (t' & Hparse' & _ & ->).
    rewrite (elements_builtin _ t Hparse (or_introl Htemplate)).
    rewrite (elements_builtin _ t' Hparse' (or_introl Htemplate)).
    cbn [elements.Spec]. rewrite (eqb_empty_false _ Hspec).
    destruct (elements_answers (elements.normalize cfg) false template.Builtin c)
      as [(_ & Hsuffix & ->) | [(Hpast & Hrouter & Hrel & ->) | (Hpast & _ & _)]].
    + now rewrite elements_serves_spec.
    + now rewrite elements_redirects.
    + destruct (String.eqb_spec (echo.Param c "*") "") as [Hrel | Hrel];
        [|destruct (String.eqb_spec
                      (elements.Router (elements.normalize cfg))
                      elements.ElementsRouterHistory) as [Hrouter | Hrouter]];
        [| |now rewrite !elements_redirects];
        rewrite !elements_writes_page by auto; reflexivity.
  - apply scalar_factory_inv in Hready as (t & Hparse & _ & ->).
    apply scalar_factory_inv in Hready' as (t' & Hparse' & _ & ->).
    rewrite (scalar_builtin _ t Hparse (or_introl Htemplate)).
    rewrite (scalar_builtin _ t' Hparse' (or_introl Htemplate)).
    cbn [scalar.Spec]. rewrite (eqb_empty_false _ Hspec).
    destruct (scalar_answers (scalar.normalize cfg) false template.Builtin c)
      as [(_ & Hsuffix & ->) | [(Hpast & Hrel & ->) | (Hpast & _ & _)]].
    + now rewrite scalar_serves_spec.
    + now rewrite scalar_redirects.
    + destruct (String.eqb_spec (echo.Param c "*") "") as [Hrel | Hrel];
        [|now rewrite !scalar_redirects].
      rewrite !scalar_writes_page by auto. reflexivity.
  - apply swaggerui_factory_inv in Hready as (t & Hparse & _ & ->).
    apply swaggerui_factory_inv in Hready' as (t' & Hparse' & _ & ->).
    rewrite (swaggerui_builtin _ t Hparse (or_introl Htemplate)).
    rewrite (swaggerui_builtin _ t' Hparse' (or_introl Htemplate)).
    cbn [swaggerui.Spec]. rewrite (eqb_empty_false _ Hspec).
    destruct (swaggerui_answers (swaggerui.normalize cfg) false template.Builtin c)
      as [(_ & Hsuffix & ->) | [(Hpast & Hrel & ->) | (Hpast & _ & _)]].
    + now rewrite swaggerui_serves_spec.
    + now rewrite swaggerui_redirects.
    + destruct (String.eqb_spec (echo.Param c "*") "") as [Hrel | Hrel];
        [|now rewrite !swaggerui_redirects].
      rewrite !swaggerui_writes_page by auto. reflexivity.
  - apply redoc_factory_inv in Hready as (t & Hparse & _ & ->).
    apply redoc_factory_inv in Hready' as (t' & Hparse' & _ & ->).
    rewrite (redoc_builtin _ t Hparse (or_introl Htemplate)).
    rewrite (redoc_builtin _ t' Hparse' (or_introl Htemplate)).
    cbn [redoc.Spec]. rewrite (eqb_empty_false _ Hspec).
    destruct (redoc_answers (redoc.normalize cfg) false template.Builtin c)
      as [(_ & Hsuffix & ->) | [(Hpast & Hrel & ->) | (Hpast & _ & _)]].
    + now rewrite redoc_serves_spec.
    + now rewrite redoc_redirects.
    + destruct (String.eqb_spec (echo.Param c "*") "") as [Hrel | Hrel];
        [|now rewrite !redoc_redirects].
      rewrite !redoc_writes_page by auto. reflexivity.
Qed.

(** ** Defaulting *)

(** X11: defaulting is idempotent and leaves no defaulted field empty, so the
    factory builds the same handler from a configuration and from the
    same configuration with its defaults already filled in. *)
Theorem normalize_idempotent :
  (forall cfg,
      elements.normalize (elements.normalize cfg) = elements.normalize cfg
      /\ elements.ElementsDocumentsHandler (elements.normalize cfg)
         = elements.ElementsDocumentsHandler cfg
      /\ elements.Title (elements.normalize cfg) <> ""
      /\ elements.Template (elements.normalize cfg) <> ""
      /\ elements.Router (elements.normalize cfg) <> ""
      /\ elements.Layout (elements.normalize cfg) <> ""
      /\ elements.TryItCredentialsPolicy (elements.normalize cfg) <> "")
  /\ (forall cfg,
      scalar.normalize (scalar.normalize cfg) = scalar.normalize cfg
      /\ scalar.ScalarDocumentsHandler (scalar.normalize cfg)
         = scalar.ScalarDocumentsHandler cfg
      /\ scalar.Title (scalar.normalize cfg) <> ""
      /\ scalar.Template (scalar.normalize cfg) <> "")
  /\ (forall cfg,
      swaggerui.normalize (swaggerui.normalize cfg) = swaggerui.normalize cfg
      /\ swaggerui.SwaggerUIDocumentsHandler (swaggerui.normalize cfg)
         = swaggerui.SwaggerUIDocumentsHandler cfg
      /\ swaggerui.Title (swaggerui.normalize cfg) <> ""
      /\ swaggerui.Template (swaggerui.normalize cfg) <> "")
  /\ (forall cfg,
      redoc.normalize (redoc.normalize cfg) = redoc.normalize cfg
      /\ redoc.RedocDocumentsHandler (redoc.normalize cfg)
         = redoc.RedocDocumentsHandler cfg
      /\ redoc.Title (redoc.normalize cfg) <> ""
      /\ redoc.Template (redoc.normalize cfg) <> "").
Proof.
  split; [|split; [|split]]; intros cfg.
  -
    assert ((elements.Title (elements.normalize cfg) =? "") = false) as HTitle
        by (cbn [elements.normalize elements.Title];
            destruct (elements.Title cfg =? "") eqn:E; [reflexivity | exact E]).
    assert ((elements.Template (elements.normalize cfg) =? "") = false) as HTemplate
        by (cbn [elements.normalize elements.Template];
            destruct (elements.Template cfg =? "") eqn:E; [reflexivity | exact E]).
    assert ((elements.Router (elements.normalize cfg) =? "") = false) as HRouter
        by (cbn [elements.normalize elements.Router];
            destruct (elements.Router cfg =? "") eqn:E; [reflexivity | exact E]).
    assert ((elements.Layout (elements.normalize cfg) =? "") = false) as HLayout
        by (cbn [elements.normalize elements.Layout];
            destruct (elements.Layout cfg =? "") eqn:E; [reflexivity | exact E]).
    assert ((elements.TryItCredentialsPolicy (elements.normalize cfg) =? "") = false) as HTryItCredentialsPolicy
        by (cbn [elements.normalize elements.TryItCredentialsPolicy];
            destruct (elements.TryItCredentialsPolicy cfg =? "") eqn:E; [reflexivity | exact E]).
    assert (elements.normalize (elements.normalize cfg) = elements.normalize cfg)
      as Hidem.
    { revert HTitle HTemplate HRouter HLayout HTryItCredentialsPolicy. generalize (elements.normalize cfg) as n.
      intros n HTitle HTemplate HRouter HLayout HTryItCredentialsPolicy. unfold elements.normalize.
      rewrite HTitle, HTemplate, HRouter, HLayout, HTryItCredentialsPolicy. now destruct n. }
    split; [exact Hidem|]. split.
    + unfold elements.ElementsDocumentsHandler. now rewrite Hidem.
    + repeat split; now apply String.eqb_neq.
  -
    assert ((scalar.Title (scalar.normalize cfg) =? "") = false) as HTitle
        by (cbn [scalar.normalize scalar.Title];
            destruct (scalar.Title cfg =? "") eqn:E; [reflexivity | exact E]).
    assert ((scalar.Template (scalar.normalize cfg) =? "") = false) as HTemplate
        by (cbn [scalar.normalize scalar.Template];
            destruct (scalar.Template cfg =? "") eqn:E; [reflexivity | exact E]).
    assert (scalar.normalize (scalar.normalize cfg) = scalar.normalize cfg)
      as Hidem.
    { revert HTitle HTemplate. generalize (scalar.normalize cfg) as n.
      intros n HTitle HTemplate. unfold scalar.normalize.
      rewrite HTitle, HTemplate. now destruct n. }
    split; [exact Hidem|]. split.
    + unfold scalar.ScalarDocumentsHandler. now rewrite Hidem.
    + repeat split; now apply String.eqb_neq.
  -
    assert ((swaggerui.Title (swaggerui.normalize cfg) =? "") = false) as HTitle
        by (cbn [swaggerui.normalize swaggerui.Title];
            destruct (swaggerui.Title cfg =? "") eqn:E; [reflexivity | exact E]).
    assert ((swaggerui.Template (swaggerui.normalize cfg) =? "") = false) as HTemplate
        by (cbn [swaggerui.normalize swaggerui.Template];
            destruct (swaggerui.Template cfg =? "") eqn:E; [reflexivity | exact E]).
    assert (swaggerui.normalize (swaggerui.normalize cfg) = swaggerui.normalize cfg)
      as Hidem.
    { revert HTitle HTemplate. generalize (swaggerui.normalize cfg) as n.
      intros n HTitle HTemplate. unfold swaggerui.normalize.
      rewrite HTitle, HTemplate. now destruct n. }
    split; [exact Hidem|]. split.
    + unfold swaggerui.SwaggerUIDocumentsHandler. now rewrite Hidem.
    + repeat split; now apply String.eqb_neq.
  -
    assert ((redoc.Title (redoc.normalize cfg) =? "") = false) as HTitle
        by (cbn [redoc.normalize redoc.Title];
            destruct (redoc.Title cfg =? "") eqn:E; [reflexivity | exact E]).
    assert ((redoc.Template (redoc.normalize cfg) =? "") = false) as HTemplate
        by (cbn [redoc.normalize redoc.Template];
            destruct (redoc.Template cfg =? "") eqn:E; [reflexivity | exact E]).
    assert (redoc.normalize (redoc.normalize cfg) = redoc.normalize cfg)
      as Hidem.
    { revert HTitle HTemplate. generalize (redoc.normalize cfg) as n.
      intros n HTitle HTemplate. unfold redoc.normalize.
      rewrite HTitle, HTemplate. now destruct n. }
    split; [exact Hidem|]. split.
    + unfold redoc.RedocDocumentsHandler. now rewrite Hidem.
    + repeat split; now apply String.eqb_neq.
Qed.

Lemma elements_factory_parsed cfg :
  elements.Spec cfg <> "" \/ elements.SpecUrl cfg <> "" ->
  elements.ElementsDocumentsHandler cfg
  = match template.ParsePage elements.defaultElementsTemplate
            (elements.Template (elements.normalize cfg)) with
    | inl t => Ready (elements.handlerFunc (elements.normalize cfg)
                        (elements.Spec cfg =? "") t)
    | inr err => Panic err
    end.
Proof.
  intros Hsource. unfold elements.ElementsDocumentsHandler.
  cbn [elements.normalize elements.Spec elements.SpecUrl].
  assert ((if elements.Spec cfg =? "" then
             if elements.SpecUrl cfg =? ""
             then Panic "either Spec or SpecUrl must be set"
             else Ready true
           else Ready false) = Ready (elements.Spec cfg =? "")) as ->.
  { destruct (elements.Spec cfg =? "") eqn:Hspec; [|reflexivity].
    destruct Hsource as [Hs | Hu].
    - apply eqb_empty_false in Hs. congruence.
    - now rewrite (eqb_empty_false _ Hu). }
  cbn [bind]. now destruct (template.ParsePage _ _).
Qed.

Lemma scalar_factory_parsed cfg :
  scalar.Spec cfg <> "" \/ scalar.SpecUrl cfg <> "" ->
  scalar.ScalarDocumentsHandler cfg
  = match template.ParsePage scalar.defaultScalarTemplate
            (scalar.Template (scalar.normalize cfg)) with
    | inl t => Ready (scalar.handlerFunc (scalar.normalize cfg)
                        (scalar.Spec cfg =? "") t)
    | inr err => Panic err
    end.
Proof.
  intros Hsource. unfold scalar.ScalarDocumentsHandler.
  cbn [scalar.normalize scalar.Spec scalar.SpecUrl].
  assert ((if scalar.Spec cfg =? "" then
             if scalar.SpecUrl cfg =? ""
             then Panic "either Spec or SpecUrl must be set"
             else Ready true
           else Ready false) = Ready (scalar.Spec cfg =? "")) as ->.
  { destruct (scalar.Spec cfg =? "") eqn:Hspec; [|reflexivity].
    destruct Hsource as [Hs | Hu].
    - apply eqb_empty_false in Hs. congruence.
    - now rewrite (eqb_empty_false _ Hu). }
  cbn [bind]. now destruct (template.ParsePage _ _).
Qed.

Lemma swaggerui_factory_parsed cfg :
  swaggerui.Spec cfg <> "" \/ swaggerui.SpecUrl cfg <> "" ->
  swaggerui.SwaggerUIDocumentsHandler cfg
  = match template.ParsePage swaggerui.defaultSwaggerUITemplate
            (swaggerui.Template (swaggerui.normalize cfg)) with
    | inl t => Ready (swaggerui.handlerFunc (swaggerui.normalize cfg)
                        (swaggerui.Spec cfg =? "") t)
    | inr err => Panic err
    end.
Proof.
  intros Hsource. unfold swaggerui.SwaggerUIDocumentsHandler.
  cbn [swaggerui.normalize swaggerui.Spec swaggerui.SpecUrl].
  assert ((if swaggerui.Spec cfg =? "" then
             if swaggerui.SpecUrl cfg =? ""
             then Panic "either Spec or SpecUrl must be set"
             else Ready true
           else Ready false) = Ready (swaggerui.Spec cfg =? "")) as ->.
  { destruct (swaggerui.Spec cfg =? "") eqn:Hspec; [|reflexivity].
    destruct Hsource as [Hs | Hu].
    - apply eqb_empty_false in Hs. congruence.
    - now rewrite (eqb_empty_false _ Hu). }
  cbn [bind]. now destruct (template.ParsePage _ _).
Qed.

Lemma redoc_factory_parsed cfg :
  redoc.Spec cfg <> "" \/ redoc.SpecUrl cfg <> "" ->
  redoc.RedocDocumentsHandler cfg
  = match template.ParsePage redoc.defaultRedocTemplate
            (redoc.Template (redoc.normalize cfg)) with
    | inl t => Ready (redoc.handlerFunc (redoc.normalize cfg)
                        (redoc.Spec cfg =? "") t)
    | inr err => Panic err
    end.
Proof.
  intros Hsource. unfold redoc.RedocDocumentsHandler.
  cbn [redoc.normalize redoc.Spec redoc.SpecUrl].
  assert ((if redoc.Spec cfg =? "" then
             if redoc.SpecUrl cfg =? ""
             then Panic "either Spec or SpecUrl must be set"
             else Ready true
           else Ready false) = Ready (redoc.Spec cfg =? "")) as ->.
  { destruct (redoc.Spec cfg =? "") eqn:Hspec; [|reflexivity].
    destruct Hsource as [Hs | Hu].
    - apply eqb_empty_false in Hs. congruence.
    - now rewrite (eqb_empty_false _ Hu). }
  cbn [bind]. now destruct (template.ParsePage _ _).
Qed.

(** ** Construction *)

(** X12: with a specification source set, a factory fails only on its template:
    it returns the closure over the built-in page when [Template] is left
    empty, panics with the parse error of a template that does not parse,
    and returns the closure over the parsed template otherwise. *)
Theorem factory_fails_only_on_template :
  (forall cfg,
      elements.Spec cfg <> "" \/ elements.SpecUrl cfg <> "" ->
      (elements.Template cfg = "" ->
       elements.ElementsDocumentsHandler cfg
       = Ready (elements.handlerFunc (elements.normalize cfg)
                  (elements.Spec cfg =? "") template.Builtin))
      /\ (forall err,
           elements.Template cfg <> "" ->
           elements.Template cfg <> elements.defaultElementsTemplate ->
           template.Parse (elements.Template cfg) = inr err ->
           elements.ElementsDocumentsHandler cfg = Panic err)
      /\ (forall t,
           elements.Template cfg <> "" ->
           elements.Template cfg <> elements.defaultElementsTemplate ->
           template.Parse (elements.Template cfg) = inl t ->
           elements.ElementsDocumentsHandler cfg
           = Ready (elements.handlerFunc (elements.normalize cfg)
                      (elements.Spec cfg =? "") (template.Parsed t))))
  /\ (forall cfg,
      scalar.Spec cfg <> "" \/ scalar.SpecUrl cfg <> "" ->
      (scalar.Template cfg = "" ->
       scalar.ScalarDocumentsHandler cfg
       = Ready (scalar.handlerFunc (scalar.normalize cfg)
                  (scalar.Spec cfg =? "") template.Builtin))
      /\ (forall err,
           scalar.Template cfg <> "" ->
           scalar.Template cfg <> scalar.defaultScalarTemplate ->
           template.Parse (scalar.Template cfg) = inr err ->
           scalar.ScalarDocumentsHandler cfg = Panic err)
      /\ (forall t,
           scalar.Template cfg <> "" ->
           scalar.Template cfg <> scalar.defaultScalarTemplate ->
           template.Parse (scalar.Template cfg) = inl t ->
           scalar.ScalarDocumentsHandler cfg
           = Ready (scalar.handlerFunc (scalar.normalize cfg)
                      (scalar.Spec cfg =? "") (template.Parsed t))))
  /\ (forall cfg,
      swaggerui.Spec cfg <> "" \/ swaggerui.SpecUrl cfg <> "" ->
      (swaggerui.Template cfg = "" ->
       swaggerui.SwaggerUIDocumentsHandler cfg
       = Ready (swaggerui.handlerFunc (swaggerui.normalize cfg)
                  (swaggerui.Spec cfg =? "") template.Builtin))
      /\ (forall err,
           swaggerui.Template cfg <> "" ->
           swaggerui.Template cfg <> swaggerui.defaultSwaggerUITemplate ->
           template.Parse (swaggerui.Template cfg) = inr err ->
           swaggerui.SwaggerUIDocumentsHandler cfg = Panic err)
      /\ (forall t,
           swaggerui.Template cfg <> "" ->
           swaggerui.Template cfg <> swaggerui.defaultSwaggerUITemplate ->
           template.Parse (swaggerui.Template cfg) = inl t ->
           swaggerui.SwaggerUIDocumentsHandler cfg
           = Ready (swaggerui.handlerFunc (swaggerui.normalize cfg)
                      (swaggerui.Spec cfg =? "") (template.Parsed t))))
  /\ (forall cfg,
      redoc.Spec cfg <> "" \/ redoc.SpecUrl cfg <> "" ->
      (redoc.Template cfg = "" ->
       redoc.RedocDocumentsHandler cfg
       = Ready (redoc.handlerFunc (redoc.normalize cfg)
                  (redoc.Spec cfg =? "") template.Builtin))
      /\ (forall err,
           redoc.Template cfg <> "" ->
           redoc.Template cfg <> redoc.defaultRedocTemplate ->
           template.Parse (redoc.Template cfg) = inr err ->
           redoc.RedocDocumentsHandler cfg = Panic err)
      /\ (forall t,
           redoc.Template cfg <> "" ->
           redoc.Template cfg <> redoc.defaultRedocTemplate ->
           template.Parse (redoc.Template cfg) = inl t ->
           redoc.RedocDocumentsHandler cfg
           = Ready (redoc.handlerFunc (redoc.normalize cfg)
                      (redoc.Spec cfg =? "") (template.Parsed t)))).
Proof.
  split; [|split; [|split]]; intros cfg Hsource.
  - rewrite (elements_factory_parsed cfg Hsource). repeat split.
    + intros Ht. cbn [elements.normalize elements.Template]. rewrite Ht.
      cbn [String.eqb]. cbn [elements.DefaultElementsConfig elements.Template].
      now rewrite ParsePage_builtin.
    + intros err Hne Hcustom Hparse.
      cbn [elements.normalize elements.Template].
      rewrite (eqb_empty_false _ Hne). unfold template.ParsePage.
      apply String.eqb_neq in Hcustom. now rewrite Hcustom, Hparse.
    + intros t Hne Hcustom Hparse.
      cbn [elements.normalize elements.Template].
      rewrite (eqb_empty_false _ Hne). unfold template.ParsePage.
      apply String.eqb_neq in Hcustom. now rewrite Hcustom, Hparse.
  - rewrite (scalar_factory_parsed cfg Hsource). repeat split.
    + intros Ht. cbn [scalar.normalize scalar.Template]. rewrite Ht.
      cbn [String.eqb]. cbn [scalar.DefaultScalarConfig scalar.Template].
      now rewrite ParsePage_builtin.
    + intros err Hne Hcustom Hparse.
      cbn [scalar.normalize scalar.Template].
      rewrite (eqb_empty_false _ Hne). unfold template.ParsePage.
      apply String.eqb_neq in Hcustom. now rewrite Hcustom, Hparse.
    + intros t Hne Hcustom Hparse.
      cbn [scalar.normalize scalar.Template].
      rewrite (eqb_empty_false _ Hne). unfold template.ParsePage.
      apply String.eqb_neq in Hcustom. now rewrite Hcustom, Hparse.
  - rewrite (swaggerui_factory_parsed cfg Hsource). repeat split.
    + intros Ht. cbn [swaggerui.normalize swaggerui.Template]. rewrite Ht.
      cbn [String.eqb]. cbn [swaggerui.DefaultSwaggerUIConfig swaggerui.Template].
      now rewrite ParsePage_builtin.
    + intros err Hne Hcustom Hparse.
      cbn [swaggerui.normalize swaggerui.Template].
      rewrite (eqb_empty_false _ Hne). unfold template.ParsePage.
      apply String.eqb_neq in Hcustom. now rewrite Hcustom, Hparse.
    + intros t Hne Hcustom Hparse.
      cbn [swaggerui.normalize swaggerui.Template].
      rewrite (eqb_empty_false _ Hne). unfold template.ParsePage.
      apply String.eqb_neq in Hcustom. now rewrite Hcustom, Hparse.
  - rewrite (redoc_factory_parsed cfg Hsource). repeat split.
    + intros Ht. cbn [redoc.normalize redoc.Template]. rewrite Ht.
      cbn [String.eqb]. cbn [redoc.DefaultRedocConfig redoc.Template].
      now rewrite ParsePage_builtin.
    + intros err Hne Hcustom Hparse.
      cbn [redoc.normalize redoc.Template].
      rewrite (eqb_empty_false _ Hne). unfold template.ParsePage.
      apply String.eqb_neq in Hcustom. now rewrite Hcustom, Hparse.
    + intros t Hne Hcustom Hparse.
      cbn [redoc.normalize redoc.Template].
      rewrite (eqb_empty_false _ Hne). unfold template.ParsePage.
      apply String.eqb_neq in Hcustom. now rewrite Hcustom, Hparse.
Qed.

(** ** The example program *)

(** X13: [main] of the example registers its eight routes, and so reaches
    [e.Start], exactly when the embedded specification is not empty; with
    an empty one the first registration panics.  The routes are the eight
    [GET] wildcard routes of the program, the latest first, each with the
    closure over the built-in page. *)
Theorem example_main_routes (OpenAPISpecGithub : string) :
  (OpenAPISpecGithub = "" ->
   examples.main OpenAPISpecGithub
   = Panic "either Spec or SpecUrl must be set")
  /\ (OpenAPISpecGithub <> "" ->
      examples.main OpenAPISpecGithub
      = Ready
          [ {| echo.Method := "GET";
             echo.Path := "/docs/redoc/openai*";
             echo.Handler :=
               redoc.handlerFunc
                 (redoc.normalize (examples.redocConfig "" examples.openai "OpenAI API"))
                 true template.Builtin |};
          {| echo.Method := "GET";
             echo.Path := "/docs/redoc/github*";
             echo.Handler :=
               redoc.handlerFunc
                 (redoc.normalize (examples.redocConfig OpenAPISpecGithub "" "GitHub v3 REST API"))
                 false template.Builtin |};
          {| echo.Method := "GET";
             echo.Path := "/docs/swagger-ui/openai*";
             echo.Handler :=
               swaggerui.handlerFunc
                 (swaggerui.normalize (examples.swaggerUIConfig "" examples.openai "OpenAI API"))
                 true template.Builtin |};
          {| echo.Method := "GET";
             echo.Path := "/docs/swagger-ui/github*";
             echo.Handler :=
               swaggerui.handlerFunc
                 (swaggerui.normalize (examples.swaggerUIConfig OpenAPISpecGithub "" "GitHub v3 REST API"))
                 false template.Builtin |};
          {| echo.Method := "GET";
             echo.Path := "/docs/scalar/openai*";
             echo.Handler :=
               scalar.handlerFunc
                 (scalar.normalize (examples.scalarConfig "" examples.openai "OpenAI API"))
                 true template.Builtin |};
          {| echo.Method := "GET";
             echo.Path := "/docs/scalar/github*";
             echo.Handler :=
               scalar.handlerFunc
                 (scalar.normalize (examples.scalarConfig OpenAPISpecGithub "" "GitHub v3 REST API"))
                 false template.Builtin |};
          {| echo.Method := "GET";
             echo.Path := "/docs/elements/openai*";
             echo.Handler :=
               elements.handlerFunc
                 (elements.normalize (examples.elementsConfig "" examples.openai "OpenAI API"))
                 true template.Builtin |};
          {| echo.Method := "GET";
             echo.Path := "/docs/elements/github*";
             echo.Handler :=
               elements.handlerFunc
                 (elements.normalize (examples.elementsConfig OpenAPISpecGithub "" "GitHub v3 REST API"))
                 false template.Builtin |} ]).
Proof.
  split.
  - intros ->. reflexivity.
  - intros Hspec. unfold examples.main. cbv zeta.
    unfold elements.ElementsDocuments, scalar.ScalarDocuments,
      swaggerui.SwaggerUIDocuments, redoc.RedocDocuments.
    rewrite !elements_factory_parsed, !scalar_factory_parsed,
      !swaggerui_factory_parsed, !redoc_factory_parsed
      by (first [left; exact Hspec | right; discriminate]).
    cbn [elements.normalize elements.Template examples.elementsConfig
         scalar.normalize scalar.Template examples.scalarConfig
         swaggerui.normalize swaggerui.Template examples.swaggerUIConfig
         redoc.normalize redoc.Template examples.redocConfig
         elements.Spec scalar.Spec swaggerui.Spec redoc.Spec
         String.eqb
         elements.DefaultElementsConfig scalar.DefaultScalarConfig
         swaggerui.DefaultSwaggerUIConfig redoc.DefaultRedocConfig].
    rewrite !ParsePage_builtin. cbn [bind].
    rewrite (eqb_empty_false _ Hspec). reflexivity.
Qed.

Lemma endpoint_under_root (root relPath : string) (c : echo.Context) :
  path.Join [root; "openapi-spec"] = root ++ relPath ->
  echo.Request_URL_Path c = root ++ relPath ->
  echo.Param c "*" = relPath ->
  strings.HasSuffix (echo.Request_URL_Path c) (specEndpoint c) = true.
Proof.
  intros Hjoin Hpath Hparam. unfold specEndpoint, basePath.
  rewrite Hpath, Hparam, TrimSuffix_append, Hjoin. apply HasSuffix_refl.
Qed.

(** X14: mounted at a root made of plain names, as in the README and the
    example, with or without a slash at the end of the prefix, the page
    refers to the root followed by [/openapi-spec], and a request for that
    path is answered with the inline specification. *)
Theorem plain_mount_serves_its_reference :
  (forall n names,
      Forall plainName (n :: names) ->
      path.Join [joinNames (n :: names); "openapi-spec"]
      = joinNames (n :: names) ++ "/openapi-spec"
      /\ path.Join [joinNames (n :: names) ++ "/"; "openapi-spec"]
         = joinNames (n :: names) ++ "/openapi-spec")
  /\ (forall cfg h n names c,
      elements.ElementsDocumentsHandler cfg = Ready h ->
      elements.Spec cfg <> "" ->
      Forall plainName (n :: names) ->
      echo.Request_URL_Path c = joinNames (n :: names) ++ "/openapi-spec" ->
      echo.Param c "*" = "/openapi-spec" \/ echo.Param c "*" = "openapi-spec" ->
      h c = echo.Responded
              {| echo.Status := 200;
                 echo.Header := [("Content-Type", "text/plain; charset=utf-8")];
                 echo.Body := elements.Spec cfg |})
  /\ (forall cfg h n names c,
      scalar.ScalarDocumentsHandler cfg = Ready h ->
      scalar.Spec cfg <> "" ->
      Forall plainName (n :: names) ->
      echo.Request_URL_Path c = joinNames (n :: names) ++ "/openapi-spec" ->
      echo.Param c "*" = "/openapi-spec" \/ echo.Param c "*" = "openapi-spec" ->
      h c = echo.Responded
              {| echo.Status := 200;
                 echo.Header := [("Content-Type", "text/plain; charset=utf-8")];
                 echo.Body := scalar.Spec cfg |})
  /\ (forall cfg h n names c,
      swaggerui.SwaggerUIDocumentsHandler cfg = Ready h ->
      swaggerui.Spec cfg <> "" ->
      Forall plainName (n :: names) ->
      echo.Request_URL_Path c = joinNames (n :: names) ++ "/openapi-spec" ->
      echo.Param c "*" = "/openapi-spec" \/ echo.Param c "*" = "openapi-spec" ->
      h c = echo.Responded
              {| echo.Status := 200;
                 echo.Header := [("Content-Type", "text/plain; charset=utf-8")];
                 echo.Body := swaggerui.Spec cfg |})
  /\ (forall cfg h n names c,
      redoc.RedocDocumentsHandler cfg = Ready h ->
      redoc.Spec cfg <> "" ->
      Forall plainName (n :: names) ->
      echo.Request_URL_Path c = joinNames (n :: names) ++ "/openapi-spec" ->
      echo.Param c "*" = "/openapi-spec" \/ echo.Param c "*" = "openapi-spec" ->
      h c = echo.Responded
              {| echo.Status := 200;
                 echo.Header := [("Content-Type", "text/plain; charset=utf-8")];
                 echo.Body := redoc.Spec cfg |}).
Proof.
  split; [intros n names; apply Join_plain_root|].
  split; [|split; [|split]];
    intros cfg h n names c Hready Hspec Hplain Hpath Hparam;
    destruct (Join_plain_root n names Hplain) as [Hroot Hslash];
    assert (strings.HasSuffix (echo.Request_URL_Path c) (specEndpoint c) = true)
      as Hsuffix
      by (destruct Hparam as [Hparam | Hparam];
          [ apply (endpoint_under_root (joinNames (n :: names))
                     "/openapi-spec"); assumption
          | apply (endpoint_under_root (joinNames (n :: names) ++ "/")
                     "openapi-spec");
            [ now rewrite Hslash, append_assoc
            | now rewrite Hpath, append_assoc
            | assumption ] ]).
  - apply elements_factory_inv in Hready as (t & _ & _ & ->).
    rewrite (eqb_empty_false _ Hspec).
    now rewrite elements_serves_spec.
  - apply scalar_factory_inv in Hready as (t & _ & _ & ->).
    rewrite (eqb_empty_false _ Hspec).
    now rewrite scalar_serves_spec.
  - apply swaggerui_factory_inv in Hready as (t & _ & _ & ->).
    rewrite (eqb_empty_false _ Hspec).
    now rewrite swaggerui_serves_spec.
  - apply redoc_factory_inv in Hready as (t & _ & _ & ->).
    rewrite (eqb_empty_false _ Hspec).
    now rewrite redoc_serves_spec.
Qed.

End Further.

(** ** The further properties on concrete requests *)

Lemma endpoint_shape_witness :
  exists r, path.Join ["/docs/../api/"; "openapi-spec"] = String "/" r.
Proof. apply (proj2 (endpoint_shape "/docs/../api/") "docs/../api/"). reflexivity. Defined.

Lemma handler_answers_or_template_panics_witness :
  exists r,
    scalar.handlerFunc (H := reference.lib)
      (scalar.normalize (reference.scalarWith "" reference.specUrl))
      true template.Builtin (reference.get "/docs/anything" "/anything")
    = echo.Responded r
    /\ (echo.Status r = 200%Z
        \/ (echo.Status r = 302%Z
            /\ echo.Header r = [("Location", "/docs")]
            /\ echo.Body r = "")).
Proof.
  pose proof (proj1 (proj2 (handler_answers_or_template_panics
                              (L := reference.lib)))
                (reference.scalarWith "" reference.specUrl) _
                (reference.get "/docs/anything" "/anything") eq_refl) as H.
  destruct (scalar.handlerFunc _ _ _ _) as [r | e | v] eqn:E.
  - exists r. split; [reflexivity | exact H].
  - contradiction.
  - destruct H as [H _]. now elim H.
Defined.

Lemma redirect_location_is_prefix_witness :
  exists location rest,
    [("Location", "/docs")] = [("Location", location)]
    /\ "/docs/anything" = location ++ rest.
Proof.
  exact (proj1 (proj2 (redirect_location_is_prefix (L := reference.lib)))
           (reference.scalarWith "" reference.specUrl)
           (scalar.handlerFunc
              (scalar.normalize (reference.scalarWith "" reference.specUrl))
              true template.Builtin)
           (reference.get "/docs/anything" "/anything")
           {| echo.Status := 302;
              echo.Header := [("Location", "/docs")];
              echo.Body := "" |}
           eq_refl eq_refl eq_refl).
Defined.

Lemma url_config_serves_no_spec_witness :
  [("Location", "/docs")] <> [("Content-Type", "text/plain; charset=utf-8")].
Proof.
  exact (proj1 (proj2 (url_config_serves_no_spec (L := reference.lib)))
           (reference.scalarWith "" reference.specUrl)
           (scalar.handlerFunc
              (scalar.normalize (reference.scalarWith "" reference.specUrl))
              true template.Builtin)
           (reference.get "/docs/openapi-spec" "/openapi-spec")
           {| echo.Status := 302;
              echo.Header := [("Location", "/docs")];
              echo.Body := "" |}
           eq_refl eq_refl eq_refl).
Defined.

Lemma elements_other_router_redirects_witness :
  elements.handlerFunc (H := reference.lib)
    (elements.normalize
       {| elements.Spec := "";
          elements.SpecUrl := reference.specUrl;
          elements.Title := "";
          elements.Template := "";
          elements.Router := elements.ElementsRouterHash;
          elements.Layout := "";
          elements.HideInternal := false;
          elements.HideTryIt := false;
          elements.HideSchemas := false;
          elements.HideExport := false;
          elements.TryItCorsProxy := "";
          elements.TryItCredentialsPolicy := "";
          elements.Logo := "" |})
    true template.Builtin (reference.get "/docs/anything" "/anything")
  = echo.Responded
      {| echo.Status := 302;
         echo.Header := [("Location", "/docs")];
         echo.Body := "" |}.
Proof.
  apply (elements_other_router_redirects (L := reference.lib)
           {| elements.Spec := "";
              elements.SpecUrl := reference.specUrl;
              elements.Title := "";
              elements.Template := "";
              elements.Router := elements.ElementsRouterHash;
              elements.Layout := "";
              elements.HideInternal := false;
              elements.HideTryIt := false;
              elements.HideSchemas := false;
              elements.HideExport := false;
              elements.TryItCorsProxy := "";
              elements.TryItCredentialsPolicy := "";
              elements.Logo := "" |} _
           (reference.get "/docs/anything" "/anything"));
    [reflexivity | discriminate | discriminate | discriminate
    | left; reflexivity].
Defined.

Lemma unmatched_remainder_redirects_to_itself_witness :
  redoc.handlerFunc (H := reference.lib)
    (redoc.normalize (reference.redocWith "" reference.specUrl))
    true template.Builtin (reference.get "/docs/a%20b" "/a b")
  = echo.Responded
      {| echo.Status := 302;
         echo.Header := [("Location", "/docs/a%20b")];
         echo.Body := "" |}.
Proof.
  apply (proj2 (proj2 (proj2 (unmatched_remainder_redirects_to_itself
                                (L := reference.lib))))
           (reference.redocWith "" reference.specUrl) _
           (reference.get "/docs/a%20b" "/a b"));
    [reflexivity | discriminate | reflexivity].
Defined.

Lemma redirect_lands_on_page_witness :
  swaggerui.handlerFunc (H := reference.lib)
    (swaggerui.normalize (reference.swaggeruiWith reference.inlineSpec ""))
    false template.Builtin (reference.get "/docs/anything" "/anything")
  = echo.Responded
      {| echo.Status := 302;
         echo.Header := [("Location", "/docs")];
         echo.Body := "" |}
  /\ exists r,
      swaggerui.handlerFunc (H := reference.lib)
        (swaggerui.normalize (reference.swaggeruiWith reference.inlineSpec ""))
        false template.Builtin (reference.get "/docs" "")
      = echo.Responded r
      /\ echo.Status r = 200%Z.
Proof.
  destruct (proj1 (proj2 (proj2 (redirect_lands_on_page
                                   (L := reference.lib))))
              (reference.swaggeruiWith reference.inlineSpec "") _
              "/docs" "/anything"
              (reference.get "/docs/anything" "/anything") eq_refl)
    as [Hredirect Hpage];
    [discriminate | reflexivity | reflexivity | right; reflexivity |].
  split; [exact Hredirect|].
  specialize (Hpage (reference.get "/docs" "") eq_refl eq_refl).
  destruct (swaggerui.handlerFunc _ _ _ (reference.get "/docs" ""))
    as [r | e | v].
  - exists r. split; [reflexivity | apply Hpage].
  - contradiction.
  - destruct Hpage as [H _]. now elim H.
Defined.

Lemma mount_root_gets_builtin_page_witness :
  elements.handlerFunc (H := reference.lib)
    (elements.normalize (reference.elementsWith reference.inlineSpec ""))
    false template.Builtin (reference.get "/docs/" "")
  = echo.Responded
      {| echo.Status := 200;
         echo.Header := [("Content-Type", "text/html; charset=UTF-8")];
         echo.Body :=
           elements.defaultElementsPage (H := reference.lib)
             {| elements.Embedded :=
                  elements.normalize
                    (reference.elementsWith reference.inlineSpec "");
                elements.BasePath := "/docs/";
                elements.ApiDescriptionUrl := "/docs/openapi-spec" |} |}.
Proof.
  apply (proj1 (mount_root_gets_builtin_page (L := reference.lib))
           (reference.elementsWith reference.inlineSpec "") _
           (reference.get "/docs/" "")); reflexivity.
Defined.

Lemma no_wildcard_gets_page_witness :
  exists r,
    scalar.handlerFunc (H := reference.lib)
      (scalar.normalize (reference.scalarWith "" reference.specUrl))
      true template.Builtin
      {| echo.Request_Method := "GET";
         echo.Request_URL_Path := "/reference/anything";
         echo.Request_URL_RawQuery := "";
         echo.Request_Header := [];
         echo.pnames := [];
         echo.pvalues := [] |}
    = echo.Responded r
    /\ echo.Status r = 200%Z.
Proof.
  pose proof (proj1 (proj2 (no_wildcard_gets_page (L := reference.lib)))
                (reference.scalarWith "" reference.specUrl) _
                {| echo.Request_Method := "GET";
                   echo.Request_URL_Path := "/reference/anything";
                   echo.Request_URL_RawQuery := "";
                   echo.Request_Header := [];
                   echo.pnames := [];
                   echo.pvalues := [] |}
                eq_refl (or_intror eq_refl)) as H.
  destruct (scalar.handlerFunc _ _ _ _) as [r | e | v].
  - exists r. split; [reflexivity | apply H].
  - contradiction.
  - destruct H as [H _]. now elim H.
Defined.

Lemma spec_url_ignored_when_inline_witness :
  scalar.handlerFunc (H := reference.lib)
    (scalar.normalize (reference.scalarWith reference.inlineSpec ""))
    false template.Builtin (reference.get "/docs" "")
  = scalar.handlerFunc (H := reference.lib)
      (scalar.normalize
         (reference.scalarWith reference.inlineSpec reference.specUrl))
      false template.Builtin (reference.get "/docs" "").
Proof.
  apply (proj1 (proj2 (spec_url_ignored_when_inline (L := reference.lib)))
           (reference.scalarWith reference.inlineSpec "") reference.specUrl
           _ _ (reference.get "/docs" ""));
    [reflexivity | reflexivity | discriminate | reflexivity].
Defined.

Lemma normalize_idempotent_witness :
  elements.Router
    (elements.normalize (reference.elementsWith "" reference.specUrl))
  <> "".
Proof.
  apply (proj1 (normalize_idempotent (L := reference.lib))
           (reference.elementsWith "" reference.specUrl)).
Defined.

Lemma factory_fails_only_on_template_witness :
  redoc.RedocDocumentsHandler (H := reference.lib)
    {| redoc.Spec := reference.inlineSpec;
       redoc.SpecUrl := "";
       redoc.Title := "";
       redoc.Template := "<title>{{ .Title </title>";
       redoc.DisableSearch := false;
       redoc.MinCharacterLengthToInitSearch := 0 |}
  = Panic "actions are not supported".
Proof.
  apply (proj2 (proj2 (proj2 (factory_fails_only_on_template
                                (L := reference.lib))))
           {| redoc.Spec := reference.inlineSpec;
              redoc.SpecUrl := "";
              redoc.Title := "";
              redoc.Template := "<title>{{ .Title </title>";
              redoc.DisableSearch := false;
              redoc.MinCharacterLengthToInitSearch := 0 |});
    [left; discriminate | discriminate | discriminate | reflexivity].
Defined.

Lemma example_main_routes_witness :
  exists e,
    examples.main (H := reference.lib) reference.inlineSpec = Ready e
    /\ map echo.Path e
       = ["/docs/redoc/openai*"; "/docs/redoc/github*";
          "/docs/swagger-ui/openai*"; "/docs/swagger-ui/github*";
          "/docs/scalar/openai*"; "/docs/scalar/github*";
          "/docs/elements/openai*"; "/docs/elements/github*"].
Proof.
  eexists. split.
  - apply (proj2 (example_main_routes (L := reference.lib)
                    reference.inlineSpec)).
    discriminate.
  - reflexivity.
Defined.

Lemma plain_mount_serves_its_reference_witness :
  elements.handlerFunc (H := reference.lib)
    (elements.normalize (reference.elementsWith reference.inlineSpec ""))
    false template.Builtin
    (reference.get "/docs/elements/github/openapi-spec" "/openapi-spec")
  = echo.Responded
      {| echo.Status := 200;
         echo.Header := [("Content-Type", "text/plain; charset=utf-8")];
         echo.Body := "openapi: 3.0.0" |}.
Proof.
  apply (proj1 (proj2 (plain_mount_serves_its_reference
                         (L := reference.lib)))
           (reference.elementsWith reference.inlineSpec "") _
           "docs" ["elements"; "github"]
           (reference.get "/docs/elements/github/openapi-spec"
              "/openapi-spec"));
    [reflexivity | discriminate | | reflexivity | left; reflexivity].
  repeat constructor; try discriminate;
    intros c Hc; cbn in Hc; intuition (subst c; discriminate).
Defined.
